(** * FlowGenius installer builders: a shallow embedding

    The repository holds two Python scripts that drive an npm based
    packaging toolchain:

    - [build_installer.py]: the flag-driven builder ([FlowGeniusBuilder] and
      its [main]);
    - [build_installer_simple.py]: the interactive, menu-driven builder.

    Both are orchestration code: they look at the filesystem, spawn external
    commands, print, and exit.  The embedding keeps exactly those effects:

    - the filesystem is a finite map from paths (lists of components below
      the project root) to entries, a directory or a regular file with its
      size; permissions, symbolic links and file contents are not modelled
      (the manifest, when it is a regular file, is taken to parse to a JSON
      object, as npm itself requires);
    - an external command is answered by the environment: it completes with
      status zero, exits non-zero ([CalledProcessError]) or cannot be started
      ([FileNotFoundError]), and it may change the filesystem; signals are
      not modelled, so that an interrupt arises at a prompt only, never while
      a command runs;
    - printing appends to the output of the run; wall-clock times and float
      formatting are kept symbolic;
    - Python exceptions, [SystemExit] included, are the error half of the
      monad, and an exception that reaches the top level ends the process
      with the status the interpreter gives it;
    - [argparse] is not modelled: [main] starts from the parsed namespace.

    Strings are byte strings; [lower] and [strip] act on ASCII.  Names are
    matched against patterns as on a POSIX host, letter case included; on a
    Windows host [pathlib] and [glob] fold the case of both, so that there a
    pattern may match more names than [Path.rglob] and [glob_glob] yield.  A
    directory's own [st_size] is not modelled. *)

From Stdlib Require Import ZArith NArith Ascii String List Bool Lia.
From stdpp Require Import base option list gmap fin_maps strings pretty.

Open Scope string_scope.
Open Scope list_scope.

(** ** Python string operations *)

Module Py.

Definition lower_ascii (c : ascii) : ascii :=
  let n := nat_of_ascii c in
  if (65 <=? n)%nat && (n <=? 90)%nat then ascii_of_nat (n + 32) else c.

(** [str.lower()] *)
Fixpoint lower (s : string) : string :=
  match s with
  | EmptyString => EmptyString
  | String c s' => String (lower_ascii c) (lower s')
  end.

(** The characters [str.strip()] removes: tab, line feed, vertical tab, form
    feed, carriage return, the separators 28-31 and the space. *)
Definition is_space (c : ascii) : bool :=
  let n := nat_of_ascii c in
  ((9 <=? n)%nat && (n <=? 13)%nat) || ((28 <=? n)%nat && (n <=? 32)%nat).

Fixpoint lstrip (s : string) : string :=
  match s with
  | EmptyString => EmptyString
  | String c s' => if is_space c then lstrip s' else s
  end.

Fixpoint rstrip (s : string) : string :=
  match s with
  | EmptyString => EmptyString
  | String c s' =>
      match rstrip s' with
      | EmptyString => if is_space c then EmptyString else String c EmptyString
      | r => String c r
      end
  end.

(** [str.strip()] *)
Definition strip (s : string) : string := rstrip (lstrip s).

(** [needle in hay] on strings: substring containment. *)
Fixpoint contains (needle hay : string) : bool :=
  String.prefix needle hay
  || match hay with
     | EmptyString => false
     | String _ hay' => contains needle hay'
     end.

(** [str.rfind(c)]: index of the last occurrence. *)
Fixpoint rfind (c : ascii) (s : string) : option nat :=
  match s with
  | EmptyString => None
  | String d s' =>
      match rfind c s' with
      | Some i => Some (S i)
      | None => if Ascii.eqb c d then Some 0%nat else None
      end
  end.

(** [str.split(sep)] for a one-character separator. *)
Fixpoint split (sep : ascii) (s : string) : list string :=
  match s with
  | EmptyString => [EmptyString]
  | String c s' =>
      if Ascii.eqb c sep then EmptyString :: split sep s'
      else match split sep s' with
           | [] => [String c EmptyString]
           | w :: ws => String c w :: ws
           end
  end.

(** [sep.join(l)] *)
Definition join (sep : string) (l : list string) : string := String.concat sep l.

(** [l[-n:]] *)
Definition last_n {A} (n : nat) (l : list A) : list A :=
  drop (length l - n) l.

(** [fnmatch.fnmatchcase] for patterns made of literal characters, [*] and
    [?] (the only ones the scripts use). *)
Fixpoint fnmatch (pat name : string) : bool :=
  match pat with
  | EmptyString => match name with EmptyString => true | _ => false end
  | String p pat' =>
      if Ascii.eqb p "*" then
        (fix star (n : string) : bool :=
           fnmatch pat' n
           || match n with
              | EmptyString => false
              | String _ n' => star n'
              end) name
      else
        match name with
        | EmptyString => false
        | String c name' =>
            (Ascii.eqb p "?" || Ascii.eqb p c) && fnmatch pat' name'
        end
  end.

(** [PurePath.suffix]: the last dot-separated part of the final component,
    dot included; empty when the only dot leads or ends the name. *)
Definition suffix (name : string) : string :=
  match rfind "." name with
  | Some i =>
      if (0 <? i)%nat && (i <? String.length name - 1)%nat
      then substring i (String.length name - i) name
      else EmptyString
  | None => EmptyString
  end.

End Py.

(** ** The filesystem *)

(** A path is the list of its components below the project root. *)
Abbreviation path := (list string).

Inductive entry := Dir | File (st_size : N).

Global Instance entry_eq_dec : EqDecision entry.
Proof. solve_decision. Defined.

Abbreviation FS := (gmap path entry).

Module Path.

(** [Path.exists()], [Path.is_dir()], [Path.is_file()] *)
Definition exists_ (fs : FS) (p : path) : bool :=
  match fs !! p with Some _ => true | None => false end.
Definition is_dir (fs : FS) (p : path) : bool :=
  match fs !! p with Some Dir => true | _ => false end.
Definition is_file (fs : FS) (p : path) : bool :=
  match fs !! p with Some (File _) => true | _ => false end.

(** [Path.name] and [str(path)] *)
Definition name (p : path) : string := default EmptyString (last p).
Definition str (p : path) : string := Py.join "/" p.

(** [p] lies strictly below [d]. *)
Definition below (d p : path) : Prop := d `prefix_of` p ∧ p ≠ d.

Global Instance below_dec d p : Decision (below d p).
Proof. unfold below. apply _. Defined.

(** [Path.rglob(pattern)]: every entry strictly below the directory whose
    name matches; pathlib does not hide dot files.  On something that is
    not a directory the walk yields nothing.  The match is that of a POSIX
    host: on a Windows host pathlib folds case, and yields the entries whose
    lowered name matches the lowered pattern. *)
Definition rglob (fs : FS) (d : path) (pattern : string) : list (path * entry) :=
  if is_dir fs d then
    map_to_list
      (filter (λ kv : path * entry,
                 below d kv.1 ∧ Py.fnmatch pattern (name kv.1) = true) fs)
  else [].

End Path.

(** What [shutil.rmtree] leaves: the directory and all below it are gone. *)
Definition without_tree (p : path) (fs : FS) : FS :=
  filter (λ kv : path * entry, ¬ p `prefix_of` kv.1) fs.

(** A well-formed tree: every entry's parent is a directory (the root, [[]],
    is implicit).  The operations below never need it; the concrete states
    used as examples satisfy it. *)
Definition well_formed (fs : FS) : Prop :=
  ∀ p n e, fs !! (p ++ [n]) = Some e → p = [] ∨ fs !! p = Some Dir.

(** [glob.glob(str(parent / pattern))] for a pattern in the last component:
    the entries of [parent] whose name matches, dot files left out because
    the pattern does not start with a dot. *)
Definition glob_hit (parent : path) (pattern : string) (p : path) : bool :=
  bool_decide (length p = S (length parent) ∧ parent `prefix_of` p)
  && Py.fnmatch pattern (Path.name p)
  && negb (String.prefix "." (Path.name p)).

Definition glob_glob (fs : FS) (parent : path) (pattern : string) : list path :=
  (map_to_list (filter (λ kv : path * entry, glob_hit parent pattern kv.1 = true) fs)).*1.

(** ** Output, external commands, exceptions *)

(** The helper a message went through: plain [print], the builder's [log]
    with its default colour, or the info, success, warning and error helpers.
    Time stamps, colour codes and the pictographs that open some messages are
    left out of the text. *)
Inductive level := Plain | Log | Info | Success | Warning | Error.

(** A printed line.  [ArtifactLine name size] is the line that shows an
    installer's name with [size / (1024 * 1024)] formatted to one decimal;
    [Elapsed what] is a line that carries a measured duration. *)
Inductive line :=
  | Text (s : string)
  | ArtifactLine (name : string) (st_size : N)
  | Elapsed (what : string).

(** How [subprocess.run(..., check=True)] ends. *)
Inductive run_result :=
  | Completed (stdout : string)
  | NonZero (returncode : Z) (stdout stderr : string)
  | NotFound.

Definition completed (r : run_result) : bool :=
  match r with Completed _ => true | _ => false end.
Definition nonzero (r : run_result) : bool :=
  match r with NonZero _ _ _ => true | _ => false end.

Inductive event :=
  | Say (lv : level) (l : line)
  | Spawn (argv : list string) (shell : bool) (r : run_result).

Inductive exn :=
  | SystemExit (code : Z)
  | KeyboardInterrupt
  | EOFError
  | CalledProcessError (returncode : Z) (stdout stderr : string)
  | FileNotFoundError
  | NotADirectoryError
  | IsADirectoryError.

Global Instance exn_eq_dec : EqDecision exn.
Proof. solve_decision. Defined.

(** [except Exception] catches everything but [SystemExit] and
    [KeyboardInterrupt]. *)
Definition is_Exception (e : exn) : bool :=
  match e with
  | SystemExit _ | KeyboardInterrupt => false
  | _ => true
  end.

(** ** The environment and the monad *)

(** [platform_system] is what [platform.system()] returns.  [subprocess k
    shell argv fs] answers the [k]-th command the process spawns: how it
    ends and the filesystem it leaves. *)
Record Env := {
  platform_system : string;
  subprocess : nat → bool → list string → FS → run_result * FS
}.

Record World := { fs : FS; spawned : nat }.

Inductive res (A : Type) := Ret (a : A) | Raise (e : exn).
Arguments Ret {A} a.
Arguments Raise {A} e.

(** A computation: from a world to a result, the world it leaves, and what
    it printed and spawned, in order. *)
Definition M (A : Type) : Type := World → res A * World * list event.

Definition ret {A} (a : A) : M A := λ w, (Ret a, w, []).

Definition bind {A B} (m : M A) (f : A → M B) : M B := λ w,
  match m w with
  | (Ret a, w', o) => let '(r, w'', o') := f a w' in (r, w'', o ++ o')
  | (Raise e, w', o) => (Raise e, w', o)
  end.

Declare Scope py_scope.
Delimit Scope py_scope with py.
Bind Scope py_scope with M.
Notation "x ← y ; z" := (bind y (λ x : _, z))
  (at level 20, y at level 100, z at level 200, only parsing) : py_scope.
Notation "' x ← y ; z" := (bind y (λ x : _, z))
  (at level 20, x pattern, y at level 100, z at level 200, only parsing) : py_scope.
Notation "x ;; z" := (bind x (λ _, z))
  (at level 100, z at level 200, only parsing, right associativity) : py_scope.
Open Scope py_scope.

Definition raise {A} (e : exn) : M A := λ w, (Raise e, w, []).

(** [try: body except ...: handler]; [handler e = None] when no clause
    matches [e]. *)
Definition try_except {A} (body : M A) (handler : exn → option (M A)) : M A :=
  λ w, match body w with
       | (Raise e, w', o) =>
           match handler e with
           | Some h => let '(r, w'', o') := h w' in (r, w'', o ++ o')
           | None => (Raise e, w', o)
           end
       | ok => ok
       end.

Definition when (b : bool) (m : M unit) : M unit := if b then m else ret tt.

(** [for x in l: body x] *)
Fixpoint for_each {A} (l : list A) (body : A → M unit) : M unit :=
  match l with
  | [] => ret tt
  | x :: l' => body x ;; for_each l' body
  end.

Definition say (lv : level) (l : line) : M unit := λ w, (Ret tt, w, [Say lv l]).
Definition print (s : string) : M unit := say Plain (Text s).
Definition sys_exit {A} (code : Z) : M A := raise (SystemExit code).
Definition get_fs : M FS := λ w, (Ret (fs w), w, []).
Definition set_fs (f : FS) : M unit :=
  λ w, (Ret tt, {| fs := f; spawned := spawned w |}, []).

(** [shutil.rmtree(p)] *)
Definition shutil_rmtree (p : path) : M unit :=
  f ← get_fs;
  match f !! p with
  | Some Dir => set_fs (without_tree p f)
  | Some (File _) => raise NotADirectoryError
  | None => raise FileNotFoundError
  end.

(** [os.remove(p)] *)
Definition os_remove (p : path) : M unit :=
  f ← get_fs;
  match f !! p with
  | Some (File _) => set_fs (delete p f)
  | Some Dir => raise IsADirectoryError
  | None => raise FileNotFoundError
  end.

(** The status the interpreter ends the process with. *)
Definition exit_status {A} (r : res A) : Z :=
  match r with
  | Ret _ => 0
  | Raise (SystemExit code) => code
  | Raise KeyboardInterrupt => 130
  | Raise _ => 1
  end.

Section Spawning.
Variable env : Env.

(** [subprocess.run(argv, check=True, shell=shell)], with
    [capture_output=capture]: returns the captured standard output, raises
    [CalledProcessError] on a non-zero status and [FileNotFoundError] when
    the program cannot be started.  Without capture the output attributes
    are [None], here the empty string (both are falsy). *)
Definition subprocess_run (argv : list string) (shell capture : bool) : M string :=
  λ w,
    let '(r, f) := subprocess env (spawned w) shell argv (fs w) in
    let w' := {| fs := f; spawned := S (spawned w) |} in
    let keep (s : string) := if capture then s else EmptyString in
    (match r with
     | Completed out => Ret (keep out)
     | NonZero rc out err => Raise (CalledProcessError rc (keep out) (keep err))
     | NotFound => Raise FileNotFoundError
     end, w', [Spawn argv shell r]).

End Spawning.

(** The commands spawned in an output, in order, with how each ended. *)
Definition spawns (o : list event) : list (list string * run_result) :=
  omap (λ ev, match ev with Spawn argv _ r => Some (argv, r) | _ => None end) o.

(** Truth value of a string: non-empty. *)
Definition truthy (s : string) : bool := negb (String.eqb s EmptyString).

(** [stat().st_size] of a regular file; a directory's own size, which the
    filesystem decides, is not modelled and reads as 0. *)
Definition st_size_of (f : FS) (p : path) : N :=
  match f !! p with Some (File n) => n | _ => 0%N end.

(** The fixed commands. *)
Definition npm_install : list string := ["npm"; "install"].
Definition npm_run_build : list string := ["npm"; "run"; "build"].
Definition make_win : list string := ["npm"; "run"; "make:win"].
Definition make_mac : list string := ["npm"; "run"; "make:mac"].
Definition make_linux : list string := ["npm"; "run"; "make:linux"].

Definition is_make (argv : list string) : bool :=
  bool_decide (argv = make_win ∨ argv = make_mac ∨ argv = make_linux).

(** ** build_installer.py *)

Module build_installer.

(** The namespace [parse_args] returns. *)
Record Args := {
  windows : bool; macos : bool; linux : bool; all : bool;
  clean : bool; install_deps : bool; verbose : bool
}.

Definition package_json_path : path := ["package.json"].
Definition dist_path : path := ["out"].

Definition directories_to_clean : list path :=
  [ dist_path; ["dist"]; [".webpack"];
    ["src"; "renderer"; "*.js"]; ["src"; "renderer"; "*.js.map"] ].

Definition artifact_extensions : list string :=
  [".exe"; ".dmg"; ".deb"; ".rpm"; ".appimage"; ".zip"].

Definition keywords : list string := ["error"; "warning"; "success"; "complete"].

Section FlowGeniusBuilder.
Variable env : Env.
(** [self.verbose] *)
Variable self_verbose : bool.

Definition log (message : string) : M unit := say Log (Text message).
Definition success (message : string) : M unit := say Success (Text message).
Definition warning (message : string) : M unit := say Warning (Text message).
Definition error (message : string) : M unit := say Error (Text message).
Definition info (message : string) : M unit := say Info (Text message).

(** [__init__]: opens and loads the manifest; only a missing file is
    handled. *)
Definition init : M unit :=
  f ← get_fs;
  match f !! package_json_path with
  | Some (File _) => ret tt
  | Some Dir => raise IsADirectoryError
  | None =>
      error "package.json not found. Make sure you're running this from the FlowGenius root directory.";;
      sys_exit 1
  end.

(** The lines of captured output that [run_command] echoes: those naming a
    keyword, the last three of them. *)
Definition important_lines (stdout : string) : list string :=
  Py.last_n 3
    (List.filter (λ l, existsb (λ keyword, Py.contains keyword (Py.lower l)) keywords)
       (Py.split "010" stdout)).

Definition run_command (command : list string) (description : string) : M bool :=
  info ("Running: " ++ description);;
  when self_verbose (log ("Command: " ++ Py.join " " command));;
  try_except
    ((if self_verbose then
        _ ← subprocess_run env command true false; ret tt
      else
        stdout ← subprocess_run env command true true;
        when (truthy stdout) (for_each (important_lines stdout) print));;
     success ("Completed: " ++ description);;
     ret true)
    (λ e,
       match e with
       | CalledProcessError _ out err =>
           Some (error ("Failed: " ++ description);;
                 when (truthy out) (print ("STDOUT: " ++ out));;
                 when (truthy err) (print ("STDERR: " ++ err));;
                 ret false)
       | FileNotFoundError =>
           Some (error "Command not found. Make sure npm/yarn is installed and in PATH.";;
                 ret false)
       | SystemExit _ | KeyboardInterrupt => None
       | _ =>
           Some (error "Unexpected error running command";; ret false)
       end).

Definition install_dependencies : M bool :=
  run_command npm_install "Installing dependencies".

(** The loop over [npm_commands] of [check_prerequisites], with its
    [break]: the value is [npm_found]. *)
Fixpoint find_npm (npm_commands : list string) : M bool :=
  match npm_commands with
  | [] => ret false
  | npm_cmd :: rest =>
      found ← try_except
        (stdout ← subprocess_run env [npm_cmd; "--version"] true true;
         success ("npm version: " ++ Py.strip stdout ++ " (using " ++ npm_cmd ++ ")");;
         ret true)
        (λ e,
           match e with
           | CalledProcessError rc _ err =>
               Some (when self_verbose
                       (error (npm_cmd ++ " command failed with exit code " ++ pretty rc);;
                        when (truthy err) (error ("STDERR: " ++ err)));;
                     ret false)
           | FileNotFoundError =>
               Some (when self_verbose (error (npm_cmd ++ " not found in PATH"));;
                     ret false)
           | _ => None
           end);
      if found then ret true else find_npm rest
  end.

Definition check_prerequisites : M bool :=
  info "Checking prerequisites...";;
  npm_found ← find_npm ["npm"; "npm.cmd"];
  if negb npm_found then
    error "npm not found. Please install Node.js and npm.";;
    info "You can download Node.js (which includes npm) from: https://nodejs.org/";;
    ret false
  else
    f ← get_fs;
    if negb (Path.exists_ f package_json_path) then
      error "package.json not found";; ret false
    else if negb (Path.exists_ f ["node_modules"]) then
      warning "node_modules not found. Will run npm install.";;
      install_dependencies
    else
      success "All prerequisites met";; ret true.

(** The body of the loop of [clean_build] for one entry of the list. *)
Definition clean_entry (dir_path : path) : M unit :=
  f ← get_fs;
  if Path.exists_ f dir_path then
    if Path.is_dir f dir_path then
      shutil_rmtree dir_path;;
      success ("Removed directory: " ++ Path.str dir_path)
    else
      let parent_dir := removelast dir_path in
      let pattern := Path.name dir_path in
      if Py.contains "*" pattern then
        for_each (glob_glob f parent_dir pattern)
          (λ file, os_remove file;; success ("Removed file: " ++ Path.str file))
      else ret tt
  else ret tt.

Definition clean_build : M bool :=
  info "Cleaning previous build artifacts...";;
  for_each directories_to_clean clean_entry;;
  ret true.

(** The comprehension that selects the installers among the artifacts. *)
Definition is_installer (kv : path * entry) : bool :=
  match kv.2 with File _ => true | Dir => false end
  && existsb (λ ext, Py.contains ext (Py.lower (Py.suffix (Path.name kv.1))))
       artifact_extensions.

Definition show_build_artifacts (platform_name : string) : M unit :=
  f ← get_fs;
  if Path.exists_ f dist_path then
    let artifacts := Path.rglob f dist_path "*" in
    let installers := List.filter is_installer artifacts in
    match installers with
    | [] => ret tt
    | _ =>
        success ("Build artifacts for " ++ platform_name ++ ":");;
        for_each installers
          (λ installer,
             say Info (ArtifactLine (Path.name installer.1) (st_size_of f installer.1));;
             info ("     Path: " ++ Path.str installer.1))
    end
  else ret tt.

Definition build_app : M bool :=
  info "Building FlowGenius application...";;
  ok ← run_command npm_run_build "Building application (Webpack + TypeScript)";
  when ok (success "Application build completed");;
  ret ok.

Definition create_installer_windows : M bool :=
  info "Creating Windows installer...";;
  ok ← run_command make_win "Creating Windows installer (NSIS)";
  when ok (success "Windows installer created";; show_build_artifacts "win32");;
  ret ok.

Definition create_installer_macos : M bool :=
  info "Creating macOS installer...";;
  when (negb (String.eqb (platform_system env) "Darwin"))
    (warning "macOS builds should be created on macOS for best results");;
  ok ← run_command make_mac "Creating macOS installer (DMG)";
  when ok (success "macOS installer created";; show_build_artifacts "darwin");;
  ret ok.

Definition create_installer_linux : M bool :=
  info "Creating Linux installer...";;
  ok ← run_command make_linux "Creating Linux installer (AppImage)";
  when ok (success "Linux installer created";; show_build_artifacts "linux");;
  ret ok.

Definition show_summary (platforms_built : list string) (ok : bool) : M unit :=
  print (String "010" "============================================================");;
  print "FlowGenius Build Summary";;
  print "============================================================";;
  say Plain (Elapsed "Application, version, build time and host platform");;
  when (negb (bool_decide (platforms_built = [])))
    (print ("Platforms Built: " ++ Py.join ", " platforms_built));;
  (if ok then
     success "All builds completed successfully!";;
     f ← get_fs;
     when (Path.exists_ f dist_path)
       (print ("Build output directory: " ++ Path.str dist_path);;
        print "Tip: You can find your installers in the output directory above")
   else
     error "Some builds failed. Check the logs above for details.");;
  print (String.append "============================================================" (String "010" EmptyString)).

End FlowGeniusBuilder.

Section Main.
Variable env : Env.

(** No platform flag: the host's platform, Windows when it is unknown. *)
Definition default_platform (args : Args) : M Args :=
  if negb (windows args || macos args || linux args || all args) then
    let current_platform := Py.lower (platform_system env) in
    if String.eqb current_platform "windows" then
      ret {| windows := true; macos := macos args; linux := linux args; all := all args;
              clean := clean args; install_deps := install_deps args; verbose := verbose args |}
    else if String.eqb current_platform "darwin" then
      ret {| windows := windows args; macos := true; linux := linux args; all := all args;
              clean := clean args; install_deps := install_deps args; verbose := verbose args |}
    else if String.eqb current_platform "linux" then
      ret {| windows := windows args; macos := macos args; linux := true; all := all args;
              clean := clean args; install_deps := install_deps args; verbose := verbose args |}
    else
      print ("Unknown platform: " ++ current_platform ++ ". Building for Windows.");;
      ret {| windows := true; macos := macos args; linux := linux args; all := all args;
              clean := clean args; install_deps := install_deps args; verbose := verbose args |}
  else ret args.

(** The installers of [main]: each requested platform in turn; the value is
    [(platforms_built, overall_success)]. *)
Definition build_installers (args : Args) : M (list string * bool) :=
  let v := verbose args in
  let platforms_built : list string := [] in
  let overall_success := true in
  '(platforms_built, overall_success) ←
    (if all args || windows args then
       ok ← create_installer_windows env v;
       ret (if ok then (platforms_built ++ ["Windows"], overall_success)
             else (platforms_built, false))
     else ret (platforms_built, overall_success));
  '(platforms_built, overall_success) ←
    (if all args || macos args then
       ok ← create_installer_macos env v;
       ret (if ok then (platforms_built ++ ["macOS"], overall_success)
             else (platforms_built, false))
     else ret (platforms_built, overall_success));
  '(platforms_built, overall_success) ←
    (if all args || linux args then
       ok ← create_installer_linux env v;
       ret (if ok then (platforms_built ++ ["Linux"], overall_success)
             else (platforms_built, false))
     else ret (platforms_built, overall_success));
  ret (platforms_built, overall_success).

Definition main (args : Args) : M unit :=
  args ← default_platform args;
  let v := verbose args in
  init;;
  print "";;
  print "FlowGenius Installer Builder";;
  print "========================================";;
  print "";;
  ok ← check_prerequisites env v;
  when (negb ok) (sys_exit 1);;
  when (install_deps args)
    (ok ← install_dependencies env v; when (negb ok) (sys_exit 1));;
  when (clean args)
    (ok ← clean_build; when (negb ok) (sys_exit 1));;
  ok ← build_app env v;
  when (negb ok) (error "Application build failed";; sys_exit 1);;
  '(platforms_built, overall_success) ← build_installers args;
  show_summary platforms_built overall_success;;
  sys_exit (if overall_success then 0 else 1).

End Main.

(** The platforms a namespace asks for, in the order [main] builds them. *)
Inductive platform := Windows | MacOS | Linux.

Global Instance platform_eq_dec : EqDecision platform.
Proof. solve_decision. Defined.

Definition requested (args : Args) : list platform :=
  (if all args || windows args then [Windows] else [])
  ++ (if all args || macos args then [MacOS] else [])
  ++ (if all args || linux args then [Linux] else []).

Definition installer_command (p : platform) : list string :=
  match p with
  | Windows => make_win
  | MacOS => make_mac
  | Linux => make_linux
  end.

End build_installer.

(** ** build_installer_simple.py *)

Module build_installer_simple.

(** What standard input delivers to one [input()] call: a line, or an
    interrupt from the keyboard.  When nothing is left, the input has ended
    and [input()] raises [EOFError]. *)
Inductive tty := Line (s : string) | CtrlC.

Definition print_success (message : string) : M unit := say Success (Text message).
Definition print_error (message : string) : M unit := say Error (Text message).
Definition print_info (message : string) : M unit := say Info (Text message).

Definition print_header : M unit :=
  print (String "010" "==================================================");;
  print "FlowGenius Installer Builder";;
  print "==================================================";;
  print "".

Definition show_menu : M unit :=
  print "Select build option:";;
  print "";;
  print "1. Windows installer only (recommended)";;
  print "2. All platforms";;
  print "3. Clean build + Windows installer";;
  print "4. Clean build + All platforms";;
  print "5. Help";;
  print "6. Exit";;
  print "".

Definition show_help : M unit :=
  print "";;
  print "FlowGenius Installer Builder Help";;
  print "===================================";;
  print "";;
  print "This script builds installers for FlowGenius.";;
  print "";;
  print "Build Options:";;
  print "Windows only: Creates a .exe installer for Windows";;
  print "All platforms: Creates installers for Windows, macOS, and Linux";;
  print "Clean build: Removes previous build files first";;
  print "";;
  print "Requirements:";;
  print "Python 3.6+";;
  print "Node.js and npm";;
  print "Run from FlowGenius root directory";;
  print "";;
  print "Output files will be in the 'out/' directory.";;
  print "".

Definition dirs_to_clean : list string := ["out"; "dist"; ".webpack"].

Definition clean_build : M bool :=
  print_info "Cleaning previous build artifacts...";;
  for_each dirs_to_clean
    (λ dir_name,
       let dir_path : path := [dir_name] in
       f ← get_fs;
       when (Path.exists_ f dir_path)
         (shutil_rmtree dir_path;;
          print_success ("Removed " ++ dir_name ++ "/")));;
  ret true.

Definition show_build_results : M unit :=
  let out_dir : path := ["out"] in
  f ← get_fs;
  if Path.exists_ f out_dir then
    print "";;
    print_success "Build completed! Generated files:";;
    let installers :=
      Path.rglob f out_dir "*.exe" ++ Path.rglob f out_dir "*.dmg"
      ++ Path.rglob f out_dir "*.AppImage" in
    match installers with
    | [] => print_info "No installer files found in out/ directory"
    | _ =>
        for_each installers
          (λ installer,
             say Plain (ArtifactLine (Path.name installer.1) (st_size_of f installer.1));;
             print ("     Path: " ++ Path.str installer.1))
    end;;
    print "";;
    print_info ("All files are in the 'out' directory: " ++ Path.str out_dir)
  else
    print_error "No 'out' directory found. Build may have failed.".

(** [a() and b()] on calls that return booleans. *)
Definition and_then (a b : M bool) : M bool :=
  x ← a; if x then b else ret false.

Section Script.
Variable env : Env.

Definition run_command (command : list string) (description : string) : M bool :=
  print_info ("Running: " ++ description);;
  try_except
    (_ ← subprocess_run env command true true;
     print_success ("Completed: " ++ description);;
     ret true)
    (λ e,
       match e with
       | CalledProcessError _ _ err =>
           Some (print_error ("Failed: " ++ description);;
                 when (truthy err) (print ("Error: " ++ err));;
                 ret false)
       | _ => None
       end).

Definition check_prerequisites : M bool :=
  print_info "Checking prerequisites...";;
  print_success "Python version";;
  npm ← try_except
    (stdout ← subprocess_run env ["npm"; "--version"] false true;
     print_success ("npm version: " ++ Py.strip stdout);;
     ret true)
    (λ e,
       match e with
       | CalledProcessError _ _ _ | FileNotFoundError =>
           Some (print_error "npm not found. Please install Node.js from https://nodejs.org/";;
                 ret false)
       | _ => None
       end);
  if negb npm then ret false
  else
    f ← get_fs;
    if negb (Path.exists_ f ["package.json"]) then
      print_error "package.json not found. Make sure you're in the FlowGenius directory.";;
      ret false
    else
      installed ←
        (if negb (Path.exists_ f ["node_modules"]) then
           print_info "node_modules not found. Installing dependencies...";;
           run_command npm_install "Installing dependencies"
         else ret true);
      if negb installed then ret false
      else print_success "All prerequisites met!";; ret true.

Definition build_app : M bool :=
  run_command npm_run_build "Building application".

Definition create_windows_installer : M bool :=
  run_command make_win "Creating Windows installer".

Definition create_all_installers : M bool :=
  let success := true in
  ok ← run_command make_win "Creating Windows installer";
  let success := if negb ok then false else success in
  print_info "Attempting macOS build (may fail on non-Mac systems)...";;
  try_except
    (_ ← subprocess_run env make_mac false true;
     print_success "macOS installer created")
    (λ e,
       match e with
       | CalledProcessError _ _ _ =>
           Some (print_info "macOS build skipped (requires macOS)")
       | _ => None
       end);;
  ok ← run_command make_linux "Creating Linux installer";
  let success := if negb ok then false else success in
  ret success.

(** The branches of the menu that build: the value is [success].  [None]
    for any other choice. *)
Definition selection (choice : string) : option (M bool) :=
  if String.eqb choice "1" then
    Some (print "";; print_info "Building Windows installer...";;
          and_then build_app create_windows_installer)
  else if String.eqb choice "2" then
    Some (print "";; print_info "Building for all platforms...";;
          and_then build_app create_all_installers)
  else if String.eqb choice "3" then
    Some (print "";; print_info "Clean build for Windows...";;
          and_then clean_build (and_then build_app create_windows_installer))
  else if String.eqb choice "4" then
    Some (print "";; print_info "Clean build for all platforms...";;
          and_then clean_build (and_then build_app create_all_installers))
  else None.

(** "Show results" in the loop of [main]. *)
Definition show_results (success : bool) : M unit :=
  print "";;
  print "==================================================";;
  (if success then
     say Success (Elapsed "Build completed");;
     show_build_results
   else print_error "Build failed. Check the errors above.");;
  print "==================================================";;
  print "".

(** The [while True] loop of [main]; each [input()] takes the next item of
    standard input. *)
Fixpoint menu_loop (stdin : list tty) : M unit :=
  print "";;
  show_menu;;
  print "Enter your choice (1-6): ";;
  match stdin with
  | [] => raise EOFError
  | CtrlC :: _ => print "";; print "Goodbye!";; sys_exit 0
  | Line l :: rest =>
      let choice := Py.strip l in
      match selection choice with
      | Some build =>
          success ← build;
          show_results success;;
          print "Build another? (y/n): ";;
          match rest with
          | [] => raise EOFError
          | CtrlC :: _ => raise KeyboardInterrupt
          | Line answer :: rest' =>
              let continue_choice := Py.lower (Py.strip answer) in
              if negb (bool_decide (continue_choice ∈ ["y"; "yes"]))
              then print "Goodbye!"
              else menu_loop rest'
          end
      | None =>
          if String.eqb choice "5" then show_help;; menu_loop rest
          else if String.eqb choice "6" then
            print "";; print "Goodbye!";; sys_exit 0
          else
            print_error "Invalid choice. Please enter 1-6.";; menu_loop rest
      end
  end.

Definition main (stdin : list tty) : M unit :=
  print_header;;
  ok ← check_prerequisites;
  if negb ok then
    print "";;
    print "Press Enter to exit...";;
    match stdin with
    | [] => raise EOFError
    | CtrlC :: _ => raise KeyboardInterrupt
    | Line _ :: _ => sys_exit 1
    end
  else menu_loop stdin.

End Script.

End build_installer_simple.

(** ** Runs and what is read off them *)

Definition start (f : FS) : World := {| fs := f; spawned := 0 |}.

(** Projections of a run. *)
Definition result {A} (x : res A * World * list event) : res A := x.1.1.
Definition final {A} (x : res A * World * list event) : World := x.1.2.
Definition output {A} (x : res A * World * list event) : list event := x.2.

(** The world after the next command. *)
Definition after (env : Env) (shell : bool) (argv : list string) (w : World) : World :=
  {| fs := (subprocess env (spawned w) shell argv (fs w)).2; spawned := S (spawned w) |}.
Arguments after : simpl never.

(** [wp m Q w]: running [m] from [w] ends in a result, a world and an
    output that [Q] accepts. *)
Definition wp {A} (m : M A) (Q : res A → World → list event → Prop) (w : World) : Prop :=
  Q (result (m w)) (final (m w)) (output (m w)).

(** [w'] comes from [w] by commands of the environment and by removals. *)
Inductive evolves (env : Env) (w : World) : World → Prop :=
  | evolves_refl : evolves env w w
  | evolves_spawn w1 shell cmd :
      evolves env w w1 → evolves env w (after env shell cmd w1)
  | evolves_shrink w1 w2 :
      evolves env w w1 → fs w2 ⊆ fs w1 → evolves env w w2.

(** A call that runs one command through the shell and returns whether it
    completed. *)
Definition ran (env : Env) (cmd : list string) (w : World)
    (r : res bool) (w' : World) (o : list event) : Prop :=
  ∃ rr, rr = (subprocess env (spawned w) true cmd (fs w)).1
        ∧ r = Ret (completed rr) ∧ w' = after env true cmd w
        ∧ spawns o = [(cmd, rr)].

(** A spawned command's answer is one the environment gave. *)
Definition answered (env : Env) (s : list string * run_result) : Prop :=
  ∃ k f, s.2 = (subprocess env k true s.1 f).1.

(** The commands of the prerequisite check and of the dependency install. *)
Definition setup_command (argv : list string) : bool :=
  bool_decide (argv ∈ [["npm"; "--version"]; ["npm.cmd"; "--version"]; npm_install]).

Definition is_build (s : list string * run_result) : bool :=
  bool_decide (s.1 = npm_run_build).

(** Every build command of the output returned failure. *)
Definition all_builds_failed (o : list event) : bool :=
  forallb (λ s, negb (is_build s) || negb (completed s.2)) (spawns o).

(** The output holds no installer-generation command. *)
Definition no_installer_spawned (o : list event) : bool :=
  forallb (λ s, negb (is_make s.1)) (spawns o).

Definition count_builds (o : list event) : nat :=
  length (List.filter is_build (spawns o)).

Definition build_succeeded (o : list event) : Prop :=
  ∃ rb, (npm_run_build, rb) ∈ spawns o ∧ completed rb = true.

(** The artifacts an output lists, each with its size in bytes. *)
Definition artifact_lines (o : list event) : list (string * N) :=
  omap (λ ev, match ev with
              | Say _ (ArtifactLine name size) => Some (name, size)
              | _ => None
              end) o.

(** What a reporter shows of an installer: its name and its size. *)
Definition listed (f : FS) (installer : path * entry) : string * N :=
  (Path.name installer.1, st_size_of f installer.1).

(** A pattern without wildcards. *)
Fixpoint is_literal (pat : string) : bool :=
  match pat with
  | EmptyString => true
  | String c pat' => negb (Ascii.eqb c "*") && negb (Ascii.eqb c "?") && is_literal pat'
  end.

(** The two lines the statements name. *)
Definition cleaning : event := Say Info (Text "Cleaning previous build artifacts...").
Definition not_found : event :=
  Say Error (Text "No 'out' directory found. Build may have failed.").

(** ** Conditions on the filesystem and on the environment *)

(** The filesystem errors the scripts let through. *)
Definition fs_error (e : exn) : Prop :=
  e = IsADirectoryError ∨ e = NotADirectoryError ∨ e = FileNotFoundError.

Definition output_paths : list path := [["out"]; ["dist"]; [".webpack"]].
Definition renderer : path := ["src"; "renderer"].
Definition glob_patterns : list string := ["*.js"; "*.js.map"].

(** Each output path is absent or a directory. *)
Definition no_file_in_the_way (f : FS) : Prop :=
  ∀ p, p ∈ output_paths → f !! p = None ∨ f !! p = Some Dir.

(** No directory of [src/renderer] has a name the glob patterns match. *)
Definition glob_meets_no_directory (f : FS) : Prop :=
  ∀ (p : path) pat, pat ∈ glob_patterns → f !! p = Some Dir → glob_hit renderer pat p = false.

(** Where a regular file is literally named by one of the patterns, no
    directory of [src/renderer] has a name that pattern matches. *)
Definition glob_removes_files_only (f : FS) : Prop :=
  ∀ pat, pat ∈ glob_patterns → Path.is_file f (renderer ++ [pat]) = true →
         ∀ p : path, f !! p = Some Dir → glob_hit renderer pat p = false.

(** An entry of the flag-driven cleaner's list that it removes without
    error: absent, a directory, or a regular file whose name is a pattern
    that matches itself and no directory. *)
Definition entry_ok (f : FS) (p : path) : Prop :=
  match f !! p with
  | None | Some Dir => True
  | Some (File _) =>
      Py.contains "*" (Path.name p) = true
      ∧ glob_hit (removelast p) (Path.name p) p = true
      ∧ ∀ q, glob_hit (removelast p) (Path.name p) q = true → f !! q ≠ Some Dir
  end.

(** No command is ever missing. *)
Definition never_missing (env : Env) : Prop :=
  ∀ k sh cmd f, (subprocess env k sh cmd f).1 ≠ NotFound.

(** No command puts a regular file where an output directory belongs. *)
Definition keeps_output_paths (env : Env) : Prop :=
  ∀ k sh cmd f, no_file_in_the_way f → no_file_in_the_way (subprocess env k sh cmd f).2.

(** ** The flag-driven script: what the statements speak of *)

Section flag_vocabulary.
Import build_installer.

(** The namespace after the default platform has been filled in: the value
    [default_platform] returns. *)
Definition resolved (env : Env) (args : Args) : Args :=
  match result (default_platform env args (start ∅)) with
  | Ret a => a
  | Raise _ => args
  end.

(** How often an output attempts a platform's installer command. *)
Definition attempts (p : platform) (o : list event) : nat :=
  length (List.filter (λ s, bool_decide (s.1 = installer_command p)) (spawns o)).

Definition installer_succeeded (p : platform) (o : list event) : Prop :=
  ∃ rr, (installer_command p, rr) ∈ spawns o ∧ completed rr = true.

End flag_vocabulary.

(** ** The interactive script: what the statements speak of *)

Section interactive_vocabulary.
Import build_installer_simple.

(** The verdict a printed line gives on a build, if it is one of the two
    reports of the menu loop: the success line with the build time, or the
    failure line. *)
Definition verdict (ev : event) : option bool :=
  match ev with
  | Say Success (Elapsed _) => Some true
  | Say Error (Text s) =>
      if String.eqb s "Build failed. Check the errors above." then Some false else None
  | _ => None
  end.

Definition verdicts (o : list event) : list bool := omap verdict o.

(** What the interactive [run_command] makes of a command's answer. *)
Definition run_value (rr : run_result) : res bool :=
  match rr with
  | NotFound => Raise FileNotFoundError
  | _ => Ret (completed rr)
  end.

(** Failed builds are accounted for: no installer command, no success
    report, and one failure report per build, the last build excepted when
    it ended the run with an error. *)
Definition accounted {A} (r : res A) (o : list event) : Prop :=
  all_builds_failed o = true →
  no_installer_spawned o = true
  ∧ Forall (λ v, v = false) (verdicts o)
  ∧ (count_builds o = length (verdicts o)
     ∨ count_builds o = S (length (verdicts o)) ∧ ∃ e, r = Raise e ∧ fs_error e).

(** What one building choice of the menu, with its report, guarantees. *)
Definition selection_post (env : Env) (w : World)
    (r : res unit) (w' : World) (o : list event) : Prop :=
  evolves env w w'
  ∧ (r = Ret tt ∨ ∃ e, r = Raise e ∧ fs_error e)
  ∧ (never_missing env → no_file_in_the_way (fs w) → r = Ret tt)
  ∧ accounted r o.

(** The menu choices that build. *)
Definition builds (choice : string) : bool :=
  String.eqb choice "1" || String.eqb choice "2"
  || String.eqb choice "3" || String.eqb choice "4".

(** How a session ends when no exception arises between the prompts, read
    off the input alone: the exit paths of the menu (choice 6, an interrupt
    at the menu prompt, an answer other than y or yes), or the end of the
    input or an interrupt at the continue prompt. *)
Fixpoint session_end (stdin : list tty) : res unit :=
  match stdin with
  | [] => Raise EOFError
  | CtrlC :: _ => Raise (SystemExit 0)
  | Line l :: rest =>
      let choice := Py.strip l in
      if builds choice then
        match rest with
        | [] => Raise EOFError
        | CtrlC :: _ => Raise KeyboardInterrupt
        | Line answer :: rest' =>
            if bool_decide (Py.lower (Py.strip answer) ∈ ["y"; "yes"])
            then session_end rest'
            else Ret tt
        end
      else if String.eqb choice "6" then Raise (SystemExit 0)
      else session_end rest
  end.

(** What the menu loop guarantees. *)
Definition loop_post (env : Env) (stdin : list tty) (w : World)
    (r : res unit) (w' : World) (o : list event) : Prop :=
  (r = Ret tt ∨ r = Raise (SystemExit 0) ∨ r = Raise EOFError
   ∨ r = Raise KeyboardInterrupt ∨ ∃ e, r = Raise e ∧ fs_error e)
  ∧ (never_missing env → keeps_output_paths env → no_file_in_the_way (fs w) →
     r = session_end stdin)
  ∧ accounted r o.

End interactive_vocabulary.

(** ** Further readings of a run *)

(** The lines printed with plain [print]. *)
Definition echoed (o : list event) : list string :=
  omap (λ ev, match ev with Say Plain (Text s) => Some s | _ => None end) o.

(** The messages printed through the warning helper. *)
Definition warnings (o : list event) : list string :=
  omap (λ ev, match ev with Say Warning (Text s) => Some s | _ => None end) o.

(** What a printed line says of the whole run, if it is one of the two
    closing lines of [show_summary]. *)
Definition summary (ev : event) : option bool :=
  match ev with
  | Say Success (Text s) =>
      if String.eqb s "All builds completed successfully!" then Some true else None
  | Say Error (Text s) =>
      if String.eqb s "Some builds failed. Check the logs above for details."
      then Some false else None
  | _ => None
  end.

Definition summaries (o : list event) : list bool := omap summary o.

(** The closing line of a run agrees with the way it ends. *)
Definition agrees (r : res unit) (s : list bool) : Prop :=
  (s = [true] ∧ r = Raise (SystemExit 0))
  ∨ (s = [false] ∧ r = Raise (SystemExit 1))
  ∨ (s = [] ∧ exit_status r = 1%Z).

(** What a run does, its printing left aside: the result, the world it
    leaves and the commands it spawned. *)
Definition effect {A} (x : res A * World * list event)
    : res A * World * list (list string * run_result) :=
  (result x, final x, spawns (output x)).

(** Two computations that differ in their printing at most. *)
Definition same {A} (m1 m2 : M A) : Prop := ∀ w, effect (m1 w) = effect (m2 w).

(** [p] lies in the tree of one of the listed paths that is a directory. *)
Definition swept (f : FS) (ds : list path) (p : path) : bool :=
  existsb (λ d, bool_decide (f !! d = Some Dir ∧ d `prefix_of` p)) ds.

(** No installer command is spawned unless the most recent build command
    completed; [ok] tells whether it did. *)
Fixpoint guarded (ok : bool) (ss : list (list string * run_result)) : bool :=
  match ss with
  | [] => true
  | s :: ss' =>
      if is_build s then guarded (completed s.2) ss'
      else if is_make s.1 then ok && guarded ok ss'
      else guarded ok ss'
  end.

(** How a session of the interactive script follows up on its builds.
    [pending] is the outcome of the build whose report is still due, if
    there is one. The walk breaks off, with [None], where a build command
    starts while a report is due; where an installer command is spawned
    unless a completed build awaits its report; and where a report is printed
    with no build to report on, or announces success for a build that did not
    complete. Otherwise it returns what is pending at the end. *)
Fixpoint settled (pending : option bool) (o : list event) : option (option bool) :=
  match o with
  | [] => Some pending
  | Spawn argv _ r :: o' =>
      if bool_decide (argv = npm_run_build) then
        match pending with
        | None => settled (Some (completed r)) o'
        | Some _ => None
        end
      else if is_make argv then
        match pending with
        | Some true => settled pending o'
        | _ => None
        end
      else settled pending o'
  | ev :: o' =>
      match verdict ev with
      | None => settled pending o'
      | Some v =>
          match pending with
          | Some b => if implb v b then settled None o' else None
          | None => None
          end
      end
  end.

(** Every build of an output got its report, or the run ended on a
    filesystem error with the last build still pending. *)
Definition heeded {A} (r : res A) (o : list event) : Prop :=
  ∃ pending, settled None o = Some pending
             ∧ (pending = None ∨ ∃ e, r = Raise e ∧ fs_error e).

(** The rounds of a session of the interactive script: the building choices
    it reads as choices when no exception arises between the prompts. *)
Fixpoint rounds (stdin : list build_installer_simple.tty) : nat :=
  match stdin with
  | [] => 0
  | build_installer_simple.CtrlC :: _ => 0
  | build_installer_simple.Line l :: rest =>
      let choice := Py.strip l in
      if builds choice then
        S (match rest with
           | build_installer_simple.Line answer :: rest' =>
               if bool_decide (Py.lower (Py.strip answer) ∈ ["y"; "yes"])
               then rounds rest'
               else 0
           | _ => 0
           end)
      else if String.eqb choice "6" then 0
      else rounds rest
  end.

(** One round of the interactive script: nothing was spawned, or a build
    and, only when it completed, installer commands after it. *)
Definition round (ss : list (list string * run_result)) : Prop :=
  ss = []
  ∨ ∃ rb ms, ss = (npm_run_build, rb) :: ms
             ∧ Forall (λ s, is_make s.1 = true) ms
             ∧ (completed rb = false → ms = []).

(** An item of input that starts no build when it is read as a menu
    choice. *)
Definition idle (t : build_installer_simple.tty) : bool :=
  match t with
  | build_installer_simple.Line l => negb (builds (Py.strip l))
  | build_installer_simple.CtrlC => true
  end.

(** ** What the flag-driven script needs to succeed

    The overall success of a run as the statements describe it, told from
    the answers of the environment and from the filesystem, not from what
    the run prints or spawns. *)

Section flag_success.
Import build_installer.
Variable env : Env.

(** The answer of the environment to the next command. *)
Definition answer (argv : list string) (w : World) : run_result :=
  (subprocess env (spawned w) true argv (fs w)).1.

(** [npm] is there: [npm --version] completes or, when it does not,
    [npm.cmd --version] does. *)
Definition npm_found (w : World) : bool :=
  completed (answer ["npm"; "--version"] w)
  || completed (answer ["npm.cmd"; "--version"] (after env true ["npm"; "--version"] w)).

(** The world after the probes for [npm]. *)
Definition probed (w : World) : World :=
  let w1 := after env true ["npm"; "--version"] w in
  if completed (answer ["npm"; "--version"] w) then w1
  else after env true ["npm.cmd"; "--version"] w1.

(** The prerequisites are met: [npm] is there, the manifest exists, and
    [node_modules] exists or [npm install] completes. *)
Definition prerequisites_met (w : World) : bool :=
  npm_found w
  && Path.exists_ (fs (probed w)) ["package.json"]
  && (Path.exists_ (fs (probed w)) ["node_modules"]
      || completed (answer npm_install (probed w))).

(** The world the prerequisite check leaves when the prerequisites are
    met. *)
Definition prepared (w : World) : World :=
  if Path.exists_ (fs (probed w)) ["node_modules"] then probed w
  else after env true npm_install (probed w).

(** Cleaning returns success. *)
Definition clean_passes (w : World) : bool :=
  match result (clean_build w) with
  | Ret ok => ok
  | Raise _ => false
  end.

(** The installer command of each listed platform completes, each run in
    the world the one before it left. *)
Fixpoint installers_complete (ps : list platform) (w : World) : bool :=
  match ps with
  | [] => true
  | p :: ps' =>
      completed (answer (installer_command p) w)
      && installers_complete ps' (after env true (installer_command p) w)
  end.

(** The overall run succeeds: the manifest is a regular file, the
    prerequisites are met, [npm install] completes when [--install-deps] is
    given, cleaning returns success when [--clean] is given, the build
    command completes, and so does the installer command of every requested
    platform. *)
Definition overall_success (args : Args) (w : World) : bool :=
  Path.is_file (fs w) ["package.json"]
  && prerequisites_met w
  && (let w1 := prepared w in
      (negb (install_deps args) || completed (answer npm_install w1))
      && (let w2 := if install_deps args then after env true npm_install w1 else w1 in
          (negb (clean args) || clean_passes w2)
          && (let w3 := if clean args then final (clean_build w2) else w2 in
              completed (answer npm_run_build w3)
              && installers_complete (requested (resolved env args))
                   (after env true npm_run_build w3)))).

End flag_success.

(** ** The installer step of the flag-driven script *)

(** The name [main] appends to [platforms_built] for a platform. *)
Definition built_name (p : build_installer.platform) : string :=
  match p with
  | build_installer.Windows => "Windows"
  | build_installer.MacOS => "macOS"
  | build_installer.Linux => "Linux"
  end.

(** The installer command of a platform is among the spawned commands and
    completed. *)
Definition succeeded (ss : list (list string * run_result))
    (p : build_installer.platform) : bool :=
  existsb (λ s, bool_decide (s.1 = build_installer.installer_command p) && completed s.2) ss.

(** The installer step of a platform, and the tag it shows its artifacts
    under. *)
Definition create_installer (env : Env) (verbose : bool) (p : build_installer.platform) : M bool :=
  match p with
  | build_installer.Windows => build_installer.create_installer_windows env verbose
  | build_installer.MacOS => build_installer.create_installer_macos env verbose
  | build_installer.Linux => build_installer.create_installer_linux env verbose
  end.

Definition platform_tag (p : build_installer.platform) : string :=
  match p with
  | build_installer.Windows => "win32"
  | build_installer.MacOS => "darwin"
  | build_installer.Linux => "linux"
  end.

(** The namespace with [--verbose] set or cleared. *)
Definition with_verbose (b : bool) (args : build_installer.Args) : build_installer.Args :=
  {| build_installer.windows := build_installer.windows args;
     build_installer.macos := build_installer.macos args;
     build_installer.linux := build_installer.linux args;
     build_installer.all := build_installer.all args;
     build_installer.clean := build_installer.clean args;
     build_installer.install_deps := build_installer.install_deps args;
     build_installer.verbose := b |}.

(** ** Concrete worlds *)

(** A checkout with its manifest and installed dependencies. *)
Definition checkout : FS :=
  list_to_map
    [ (["package.json"], File 1200);
      (["node_modules"], Dir);
      (["src"], Dir);
      (["src"; "renderer"], Dir);
      (["src"; "renderer"; "app.js"], File 5000) ].

(** A checkout after a build: output directories, an installer and a file
    of debugging symbols. *)
Definition built : FS :=
  <[["out"; "symbols.debug"] := File 4096]>
    (<[["out"; "FlowGenius Setup.exe"] := File 83886080]>
       (<[["out"] := Dir]> (<[[".webpack"] := Dir]> checkout))).

(** A checkout in which [out] is a regular file. *)
Definition blocked : FS := <[["out"] := File 12]> checkout.

(** A checkout after a build that holds the directory
    [src/renderer/vendor.js]. *)
Definition vendored : FS := <[["src"; "renderer"; "vendor.js"] := Dir]> built.

(** A checkout that holds the directory [src/renderer/vendor.js] and a
    regular file whose name is the pattern [*.js] itself. *)
Definition tangled : FS :=
  <[["src"; "renderer"; "*.js"] := File 40]>
    (<[["src"; "renderer"; "vendor.js"] := Dir]> checkout).

(** An environment in which every command completes and leaves the
    filesystem as it was. *)
Definition calm (host : string) : Env :=
  {| platform_system := host;
     subprocess := λ _ _ _ f, (Completed EmptyString, f) |}.

(** What the packaging commands leave behind when they complete. *)
Definition produce (argv : list string) (f : FS) : FS :=
  if bool_decide (argv = make_win) then
    <[["out"; "FlowGenius Setup.exe"] := File 83886080]> (<[["out"] := Dir]> f)
  else if bool_decide (argv = make_mac) then
    <[["out"; "FlowGenius.dmg"] := File 94371840]> (<[["out"] := Dir]> f)
  else if bool_decide (argv = make_linux) then
    <[["out"; "FlowGenius.AppImage"] := File 99614720]> (<[["out"] := Dir]> f)
  else f.

(** An environment in which the commands listed as broken exit with status
    1 and every other command completes. *)
Definition toolchain (host : string) (broken : list (list string)) : Env :=
  {| platform_system := host;
     subprocess := λ _ _ argv f,
       if bool_decide (argv ∈ broken) then (NonZero 1 EmptyString "npm ERR!", f)
       else (Completed EmptyString, produce argv f) |}.

(** An environment whose build command completes only while [out] is
    absent; every other command completes. *)
Definition once : Env :=
  {| platform_system := "Linux";
     subprocess := λ _ _ argv f,
       if bool_decide (argv = npm_run_build) && Path.exists_ f ["out"]
       then (NonZero 1 EmptyString "npm ERR!", f)
       else (Completed EmptyString, produce argv f) |}.

(** A host on which [npm] answers with a non-zero status. *)
Definition no_npm : Env :=
  toolchain "Linux" [["npm"; "--version"]; ["npm.cmd"; "--version"]].

(** An environment in which the commands listed as gone cannot be started
    and every other command completes. *)
Definition lacking (host : string) (gone : list (list string)) : Env :=
  {| platform_system := host;
     subprocess := λ _ _ argv f,
       if bool_decide (argv ∈ gone) then (NotFound, f)
       else (Completed EmptyString, produce argv f) |}.

Definition no_flags : build_installer.Args :=
  {| build_installer.windows := false; build_installer.macos := false;
     build_installer.linux := false; build_installer.all := false;
     build_installer.clean := false; build_installer.install_deps := false;
     build_installer.verbose := false |}.

(** A session of the interactive script: all platforms, again, Windows
    only, stop. *)
Definition two_rounds : list build_installer_simple.tty :=
  [build_installer_simple.Line "2"; build_installer_simple.Line "y";
   build_installer_simple.Line "1"; build_installer_simple.Line "n"].

(** [--all --clean] *)
Definition all_platforms : build_installer.Args :=
  {| build_installer.windows := false; build_installer.macos := false;
     build_installer.linux := false; build_installer.all := true;
     build_installer.clean := true; build_installer.install_deps := false;
     build_installer.verbose := false |}.

(** [--install-deps] *)
Definition install_first : build_installer.Args :=
  {| build_installer.windows := false; build_installer.macos := false;
     build_installer.linux := false; build_installer.all := false;
     build_installer.clean := false; build_installer.install_deps := true;
     build_installer.verbose := false |}.

(** The Windows installer, once more, the Windows installer again, stop. *)
Definition again : list build_installer_simple.tty :=
  [build_installer_simple.Line "1"; build_installer_simple.Line "y";
   build_installer_simple.Line "1"; build_installer_simple.Line "n"].

(** * Python's operations on examples *)

Example suffix_examples :
  Py.suffix "FlowGenius Setup.exe" = ".exe"
  ∧ Py.suffix "archive.tar.gz" = ".gz"
  ∧ Py.suffix "FlowGenius.AppImage" = ".AppImage"
  ∧ Py.suffix ".bashrc" = EmptyString
  ∧ Py.suffix "README" = EmptyString.
Proof. repeat split; reflexivity. Qed.

Example strip_lower_examples :
  Py.lower (Py.strip "  Yes  ") = "yes"
  ∧ Py.strip (String "009" (String.append "3 " (String "010" EmptyString))) = "3"
  ∧ Py.strip "   " = EmptyString
  ∧ Py.strip "a b" = "a b".
Proof. repeat split; reflexivity. Qed.

Example fnmatch_examples :
  Py.fnmatch "*.exe" "FlowGenius Setup.exe" = true
  ∧ Py.fnmatch "*.AppImage" "flowgenius.appimage" = false
  ∧ Py.fnmatch "*.js" "app.js.map" = false
  ∧ Py.fnmatch "*.js.map" "app.js.map" = true
  ∧ Py.fnmatch "*" EmptyString = true
  ∧ Py.fnmatch "a?c" "abc" = true.
Proof. repeat split; reflexivity. Qed.

Example split_examples :
  Py.split "010" (String.append "one" (String "010" "two")) = ["one"; "two"]
  ∧ Py.split "010" EmptyString = [EmptyString]
  ∧ Py.last_n 3 ["a"; "b"; "c"; "d"] = ["b"; "c"; "d"]
  ∧ Py.last_n 3 ["a"] = ["a"]
  ∧ Py.contains ".deb" ".debug" = true
  ∧ Py.contains ".exe" ".ex" = false.
Proof. repeat split; reflexivity. Qed.

Example important_lines_example :
  build_installer.important_lines
    (String.append "webpack 5.0" (String "010"
       (String.append "WARNING in ./src" (String "010" "compiled successfully"))))
  = ["WARNING in ./src"; "compiled successfully"].
Proof. reflexivity. Qed.

Example well_formed_checkout : well_formed checkout ∧ well_formed built ∧ well_formed blocked.
Proof.
  assert (∀ f : FS,
            forallb (λ kv : path * entry,
                       match removelast kv.1 with
                       | [] => true
                       | p => bool_decide (f !! p = Some Dir)
                       end) (map_to_list f) = true → well_formed f) as H.
  { intros f Hf p n e He. rewrite forallb_forall in Hf.
    apply elem_of_map_to_list, list_elem_of_In, Hf in He. cbn [fst] in He.
    rewrite removelast_last in He. destruct p; [by left|right].
    by apply bool_decide_eq_true in He. }
  split_and!; apply H; vm_compute; reflexivity.
Qed.

(** * Reasoning rules *)

Lemma wp_mono {A} (m : M A) (Q Q' : res A → World → list event → Prop) w :
  wp m Q w → (∀ r w' o, Q r w' o → Q' r w' o) → wp m Q' w.
Proof. unfold wp. auto. Qed.

Lemma wp_ret {A} (a : A) Q w : Q (Ret a) w [] → wp (ret a) Q w.
Proof. done. Qed.

Lemma wp_raise {A} (e : exn) (Q : res A → World → list event → Prop) w :
  Q (Raise e) w [] → wp (raise e) Q w.
Proof. done. Qed.

Lemma wp_bind {A B} (m : M A) (f : A → M B) Q w :
  wp m (λ r w' o,
          match r with
          | Ret a => wp (f a) (λ r' w'' o', Q r' w'' (o ++ o')) w'
          | Raise e => Q (Raise e) w' o
          end) w →
  wp (bind m f) Q w.
Proof.
  unfold wp, bind, result, final, output.
  destruct (m w) as [[[a|e] w'] o]; simpl; [|done].
  destruct (f a w') as [[r w''] o']; done.
Qed.

Lemma wp_try_except {A} (body : M A) handler Q w :
  wp body (λ r w' o,
             match r with
             | Ret a => Q (Ret a) w' o
             | Raise e =>
                 match handler e with
                 | Some h => wp h (λ r' w'' o', Q r' w'' (o ++ o')) w'
                 | None => Q (Raise e) w' o
                 end
             end) w →
  wp (try_except body handler) Q w.
Proof.
  unfold wp, try_except, result, final, output.
  destruct (body w) as [[[a|e] w'] o]; simpl; [done|].
  destruct (handler e) as [h|]; [|done].
  destruct (h w') as [[r w''] o']; done.
Qed.

Lemma wp_say lv l (Q : res unit → World → list event → Prop) w :
  Q (Ret tt) w [Say lv l] → wp (say lv l) Q w.
Proof. done. Qed.

Lemma wp_get_fs (Q : res FS → World → list event → Prop) w :
  Q (Ret (fs w)) w [] → wp get_fs Q w.
Proof. done. Qed.

Lemma wp_when (b : bool) m (Q : res unit → World → list event → Prop) w :
  (b = true → wp m Q w) → (b = false → Q (Ret tt) w []) → wp (when b m) Q w.
Proof. intros H1 H2. destruct b; [by apply H1 | by apply wp_ret, H2]. Qed.

Lemma wp_subprocess_run env argv shell (capture : bool)
    (Q : res string → World → list event → Prop) w :
  let r := (subprocess env (spawned w) shell argv (fs w)).1 in
  let keep (s : string) := if capture then s else EmptyString in
  (∀ out, r = Completed out →
          Q (Ret (keep out)) (after env shell argv w) [Spawn argv shell r]) →
  (∀ rc out err, r = NonZero rc out err →
          Q (Raise (CalledProcessError rc (keep out) (keep err)))
            (after env shell argv w) [Spawn argv shell r]) →
  (r = NotFound →
          Q (Raise FileNotFoundError) (after env shell argv w) [Spawn argv shell r]) →
  wp (subprocess_run env argv shell capture) Q w.
Proof.
  unfold wp, subprocess_run, after, result, final, output.
  destruct (subprocess env (spawned w) shell argv (fs w)) as [r f]; simpl.
  intros H1 H2 H3. destruct r; eauto.
Qed.

Lemma spawns_app o1 o2 : spawns (o1 ++ o2) = spawns o1 ++ spawns o2.
Proof. apply omap_app. Qed.

(** A loop whose body only prints leaves the world alone and spawns
    nothing. *)
Lemma for_each_prints {A} (g : A → list event) (body : A → M unit) l w :
  (∀ x w, body x w = (Ret tt, w, g x)) →
  for_each l body w = (Ret tt, w, flat_map g l).
Proof.
  intros Hb. revert w. induction l as [|x l IH]; intros w; [done|].
  simpl. unfold bind. rewrite Hb, IH. done.
Qed.

Lemma wp_for_each_prints {A} (g : A → list event) (body : A → M unit) l
    (Q : res unit → World → list event → Prop) w :
  (∀ x w, body x w = (Ret tt, w, g x)) →
  Q (Ret tt) w (flat_map g l) → wp (for_each l body) Q w.
Proof. intros Hb HQ. unfold wp. by rewrite (for_each_prints g). Qed.

Lemma spawns_flat_map_quiet {A} (g : A → list event) (l : list A) :
  (∀ x, spawns (g x) = []) → spawns (flat_map g l) = [].
Proof.
  intros H. induction l as [|x l IH]; [done|].
  simpl. by rewrite spawns_app, H, IH.
Qed.

Lemma wp_set_fs f (Q : res unit → World → list event → Prop) w :
  Q (Ret tt) {| fs := f; spawned := spawned w |} [] → wp (set_fs f) Q w.
Proof. done. Qed.

Lemma wp_os_remove (p : path) (Q : res unit → World → list event → Prop) w :
  match fs w !! p with
  | Some (File _) => Q (Ret tt) {| fs := delete p (fs w); spawned := spawned w |} []
  | Some Dir => Q (Raise IsADirectoryError) w []
  | None => Q (Raise FileNotFoundError) w []
  end → wp (os_remove p) Q w.
Proof.
  unfold os_remove. intros H. apply wp_bind, wp_get_fs.
  destruct (fs w !! p) as [[|n]|]; first [by apply wp_raise | by apply wp_set_fs].
Qed.

Lemma wp_shutil_rmtree (p : path) (Q : res unit → World → list event → Prop) w :
  match fs w !! p with
  | Some Dir => Q (Ret tt) {| fs := without_tree p (fs w); spawned := spawned w |} []
  | Some (File _) => Q (Raise NotADirectoryError) w []
  | None => Q (Raise FileNotFoundError) w []
  end → wp (shutil_rmtree p) Q w.
Proof.
  unfold shutil_rmtree. intros H. apply wp_bind, wp_get_fs.
  destruct (fs w !! p) as [[|n]|]; first [by apply wp_raise | by apply wp_set_fs].
Qed.

Ltac wp_step :=
  lazymatch goal with
  | |- wp (bind _ _) _ _ => apply wp_bind
  | |- wp (ret _) _ _ => apply wp_ret
  | |- wp (raise _) _ _ => apply wp_raise
  | |- wp (sys_exit _) _ _ => apply wp_raise
  | |- wp (say _ _) _ _ => apply wp_say
  | |- wp (print _) _ _ => apply wp_say
  | |- wp get_fs _ _ => apply wp_get_fs
  | |- wp (try_except _ _) _ _ => apply wp_try_except
  | |- wp (subprocess_run _ _ _ _) _ _ =>
      apply wp_subprocess_run; [intros ? ?|intros ? ? ? ?|intros ?]
  | |- wp (when ?b _) _ _ => apply wp_when; intros ?
  | |- wp (for_each _ print) _ _ =>
      apply (wp_for_each_prints (λ s, [Say Plain (Text s)])); [done|]
  | |- wp (if ?b then _ else _) _ _ => destruct b eqn:?
  | |- wp (match ?x with _ => _ end) _ _ => destruct x eqn:?
  end; cbn beta iota.

(** After a call whose behaviour a lemma gives. *)
Ltac wp_call H :=
  eapply wp_mono; [apply H|]; cbn beta iota zeta.

Ltac spawns_simpl :=
  repeat (rewrite ?spawns_app, ?app_nil_r, ?app_nil_l; simpl).

Lemma verdicts_app o1 o2 : verdicts (o1 ++ o2) = verdicts o1 ++ verdicts o2.
Proof. apply omap_app. Qed.

Lemma verdicts_flat_map_quiet {A} (g : A → list event) (l : list A) :
  (∀ x, verdicts (g x) = []) → verdicts (flat_map g l) = [].
Proof.
  intros H. induction l as [|x l IH]; [done|].
  simpl. by rewrite verdicts_app, H, IH.
Qed.

Ltac out_simpl :=
  repeat (rewrite ?spawns_app, ?verdicts_app, ?app_nil_r, ?app_nil_l; simpl).

Lemma evolves_trans env w1 w2 w3 :
  evolves env w1 w2 → evolves env w2 w3 → evolves env w1 w3.
Proof. intros H12 H23. induction H23; eauto using evolves. Qed.

Ltac solve_evolves :=
  repeat first
    [ apply evolves_refl
    | apply evolves_spawn
    | match goal with
      | H : evolves _ ?a ?b |- evolves _ _ ?b => apply (evolves_trans _ _ a b); [|exact H]
      end
    | match goal with
      | H : fs ?b ⊆ fs ?a |- evolves _ _ ?b => apply (evolves_shrink _ _ a b); [|exact H]
      end ].

Lemma bind_assoc {A B C} (m : M A) (f : A → M B) (g : B → M C) w :
  bind (bind m f) g w = bind m (λ a, bind (f a) g) w.
Proof.
  unfold bind. destruct (m w) as [[[a|e] w1] o1]; [|done].
  destruct (f a w1) as [[[b|e] w2] o2]; [|done].
  destruct (g b w2) as [[r w3] o3]. by rewrite app_assoc.
Qed.

Lemma wp_bind_assoc {A B C} (m : M A) (f : A → M B) (g : B → M C) Q w :
  wp (bind (bind m f) g) Q w → wp (bind m (λ a, bind (f a) g)) Q w.
Proof. unfold wp. by rewrite bind_assoc. Qed.

Lemma accounted_app {A B} (r : res A) (a : B) o1 o2 :
  accounted (Ret a) o1 → accounted r o2 → accounted r (o1 ++ o2).
Proof.
  unfold accounted, all_builds_failed, no_installer_spawned, count_builds.
  rewrite !spawns_app, !verdicts_app, !forallb_app, List.filter_app, !length_app, Forall_app.
  intros H1 H2 [Hf1 Hf2]%andb_prop.
  destruct (H1 Hf1) as (-> & Hv1 & [Hc1|(_ & e & [=] & _)]).
  destruct (H2 Hf2) as (-> & Hv2 & Hc2).
  split_and!; [done..|]. destruct Hc2 as [Hc2|[Hc2 He]]; [left|right; split; [|done]]; lia.
Qed.

Lemma accounted_quiet {A} (r : res A) o :
  spawns o = [] → verdicts o = [] → accounted r o.
Proof.
  unfold accounted, all_builds_failed, no_installer_spawned, count_builds.
  intros -> ->. intros _. split_and!; [done|constructor|by left].
Qed.

Ltac solve_accounted :=
  repeat first
    [ assumption
    | apply accounted_quiet; reflexivity
    | apply (accounted_app _ tt) ].

(** * The flag-driven cleaner *)

Section flag_cleaner.
Import build_installer.

Lemma run_command_spec env v cmd d w :
  wp (run_command env v cmd d) (ran env cmd w) w.
Proof.
  unfold run_command, info, log, error, success, ran.
  repeat wp_step; eexists; (split; [reflexivity|]);
    repeat match goal with H : _ = _ |- _ => rewrite H end;
    spawns_simpl; rewrite ?spawns_flat_map_quiet by done; done.
Qed.

Lemma find_npm_spec env v cmds w :
  Forall (λ c, c = "npm" ∨ c = "npm.cmd") cmds →
  wp (find_npm env v cmds)
     (λ r w' o, (∃ b, r = Ret b) ∧ Forall (λ s, setup_command s.1 = true) (spawns o)) w.
Proof.
  intros Hc. revert w. induction Hc as [|c cmds Hc _ IH]; intros w; simpl.
  - wp_step. split; [eauto|constructor].
  - unfold error, success.
    assert (setup_command [c; "--version"] = true) as Hs by (by destruct Hc as [-> | ->]).
    repeat wp_step; try (wp_call IH; intros r w' o [Hr Ho]);
      spawns_simpl; (split; [eauto|]); repeat constructor; simpl; try done.
    all: try (by rewrite Forall_app; split; [repeat constructor|]).
Qed.

Lemma check_prerequisites_spec env v w :
  wp (check_prerequisites env v)
     (λ r w' o, (∃ b, r = Ret b) ∧ Forall (λ s, setup_command s.1 = true) (spawns o)) w.
Proof.
  unfold check_prerequisites, install_dependencies, info, error, warning, success.
  wp_step. wp_step. wp_step.
  wp_call find_npm_spec. { repeat (apply Forall_cons; split; [auto|]). constructor. }
  intros r w' o [[b ->] Ho].
  repeat wp_step; try (wp_call run_command_spec; intros r' w'' o' (rr & _ & -> & _ & Ho'));
    spawns_simpl; (split; [eauto|]); rewrite ?Ho'; rewrite ?Forall_app; repeat split; try done; repeat constructor.
Qed.

Lemma without_tree_subseteq (p : path) (f : FS) : without_tree p f ⊆ f.
Proof. apply map_filter_subseteq. Qed.

Lemma without_tree_lookup_None (p : path) (f : FS) : without_tree p f !! p = None.
Proof.
  unfold without_tree. apply map_lookup_filter_None. right.
  intros e _ H. apply H. done.
Qed.

Lemma subseteq_lookup_None (f g : FS) (p : path) : f ⊆ g → g !! p = None → f !! p = None.
Proof.
  intros Hs Hn. destruct (f !! p) as [e|] eqn:E; [|done].
  eapply lookup_weaken in E; [|done]. congruence.
Qed.

Lemma remove_loop_spec (files : list path) w :
  wp (for_each files
        (λ file, os_remove file;; success ("Removed file: " ++ Path.str file)))
     (λ r w' o,
        spawns o = [] ∧ spawned w' = spawned w ∧ fs w' ⊆ fs w
        ∧ (r = Ret tt ∨ ∃ e, r = Raise e ∧ fs_error e)
        ∧ (NoDup files → (∀ q, q ∈ files → ∃ n, fs w !! q = Some (File n)) →
           r = Ret tt ∧ ∀ q, q ∈ files → fs w' !! q = None)) w.
Proof.
  revert w. induction files as [|x files IH]; intros w; simpl.
  - apply wp_ret. repeat split; auto. intros q Hq. by apply elem_of_nil in Hq.
  - apply wp_bind, wp_bind, wp_os_remove.
    destruct (fs w !! x) as [[|n]|] eqn:Hx.
    + split_and!; [done..| |].
      * right. eexists. split; [done|]. unfold fs_error. auto.
      * intros _ Hf. destruct (Hf x) as [n Hn]; [left|congruence].
    + unfold success. apply wp_say. cbn beta iota.
      wp_call IH. intros r w' o (Ho & Hsp & Hsub & Hr & Hall). simpl in *.
      split_and!; [done|done| |done|].
      * etrans; [done|]. apply delete_subseteq.
      * intros Hnd Hf. apply NoDup_cons in Hnd as [Hnx Hnd].
        destruct Hall as [-> Hnone]; [done| |].
        { intros q Hq. rewrite lookup_delete_ne; [apply Hf; by right|].
          intros ->. done. }
        split; [done|]. intros q [->|Hq]%elem_of_cons; [|by apply Hnone].
        eapply subseteq_lookup_None; [done|]. apply lookup_delete_eq.
    + split_and!; [done..| |].
      * right. eexists. split; [done|]. unfold fs_error. auto.
      * intros _ Hf. destruct (Hf x) as [n Hn]; [left|congruence].
Qed.

Lemma elem_of_glob_glob (f : FS) parent pat (q : path) :
  q ∈ glob_glob f parent pat ↔ is_Some (f !! q) ∧ glob_hit parent pat q = true.
Proof.
  unfold glob_glob. rewrite list_elem_of_fmap. split.
  - intros ([q' e] & -> & H). apply elem_of_map_to_list in H.
    apply map_lookup_filter_Some in H as [H1 H2]. simpl in *. eauto.
  - intros [[e He] Hg]. exists (q, e). split; [done|].
    apply elem_of_map_to_list, map_lookup_filter_Some. done.
Qed.

Lemma NoDup_glob_glob (f : FS) parent pat : NoDup (glob_glob f parent pat).
Proof. apply NoDup_fst_map_to_list. Qed.

Lemma entry_ok_mono (f g : FS) p : f ⊆ g → entry_ok g p → entry_ok f p.
Proof.
  unfold entry_ok. intros Hs.
  destruct (f !! p) as [[|n]|] eqn:E; [done| |done].
  rewrite (lookup_weaken _ _ _ _ E Hs). intros (H1 & H2 & H3).
  split_and!; [done..|]. intros q Hq Hd. eapply H3; [done|].
  by eapply lookup_weaken.
Qed.

Lemma clean_entry_spec (p : path) w :
  wp (clean_entry p)
     (λ r w' o,
        spawns o = [] ∧ spawned w' = spawned w ∧ fs w' ⊆ fs w
        ∧ (r = Ret tt ∨ ∃ e, r = Raise e ∧ fs_error e)
        ∧ (entry_ok (fs w) p → r = Ret tt ∧ fs w' !! p = None)) w.
Proof.
  unfold clean_entry, entry_ok, Path.exists_, Path.is_dir, success.
  apply wp_bind, wp_get_fs. cbn beta iota.
  destruct (fs w !! p) as [[|n]|] eqn:Hp.
  - apply wp_bind, wp_shutil_rmtree. rewrite Hp. apply wp_say.
    split_and!; simpl; [done|done|apply without_tree_subseteq|by left|].
    intros _. split; [done|]. apply without_tree_lookup_None.
  - destruct (Py.contains "*" (Path.name p)) eqn:Hstar.
    + wp_call remove_loop_spec. intros r w' o (Ho & Hsp & Hsub & Hr & Hall).
      simpl. split_and!; [done..|].
      intros (_ & Hself & Hnd).
      destruct Hall as [-> Hnone].
      * apply NoDup_glob_glob.
      * intros q [[e Hq] Hg]%elem_of_glob_glob.
        destruct e as [|m]; [by apply Hnd in Hq|eauto].
      * split; [done|]. apply Hnone, elem_of_glob_glob. rewrite Hp. eauto.
    + apply wp_ret. split_and!; [done|done|done|by left|]. by intros [? _].
  - apply wp_ret. split_and!; [done|done|done|by left|done].
Qed.

Lemma clean_loop_spec (ps : list path) w :
  wp (for_each ps clean_entry)
     (λ r w' o,
        spawns o = [] ∧ spawned w' = spawned w ∧ fs w' ⊆ fs w
        ∧ (r = Ret tt ∨ ∃ e, r = Raise e ∧ fs_error e)
        ∧ (Forall (entry_ok (fs w)) ps →
           r = Ret tt ∧ ∀ p, p ∈ ps → fs w' !! p = None)) w.
Proof.
  revert w. induction ps as [|p ps IH]; intros w; simpl.
  - apply wp_ret. split_and!; [done|done|done|by left|].
    intros _. split; [done|]. intros p Hp. by apply elem_of_nil in Hp.
  - apply wp_bind. wp_call clean_entry_spec.
    intros r w1 o1 (Ho1 & Hsp1 & Hsub1 & Hr1 & Hok1).
    destruct r as [[]|e].
    + wp_call IH. intros r w2 o2 (Ho2 & Hsp2 & Hsub2 & Hr2 & Hok2).
      split_and!.
      * by rewrite spawns_app, Ho1, Ho2.
      * congruence.
      * by etrans.
      * done.
      * intros [Hp Hps]%Forall_cons.
        destruct Hok1 as [_ Hnone1]; [done|].
        destruct Hok2 as [-> Hnone2].
        { eapply Forall_impl; [done|]. intros q. by apply entry_ok_mono. }
        split; [done|]. intros q [->|Hq]%elem_of_cons; [|by apply Hnone2].
        by eapply subseteq_lookup_None.
    + split_and!; [done..|].
      intros [Hp Hps]%Forall_cons. by destruct Hok1 as [? _].
Qed.

Lemma tidy_entries_ok (f : FS) :
  no_file_in_the_way f → glob_meets_no_directory f →
  Forall (entry_ok f) directories_to_clean.
Proof.
  intros H1 H2. unfold directories_to_clean, dist_path.
  assert (∀ p, p ∈ output_paths → entry_ok f p) as Hout.
  { intros p Hp. unfold entry_ok. by destruct (H1 p Hp) as [-> | ->]. }
  assert (∀ pat, pat ∈ glob_patterns →
             Py.contains "*" pat = true →
             glob_hit renderer pat (renderer ++ [pat]) = true →
             entry_ok f (renderer ++ [pat])) as Hglob.
  { intros pat Hpat Hstar Hself. unfold entry_ok.
    destruct (f !! (renderer ++ [pat])) as [[|n]|]; [done| |done].
    replace (Path.name (renderer ++ [pat])) with pat
      by (unfold Path.name; by rewrite last_snoc).
    rewrite removelast_last. split_and!; [done..|].
    intros q Hq Hd. by rewrite (H2 q pat) in Hq. }
  repeat apply Forall_cons_2; [apply Hout..|apply (Hglob "*.js")|apply (Hglob "*.js.map")|constructor];
    unfold output_paths, glob_patterns; try set_solver; done.
Qed.

Lemma safe_entries_ok (f : FS) :
  no_file_in_the_way f → glob_removes_files_only f →
  Forall (entry_ok f) directories_to_clean.
Proof.
  intros H1 H2. unfold directories_to_clean, dist_path.
  assert (∀ p, p ∈ output_paths → entry_ok f p) as Hout.
  { intros p Hp. unfold entry_ok. by destruct (H1 p Hp) as [-> | ->]. }
  assert (∀ pat, pat ∈ glob_patterns →
             Py.contains "*" pat = true →
             glob_hit renderer pat (renderer ++ [pat]) = true →
             entry_ok f (renderer ++ [pat])) as Hglob.
  { intros pat Hpat Hstar Hself. unfold entry_ok.
    destruct (f !! (renderer ++ [pat])) as [[|n]|] eqn:E; [done| |done].
    replace (Path.name (renderer ++ [pat])) with pat
      by (unfold Path.name; by rewrite last_snoc).
    rewrite removelast_last. split_and!; [done..|].
    intros q Hq Hd. rewrite (H2 pat Hpat) in Hq; [done| |done].
    unfold Path.is_file. by rewrite E. }
  repeat apply Forall_cons_2; [apply Hout..|apply (Hglob "*.js")|apply (Hglob "*.js.map")|constructor];
    unfold output_paths, glob_patterns; try set_solver; done.
Qed.

End flag_cleaner.

Lemma flag_clean_build_spec w :
  wp build_installer.clean_build
     (λ r w' o,
        spawns o = [] ∧ spawned w' = spawned w ∧ fs w' ⊆ fs w
        ∧ (r = Ret true ∨ ∃ e, r = Raise e ∧ fs_error e)
        ∧ (no_file_in_the_way (fs w) → glob_meets_no_directory (fs w) →
           r = Ret true ∧ ∀ p, p ∈ build_installer.directories_to_clean → fs w' !! p = None)) w.
Proof.
  unfold build_installer.clean_build, build_installer.info.
  apply wp_bind, wp_say. apply wp_bind. wp_call clean_loop_spec.
  intros r w' o (Ho & Hsp & Hsub & Hr & Hok).
  destruct r as [[]|e].
  - apply wp_ret. split_and!; [by spawns_simpl|done|done|by left|].
    intros H1 H2. destruct Hok as [_ Hn]; [by apply tidy_entries_ok|done].
  - split_and!; [done|done|done| |].
    + destruct Hr as [?|(e' & [= <-] & ?)]; [done|right; by exists e].
    + intros H1 H2. destruct Hok as [? _]; [by apply tidy_entries_ok|done].
Qed.

Lemma flag_clean_build_noop w :
  (∀ p, p ∈ build_installer.directories_to_clean → fs w !! p = None) →
  build_installer.clean_build w = (Ret true, w, [cleaning]).
Proof.
  intros H.
  unfold build_installer.clean_build, build_installer.directories_to_clean,
    build_installer.clean_entry, build_installer.info, for_each, bind, get_fs,
    say, ret, Path.exists_ in *.
  rewrite !H; [done|by repeat constructor..].
Qed.

Lemma flag_clean_build_safe w :
  no_file_in_the_way (fs w) → glob_removes_files_only (fs w) →
  result (build_installer.clean_build w) = Ret true
  ∧ ∀ p, p ∈ build_installer.directories_to_clean →
         fs (final (build_installer.clean_build w)) !! p = None.
Proof.
  intros H1 H2.
  change (wp build_installer.clean_build
            (λ r w' _, r = Ret true
                       ∧ ∀ p, p ∈ build_installer.directories_to_clean → fs w' !! p = None) w).
  unfold build_installer.clean_build, build_installer.info.
  apply wp_bind, wp_say. apply wp_bind. wp_call clean_loop_spec.
  intros r w' o (_ & _ & _ & _ & Hok).
  destruct Hok as [-> Hn]; [by apply safe_entries_ok|].
  by apply wp_ret.
Qed.

Lemma simple_clean_loop_spec (ds : list string) w :
  wp (for_each ds
        (λ dir_name,
           let dir_path : path := [dir_name] in
           f ← get_fs;
           when (Path.exists_ f dir_path)
             (shutil_rmtree dir_path;;
              build_installer_simple.print_success ("Removed " ++ dir_name ++ "/"))))
     (λ r w' o,
        spawns o = [] ∧ spawned w' = spawned w ∧ fs w' ⊆ fs w
        ∧ (r = Ret tt ∨ ∃ e, r = Raise e ∧ fs_error e)
        ∧ ((∀ d, d ∈ ds → fs w !! [d] = None ∨ fs w !! [d] = Some Dir) →
           r = Ret tt ∧ ∀ d, d ∈ ds → fs w' !! [d] = None)) w.
Proof.
  revert w. induction ds as [|d ds IH]; intros w; simpl.
  - apply wp_ret. split_and!; [done|done|done|by left|].
    intros _. split; [done|]. intros p Hp. by apply elem_of_nil in Hp.
  - apply wp_bind, wp_bind, wp_get_fs. cbn beta iota.
    unfold Path.exists_, build_installer_simple.print_success.
    destruct (fs w !! [d]) as [[|n]|] eqn:Hd; simpl.
    + apply wp_bind, wp_shutil_rmtree. rewrite Hd. apply wp_say.
      wp_call IH. intros r w2 o2 (Ho2 & Hsp2 & Hsub2 & Hr2 & Hok2). simpl in *.
      split_and!; [done|done| |done|].
      * etrans; [done|]. apply without_tree_subseteq.
      * intros Hall. destruct Hok2 as [-> Hn].
        { intros d' Hd'. destruct (Hall d') as [E|E]; [by right|..].
          - left. eapply subseteq_lookup_None; [apply without_tree_subseteq|done].
          - destruct (without_tree [d] (fs w) !! [d']) as [e|] eqn:E'; [|by left].
            right. rewrite <- E. symmetry.
            eapply lookup_weaken; [done|apply without_tree_subseteq]. }
        split; [done|]. intros d' [->|Hd']%elem_of_cons; [|by apply Hn].
        eapply subseteq_lookup_None; [done|]. apply without_tree_lookup_None.
    + apply wp_bind, wp_shutil_rmtree. rewrite Hd.
      split_and!; [done|done|done| |].
      * right. eexists. split; [done|]. unfold fs_error. auto.
      * intros Hall. destruct (Hall d) as [?|?]; [by left|congruence..].
    + apply wp_ret. wp_call IH.
      intros r w2 o2 (Ho2 & Hsp2 & Hsub2 & Hr2 & Hok2).
      split_and!; [done..|].
      intros Hall. destruct Hok2 as [-> Hn].
      { intros d' Hd'. apply Hall. by right. }
      split; [done|]. intros d' [->|Hd']%elem_of_cons; [|by apply Hn].
      by eapply subseteq_lookup_None.
Qed.

Lemma simple_clean_build_spec w :
  wp build_installer_simple.clean_build
     (λ r w' o,
        spawns o = [] ∧ spawned w' = spawned w ∧ fs w' ⊆ fs w
        ∧ (r = Ret true ∨ ∃ e, r = Raise e ∧ fs_error e)
        ∧ (no_file_in_the_way (fs w) →
           r = Ret true ∧ ∀ p, p ∈ output_paths → fs w' !! p = None)) w.
Proof.
  unfold build_installer_simple.clean_build, build_installer_simple.print_info.
  apply wp_bind, wp_say. apply wp_bind. wp_call simple_clean_loop_spec.
  intros r w' o (Ho & Hsp & Hsub & Hr & Hok).
  assert (no_file_in_the_way (fs w) →
          ∀ d, d ∈ build_installer_simple.dirs_to_clean →
               fs w !! [d] = None ∨ fs w !! [d] = Some Dir) as Hpre.
  { intros H d Hd. apply H. unfold build_installer_simple.dirs_to_clean, output_paths in *.
    repeat (apply elem_of_cons in Hd as [->|Hd]); [by repeat constructor..|].
    by apply elem_of_nil in Hd. }
  destruct r as [[]|e].
  - apply wp_ret. split_and!; [by spawns_simpl|done|done|by left|].
    intros H1. destruct Hok as [_ Hn]; [by apply Hpre|]. split; [done|].
    intros p Hp. unfold output_paths, build_installer_simple.dirs_to_clean in *.
    repeat (apply elem_of_cons in Hp as [->|Hp]);
      [apply Hn; by repeat constructor..|].
    by apply elem_of_nil in Hp.
  - split_and!; [done|done|done| |].
    + destruct Hr as [?|(e' & [= <-] & ?)]; [done|right; by exists e].
    + intros H1. destruct Hok as [? _]; [by apply Hpre|done].
Qed.

Lemma simple_clean_build_noop w :
  (∀ p, p ∈ output_paths → fs w !! p = None) →
  build_installer_simple.clean_build w = (Ret true, w, [cleaning]).
Proof.
  intros H.
  unfold build_installer_simple.clean_build, build_installer_simple.dirs_to_clean,
    build_installer_simple.print_info, for_each, bind, get_fs,
    say, ret, Path.exists_, output_paths in *.
  repeat (rewrite H by (by repeat constructor); simpl). done.
Qed.

(** C5, with the condition it needs. From a filesystem in which each output
    path ([out], [dist], [.webpack]) is absent or a directory, and, for the
    flag-driven script, in which no directory of [src/renderer] has a name
    matching a pattern ([*.js], [*.js.map]) that is itself the name of a
    regular file of [src/renderer], cleaning twice in a row raises no error:
    the first call returns success and leaves the three output paths absent,
    and the second call returns success, changes nothing and prints the
    cleaning notice only. This holds for both scripts. *)
Theorem clean_build_twice (w : World) :
  no_file_in_the_way (fs w) →
  (glob_removes_files_only (fs w) →
   let first := build_installer.clean_build w in
   let second := build_installer.clean_build (final first) in
   result first = Ret true
   ∧ (∀ p, p ∈ output_paths → fs (final first) !! p = None)
   ∧ second = (Ret true, final first, [cleaning]))
  ∧ (let first := build_installer_simple.clean_build w in
     let second := build_installer_simple.clean_build (final first) in
     result first = Ret true
     ∧ (∀ p, p ∈ output_paths → fs (final first) !! p = None)
     ∧ second = (Ret true, final first, [cleaning])).
Proof.
  intros H1. split.
  - intros H2. cbn zeta.
    destruct (flag_clean_build_safe w H1 H2) as [Hr Hn].
    split_and!; [done| |by apply flag_clean_build_noop].
    intros p Hp. apply Hn. unfold output_paths, build_installer.directories_to_clean in *.
    repeat (apply elem_of_cons in Hp as [->|Hp]); [by repeat constructor..|].
    by apply elem_of_nil in Hp.
  - cbn zeta.
    destruct (simple_clean_build_spec w) as (_ & _ & _ & _ & Hok).
    destruct Hok as [Hr Hn]; [done|].
    split_and!; [done|done|by apply simple_clean_build_noop].
Qed.

(** * The flag-driven script, step by step *)

Section flag_script.
Import build_installer.

Lemma init_spec w :
  wp init
     (λ r w' o,
        spawns o = [] ∧ w' = w
        ∧ (r = Ret tt ∨ r = Raise (SystemExit 1) ∨ r = Raise IsADirectoryError)) w.
Proof.
  unfold init, error. repeat wp_step; auto.
Qed.

Lemma show_build_artifacts_spec platform_name w :
  wp (show_build_artifacts platform_name)
     (λ r w' o, r = Ret tt ∧ w' = w ∧ spawns o = []) w.
Proof.
  unfold show_build_artifacts, success, info.
  wp_step. wp_step. wp_step; [|by wp_step].
  wp_step; [by wp_step|].
  wp_step. wp_step.
  apply (wp_for_each_prints
           (λ installer : path * entry,
              [Say Info (ArtifactLine (Path.name installer.1) (st_size_of (fs w) installer.1));
               Say Info (Text ("     Path: " ++ Path.str installer.1))])); [done|].
  split_and!; [done..|]. simpl. by apply spawns_flat_map_quiet.
Qed.

Lemma build_app_spec env v w :
  wp (build_app env v) (ran env npm_run_build w) w.
Proof.
  unfold build_app, info, success, ran.
  wp_step. wp_step. wp_step. wp_call run_command_spec.
  intros r w' o (rr & Hrr & -> & -> & Ho).
  repeat wp_step; exists rr; spawns_simpl; by rewrite Ho.
Qed.

Lemma create_installer_windows_spec env v w :
  wp (create_installer_windows env v) (ran env make_win w) w.
Proof.
  unfold create_installer_windows, info, success, ran.
  wp_step. wp_step. wp_step. wp_call run_command_spec.
  intros r w' o (rr & Hrr & -> & -> & Ho).
  repeat wp_step; try (wp_call show_build_artifacts_spec; intros ? ? ? (-> & -> & Hq));
    repeat wp_step; exists rr; spawns_simpl; rewrite ?Hq, Ho; done.
Qed.

Lemma create_installer_macos_spec env v w :
  wp (create_installer_macos env v) (ran env make_mac w) w.
Proof.
  unfold create_installer_macos, info, success, warning, ran.
  wp_step. wp_step. wp_step.
  wp_step; repeat wp_step.
  all: wp_call run_command_spec; intros r w' o (rr & Hrr & -> & -> & Ho).
  all: repeat wp_step; try (wp_call show_build_artifacts_spec; intros ? ? ? (-> & -> & Hq));
    repeat wp_step; exists rr; spawns_simpl; rewrite ?Hq, Ho; done.
Qed.

Lemma create_installer_linux_spec env v w :
  wp (create_installer_linux env v) (ran env make_linux w) w.
Proof.
  unfold create_installer_linux, info, success, ran.
  wp_step. wp_step. wp_step. wp_call run_command_spec.
  intros r w' o (rr & Hrr & -> & -> & Ho).
  repeat wp_step; try (wp_call show_build_artifacts_spec; intros ? ? ? (-> & -> & Hq));
    repeat wp_step; exists rr; spawns_simpl; rewrite ?Hq, Ho; done.
Qed.

Lemma build_installers_spec env args w :
  wp (build_installers env args)
     (λ r w' o,
        ∃ built,
          r = Ret (built, forallb (λ s, completed s.2) (spawns o))
          ∧ (spawns o).*1 = installer_command <$> requested args
          ∧ Forall (answered env) (spawns o)) w.
Proof.
  unfold build_installers, requested.
  assert (∀ cmd w, answered env (cmd, (subprocess env (spawned w) true cmd (fs w)).1)) as Hans.
  { intros cmd w0. by exists (spawned w0), (fs w0). }
  repeat first
    [ wp_call create_installer_windows_spec; intros ? ? ? (? & ? & -> & -> & ?)
    | wp_call create_installer_macos_spec; intros ? ? ? (? & ? & -> & -> & ?)
    | wp_call create_installer_linux_spec; intros ? ? ? (? & ? & -> & -> & ?)
    | lazymatch goal with
      | |- wp (match (if ?c then _ else _) with _ => _ end) _ _ => destruct c eqn:?
      end
    | wp_step ].
  all: eexists; spawns_simpl;
    repeat match goal with H : spawns _ = _ |- _ => rewrite H end; simpl;
    repeat match goal with H : completed _ = _ |- _ => rewrite H end; simpl;
    subst;
    (split_and!; [reflexivity|reflexivity|repeat (constructor; [apply Hans|]); constructor]).
Qed.

Lemma show_summary_spec platforms_built ok w :
  wp (show_summary platforms_built ok)
     (λ r w' o, r = Ret tt ∧ w' = w ∧ spawns o = []) w.
Proof.
  unfold show_summary, success, error. repeat wp_step; done.
Qed.

Lemma default_platform_spec env args w :
  wp (default_platform env args)
     (λ r w' o, r = Ret (resolved env args) ∧ w' = w ∧ spawns o = []) w.
Proof.
  unfold resolved, default_platform.
  destruct (negb _); [|by wp_step].
  repeat (destruct (String.eqb _ _); [by wp_step|]).
  by repeat wp_step.
Qed.

Lemma fs_error_status {A} e : fs_error e → exit_status (@Raise A e) = 1%Z.
Proof. by intros [->|[->| ->]]. Qed.

Lemma main_outcome env args w :
  let x := main env args w in
  let ss := spawns (output x) in
  (exit_status (result x) = 1%Z
   ∧ ∃ pre, Forall (λ s, setup_command s.1 = true) pre
            ∧ (ss = pre
               ∨ ∃ rb, ss = pre ++ [(npm_run_build, rb)] ∧ completed rb = false
                       ∧ answered env (npm_run_build, rb)))
  ∨ (∃ pre rb ms,
       ss = pre ++ [(npm_run_build, rb)] ++ ms
       ∧ Forall (λ s, setup_command s.1 = true) pre
       ∧ completed rb = true ∧ answered env (npm_run_build, rb)
       ∧ ms.*1 = installer_command <$> requested (resolved env args)
       ∧ result x = Raise (SystemExit (if forallb (λ s, completed s.2) ms then 0 else 1))).
Proof.
  cbn zeta. change (wp (main env args) (λ r _ o,
    (exit_status r = 1%Z
     ∧ ∃ pre, Forall (λ s, setup_command s.1 = true) pre
            ∧ (spawns o = pre
               ∨ ∃ rb, spawns o = pre ++ [(npm_run_build, rb)] ∧ completed rb = false
                       ∧ answered env (npm_run_build, rb)))
    ∨ (∃ pre rb ms,
       spawns o = pre ++ [(npm_run_build, rb)] ++ ms
       ∧ Forall (λ s, setup_command s.1 = true) pre
       ∧ completed rb = true ∧ answered env (npm_run_build, rb)
       ∧ ms.*1 = installer_command <$> requested (resolved env args)
       ∧ r = Raise (SystemExit (if forallb (λ s, completed s.2) ms then 0 else 1)))) w).
  unfold main, install_dependencies, error.
  repeat first
    [ wp_call default_platform_spec; intros ? ? ? (-> & -> & ?)
    | wp_call init_spec; intros ? ? ? (? & -> & [-> | [-> | ->]])
    | wp_call check_prerequisites_spec; intros ? ? ? ([[] ->] & ?)
    | wp_call run_command_spec; intros ? ? ? (? & ? & -> & -> & ?)
    | wp_call flag_clean_build_spec;
      intros ? ? ? (? & _ & _ & [-> | (? & -> & ?%(fs_error_status (A:=unit)))] & _)
    | wp_call build_app_spec; intros ? ? ? (? & ? & -> & -> & ?)
    | wp_call build_installers_spec; intros ? ? ? (? & -> & ? & _)
    | wp_call show_summary_spec; intros ? ? ? (-> & -> & ?)
    | wp_step ].
  all: spawns_simpl;
    repeat match goal with H : spawns _ = _ |- _ => rewrite H end;
    spawns_simpl.
  all: try (exfalso; simpl in *; congruence).
  all: repeat match goal with
         | H : negb ?b = _ |- _ =>
             destruct b eqn:?; simpl in H; try discriminate H; clear H
         end.
  all: try (left; split; [by simpl|]; eexists; split; [|left; reflexivity];
            rewrite ?Forall_app; repeat split; try done; by repeat constructor).
  all: assert (∀ cmd w, answered env (cmd, (subprocess env (spawned w) true cmd (fs w)).1))
         as Hans by (intros cmd w0; by exists (spawned w0), (fs w0)).
  all: lazymatch goal with
       | |- context [spawns ?o1 ++ (npm_install, ?x) :: _] =>
           pose (pre := spawns o1 ++ [(npm_install, x)])
       | |- context [spawns ?o1 ++ _] => pose (pre := spawns o1)
       end;
       assert (Forall (λ s, setup_command s.1 = true) pre) as Hpre
         by (subst pre; rewrite ?Forall_app; repeat split; try done; by repeat constructor).
  all: first
    [ left; split; [by simpl|]; exists pre; split; [done|]; right; eexists;
      split_and!; [subst pre; rewrite <- ?app_assoc; reflexivity|done|subst; apply Hans]
    | right; exists pre; do 2 eexists;
      split_and!; [subst pre; rewrite <- ?app_assoc; reflexivity|done|done|subst; apply Hans|done|done] ].
Qed.

End flag_script.

(** * The interactive script, step by step *)

Section interactive_script.
Import build_installer_simple.

Lemma simple_run_command_spec env cmd d w :
  wp (run_command env cmd d)
     (λ r w' o,
        ∃ rr, rr = (subprocess env (spawned w) true cmd (fs w)).1
              ∧ r = run_value rr ∧ w' = after env true cmd w
              ∧ spawns o = [(cmd, rr)] ∧ verdicts o = []) w.
Proof.
  unfold run_command, print_info, print_success, print_error.
  repeat wp_step; eexists; (split; [reflexivity|]);
    repeat match goal with H : _ = _ |- _ => rewrite H end; done.
Qed.

Lemma show_build_results_spec w :
  wp show_build_results
     (λ r w' o, r = Ret tt ∧ w' = w ∧ spawns o = [] ∧ verdicts o = []) w.
Proof.
  unfold show_build_results, print_info, print_success, print_error.
  repeat first
    [ apply (wp_for_each_prints
             (λ installer : path * entry,
                [Say Plain (ArtifactLine (Path.name installer.1) (st_size_of (fs w) installer.1));
                 Say Plain (Text ("     Path: " ++ Path.str installer.1))])); [done|]
    | wp_step ];
  (split_and!; [done|done|..]); out_simpl;
    rewrite ?spawns_flat_map_quiet, ?verdicts_flat_map_quiet by done; done.
Qed.

Lemma show_results_spec (success : bool) w :
  wp (show_results success)
     (λ r w' o, r = Ret tt ∧ w' = w ∧ spawns o = [] ∧ verdicts o = [success]) w.
Proof.
  unfold show_results, print_error.
  repeat first
    [ wp_call show_build_results_spec; intros ? ? ? (-> & -> & ? & ?)
    | wp_step ];
  out_simpl; rewrite ?H, ?H0; done.
Qed.

Lemma no_file_in_the_way_mono (f g : FS) :
  f ⊆ g → no_file_in_the_way g → no_file_in_the_way f.
Proof.
  intros Hs Hg p Hp. destruct (f !! p) as [e|] eqn:E; [|by left].
  pose proof (lookup_weaken _ _ _ _ E Hs) as E'.
  destruct (Hg p Hp) as [H|H]; rewrite E' in H; [done|by right].
Qed.

Lemma evolves_keeps env w w' :
  keeps_output_paths env → evolves env w w' →
  no_file_in_the_way (fs w) → no_file_in_the_way (fs w').
Proof.
  intros Hk Hev Hw. induction Hev as [|w1 sh cmd _ IH|w1 w2 _ IH Hs]; [done|..].
  - apply Hk, IH.
  - by eapply no_file_in_the_way_mono.
Qed.

Lemma is_build_build r : is_build (npm_run_build, r) = true.
Proof. done. Qed.
Lemma is_build_win r : is_build (make_win, r) = false.
Proof. done. Qed.
Lemma is_build_mac r : is_build (make_mac, r) = false.
Proof. done. Qed.
Lemma is_build_linux r : is_build (make_linux, r) = false.
Proof. done. Qed.
Lemma is_make_build : is_make npm_run_build = false.
Proof. done. Qed.

Lemma create_all_installers_spec env w :
  wp (create_all_installers env)
     (λ r w' o,
        evolves env w w' ∧ verdicts o = [] ∧ count_builds o = 0
        ∧ (r = Raise FileNotFoundError ∨ ∃ b, r = Ret b)
        ∧ (never_missing env → ∃ b, r = Ret b)) w.
Proof.
  unfold create_all_installers, print_info, print_success.
  repeat first
    [ wp_call simple_run_command_spec; intros ? ? ? ([| |] & ? & -> & -> & ? & ?);
      cbn beta iota delta [run_value completed]
    | wp_step ].
  all: out_simpl; unfold count_builds; out_simpl;
    repeat match goal with H : spawns _ = _ |- _ => rewrite H end;
    repeat match goal with H : verdicts _ = _ |- _ => rewrite H end; simpl.
  all: split_and!; [eauto 10 using evolves|done|done|eauto|].
  all: intros Hnm;
    first [ by eauto
          | exfalso; eapply Hnm; first [eassumption | symmetry; eassumption] ].
Qed.

Lemma simple_clean_loop_verdicts (ds : list string) w :
  wp (for_each ds
        (λ dir_name,
           let dir_path : path := [dir_name] in
           f ← get_fs;
           when (Path.exists_ f dir_path)
             (shutil_rmtree dir_path;;
              print_success ("Removed " ++ dir_name ++ "/"))))
     (λ _ _ o, verdicts o = []) w.
Proof.
  revert w. induction ds as [|d ds IH]; intros w; simpl; [done|].
  unfold print_success.
  wp_step. wp_step. wp_step. wp_step.
  - wp_step. apply wp_shutil_rmtree.
    destruct (fs w !! [d]) as [[|n]|]; [|done..].
    wp_step. wp_call IH. intros r w' o Ho. by out_simpl.
  - wp_call IH. intros r w' o Ho. by out_simpl.
Qed.

Lemma simple_clean_build_verdicts w : verdicts (output (clean_build w)) = [].
Proof.
  change (wp clean_build (λ _ _ o, verdicts o = []) w).
  unfold clean_build, print_info.
  wp_step. wp_step. wp_step.
  wp_call simple_clean_loop_verdicts. intros [[]|e] w' o Ho; [wp_step|]; by out_simpl.
Qed.

Lemma simple_clean_build_full w :
  wp clean_build
     (λ r w' o,
        spawns o = [] ∧ verdicts o = [] ∧ fs w' ⊆ fs w
        ∧ (r = Ret true ∨ ∃ e, r = Raise e ∧ fs_error e)
        ∧ (no_file_in_the_way (fs w) → r = Ret true)) w.
Proof.
  destruct (simple_clean_build_spec w) as (H1 & _ & H3 & H4 & H5).
  unfold wp. split_and!; [done|apply simple_clean_build_verdicts|done|done|].
  intros H. by destruct (H5 H).
Qed.

Lemma selection_spec env choice build w :
  selection env choice = Some build →
  wp (success ← build; show_results success) (selection_post env w) w.
Proof.
  unfold selection, selection_post, accounted.
  repeat (destruct (String.eqb choice _); [intros [= <-]|]); [..|done].
  all: unfold and_then, build_app, create_windows_installer, print_info.
  all: repeat first
    [ wp_call simple_run_command_spec; intros ? ? ? ([| |] & ? & -> & -> & ? & ?);
      cbn beta iota delta [run_value completed]
    | wp_call create_all_installers_spec;
      intros ? ? ? (? & ? & ? & [-> | [? ->]] & ?)
    | wp_call simple_clean_build_full;
      intros ? ? ? (? & ? & ? & [-> | (? & -> & ?)] & ?)
    | wp_call show_results_spec; intros ? ? ? (-> & -> & ? & ?)
    | wp_step ].
  all: (split_and!;
    [ solve_evolves
    | first [by left | right; eexists; split; [done|]; first [done | unfold fs_error; by auto]]
    | intros Hnm Hnf;
      first [ done
            | exfalso; eapply Hnm; first [eassumption | symmetry; eassumption]
            | by match goal with H : _ → Raise _ = Ret _ |- _ => specialize (H Hnf) end
            | by match goal with H : never_missing _ → ∃ b, Raise _ = Ret b |- _ =>
                destruct (H Hnm) end ]
    | ]).
  all: unfold all_builds_failed, no_installer_spawned, count_builds; out_simpl;
    repeat match goal with H : spawns _ = _ |- _ => rewrite H end;
    repeat match goal with H : verdicts _ = _ |- _ => rewrite H end;
    out_simpl; rewrite ?is_build_build, ?is_build_win; simpl.
  all: try (intros [=]; fail).
  all: intros _; split_and!;
    [ done
    | repeat constructor
    | first [ by left
            | right; split; [done|]; eexists; split; [done|]; unfold fs_error; by auto ] ].
Qed.

Lemma selection_builds env choice :
  builds choice = match selection env choice with Some _ => true | None => false end.
Proof.
  unfold builds, selection. by repeat destruct (String.eqb choice _).
Qed.

Lemma menu_loop_spec env n : ∀ stdin w,
  (length stdin ≤ n)%nat → wp (menu_loop env stdin) (loop_post env stdin w) w.
Proof.
  induction n as [|n IH]; intros stdin w Hn.
  { destruct stdin; [|simpl in Hn; lia]. simpl. unfold show_menu.
    repeat wp_step. split_and!; [auto|done|by apply accounted_quiet]. }
  destruct stdin as [|[l|] rest]; unfold loop_post; cbn [menu_loop session_end length] in *.
  - unfold show_menu. repeat wp_step. split_and!; [auto|done|by apply accounted_quiet].
  - rewrite selection_builds with (env := env).
    destruct (selection env (Py.strip l)) as [build|] eqn:Hsel.
    + unfold show_menu.
      repeat lazymatch goal with
             | |- wp (bind build _) _ _ => fail
             | _ => wp_step
             end.
      apply wp_bind_assoc, wp_bind.
      eapply wp_mono; [by eapply selection_spec|]; cbn beta iota zeta.
      intros r w1 o1 (Hev & Hr & Hok & Hacc).
      destruct r as [[]|e].
      * destruct rest as [|[answer|] rest']; repeat wp_step.
        -- split_and!; [auto|done|solve_accounted].
        -- split_and!; [auto| |solve_accounted].
           intros _ _ _. apply negb_true_iff in Heqb. by rewrite Heqb.
        -- wp_call IH; [simpl in Hn; lia|].
           intros r w2 o2 (Hr2 & Hend & Hacc2).
           split_and!; [done| |solve_accounted].
           intros Hnm Hk Hnf. apply negb_false_iff in Heqb. rewrite Heqb.
           apply Hend; [done..|]. by eapply evolves_keeps.
        -- split_and!; [auto|done|solve_accounted].
      * split_and!; [destruct Hr as [[=]|?]; auto 10| |solve_accounted].
        intros Hnm _ Hnf. by specialize (Hok Hnm Hnf).
    + unfold show_menu, show_help, print_error.
      repeat first
        [ wp_call IH; [simpl in Hn; lia|]; intros r w2 o2 (Hr2 & Hend & Hacc2)
        | wp_step ];
      (split_and!; [auto|try done|solve_accounted]).
      all: intros;
        repeat match goal with
               | H : (_ =? _)%string = false |- _ => rewrite H; clear H
               | H : (_ =? _)%string = true |- _ =>
                   apply String.eqb_eq in H; rewrite H; simpl
               end;
        first [done | by apply Hend].
  - unfold show_menu. repeat wp_step. split_and!; [auto|done|by apply accounted_quiet].
Qed.

Lemma accounted_setup {A} (r : res A) o :
  no_installer_spawned o = true → verdicts o = [] → count_builds o = 0 → accounted r o.
Proof.
  unfold accounted. intros -> -> ->. intros _. split_and!; [done|constructor|by left].
Qed.

Lemma simple_check_prerequisites_spec env w :
  wp (check_prerequisites env)
     (λ r w' o,
        evolves env w w'
        ∧ no_installer_spawned o = true ∧ verdicts o = [] ∧ count_builds o = 0
        ∧ ((∃ b, r = Ret b) ∨ r = Raise FileNotFoundError)) w.
Proof.
  unfold check_prerequisites, print_info, print_success, print_error.
  repeat first
    [ wp_call simple_run_command_spec; intros ? ? ? ([| |] & ? & -> & -> & ? & ?);
      cbn beta iota delta [run_value completed]
    | wp_step ].
  all: unfold no_installer_spawned, count_builds; out_simpl;
    repeat match goal with H : spawns _ = _ |- _ => rewrite H end;
    repeat match goal with H : verdicts _ = _ |- _ => rewrite H end; simpl.
  all: split_and!; [solve_evolves|done|done|done|eauto].
Qed.

Lemma session_end_cases stdin :
  exit_status (session_end stdin) = 0%Z
  ∨ session_end stdin = Raise EOFError
  ∨ session_end stdin = Raise KeyboardInterrupt.
Proof.
  induction stdin as [stdin IH] using (induction_ltof1 _ length).
  unfold ltof in IH.
  destruct stdin as [|[l|] rest]; simpl; auto.
  destruct (builds _).
  - destruct rest as [|[answer|] rest']; auto.
    destruct (bool_decide _); auto. apply IH. simpl. lia.
  - destruct (String.eqb _ _); auto.
Qed.

Lemma simple_main_spec env stdin w :
  wp (main env stdin)
     (λ r w' o,
        accounted r o
        ∧ (result (check_prerequisites env w) = Ret true →
           never_missing env → keeps_output_paths env → no_file_in_the_way (fs w) →
           r = session_end stdin)) w.
Proof.
  unfold main, print_header.
  do 9 wp_step.
  pose proof (simple_check_prerequisites_spec env w) as Hc. unfold wp in Hc |- *.
  destruct (check_prerequisites env w) as [[r1 w1] o1].
  cbn [result final output fst snd] in *.
  destruct Hc as (Hev & Hni & Hv & Hcb & Hr).
  assert (∀ r : res unit, accounted r o1) as Hacc1 by (intros; by apply accounted_setup).
  destruct r1 as [[|]|e].
  - cbn [negb]. pose proof (menu_loop_spec env _ stdin w1 (le_n _)) as Hl.
    unfold wp, loop_post in Hl. destruct Hl as (_ & Hend & Hacc).
    split; [(solve_accounted; try apply Hacc1; solve_accounted)|].
    intros _ Hnm Hk Hnf. apply Hend; [done..|]. by eapply evolves_keeps.
  - cbn [negb]. split; [|done].
    destruct stdin as [|[l|] rest]; (solve_accounted; try apply Hacc1; solve_accounted).
  - split; [(solve_accounted; try apply Hacc1; solve_accounted)|done].
Qed.

End interactive_script.

(** C9: in the all-platforms path of the interactive script a [make:mac]
    command that exits with a non-zero status is not counted. Whatever the
    host, when the Windows and Linux commands can be started, the three
    commands [make:win], [make:mac], [make:linux] are spawned in this order,
    each once, and the value returned is the conjunction of the Windows and
    Linux results alone. *)
Theorem mac_failure_is_tolerated env w :
  let w1 := after env true make_win w in
  let w2 := after env false make_mac w1 in
  let rw := (subprocess env (spawned w) true make_win (fs w)).1 in
  let rm := (subprocess env (spawned w1) false make_mac (fs w1)).1 in
  let rl := (subprocess env (spawned w2) true make_linux (fs w2)).1 in
  nonzero rm = true → rw ≠ NotFound → rl ≠ NotFound →
  let x := build_installer_simple.create_all_installers env w in
  result x = Ret (completed rw && completed rl)
  ∧ spawns (output x) = [(make_win, rw); (make_mac, rm); (make_linux, rl)].
Proof.
  cbn zeta. intros Hm Hw Hl.
  change (wp (build_installer_simple.create_all_installers env)
            (λ r _ o,
               r = Ret (completed (subprocess env (spawned w) true make_win (fs w)).1
                        && completed
                             (subprocess env
                                (spawned (after env false make_mac (after env true make_win w)))
                                true make_linux
                                (fs (after env false make_mac (after env true make_win w)))).1)
               ∧ spawns o =
                 [(make_win, (subprocess env (spawned w) true make_win (fs w)).1);
                  (make_mac,
                   (subprocess env (spawned (after env true make_win w)) false make_mac
                      (fs (after env true make_win w))).1);
                  (make_linux,
                   (subprocess env
                      (spawned (after env false make_mac (after env true make_win w)))
                      true make_linux
                      (fs (after env false make_mac (after env true make_win w)))).1)]) w).
  unfold build_installer_simple.create_all_installers,
    build_installer_simple.print_info, build_installer_simple.print_success.
  repeat first
    [ wp_call simple_run_command_spec; intros ? ? ? ([| |] & ? & -> & -> & ? & ?);
      cbn beta iota delta [run_value completed]
    | wp_step ].
  all: repeat match goal with
         | H : _ = (subprocess _ _ _ _ _).1 |- _ => symmetry in H
         end.
  all: repeat match goal with
         | H : (subprocess _ _ _ _ _).1 = _ |- _ =>
             rewrite H in *; clear H
         end.
  all: try done.
  all: out_simpl;
    repeat match goal with H : spawns _ = _ |- _ => rewrite H end; done.
Qed.

(** * The flag-driven script as a whole *)

Section flag_runs.
Import build_installer.

Lemma attempts_fst (p : platform) (ss : list (list string * run_result)) :
  length (List.filter (λ s, bool_decide (s.1 = installer_command p)) ss)
  = length (List.filter (λ c, bool_decide (c = installer_command p)) ss.*1).
Proof.
  induction ss as [|s ss IH]; [done|]. simpl.
  destruct (bool_decide _); simpl; by rewrite IH.
Qed.

(** C2: the installer step of the flag-driven script. For every namespace
    of flags, the commands spawned are the installer commands of the
    requested platforms, in the order Windows, macOS, Linux; each requested
    platform's command is attempted exactly once and no other platform's
    command at all, whatever the commands answer; and the success flag
    returned is the conjunction of the results of the spawned commands. *)
Theorem installers_are_independent env args w :
  let x := build_installers env args w in
  (∃ built,
     result x = Ret (built, forallb (λ s, completed s.2) (spawns (output x))))
  ∧ (spawns (output x)).*1 = installer_command <$> requested args
  ∧ ∀ p, attempts p (output x) = if bool_decide (p ∈ requested args) then 1 else 0.
Proof.
  cbn zeta. destruct (build_installers_spec env args w) as (built & Hr & Hs & _).
  split_and!; [by exists built|done|].
  intros p. unfold attempts. rewrite attempts_fst, Hs. unfold requested.
  by destruct (all args || windows args), (all args || macos args),
    (all args || linux args), p.
Qed.

(** C4: when none of [--windows], [--macos], [--linux], [--all] is given,
    the namespace resolved by the flag-driven script requests exactly one
    platform, which is Windows on a Windows host, macOS on a Darwin host and
    Linux on a Linux host. *)
Theorem default_platform_is_host env args w :
  windows args = false → macos args = false → linux args = false → all args = false →
  ∃ a, result (default_platform env args w) = Ret a
       ∧ length (requested a) = 1
       ∧ (platform_system env = "Windows" → requested a = [Windows])
       ∧ (platform_system env = "Darwin" → requested a = [MacOS])
       ∧ (platform_system env = "Linux" → requested a = [Linux]).
Proof.
  intros Hw Hm Hl Ha.
  destruct (default_platform_spec env args w) as (Hr & _).
  exists (resolved env args). split; [done|].
  unfold resolved, default_platform, requested. rewrite Hw, Hm, Hl, Ha. cbn [negb orb].
  split_and!.
  - repeat (destruct (String.eqb _ _); [vm_compute; done|]). vm_compute; done.
  - intros ->. vm_compute; done.
  - intros ->. vm_compute; done.
  - intros ->. vm_compute; done.
Qed.

Lemma setup_not_make (s : list string * run_result) :
  setup_command s.1 = true → is_make s.1 = false ∧ is_build s = false.
Proof.
  destruct s as [c r]. unfold setup_command. cbn [fst]. intros H%bool_decide_eq_true.
  repeat (apply elem_of_cons in H as [->|H]); [by split..|].
  by apply elem_of_nil in H.
Qed.

Lemma setup_quiet (pre : list (list string * run_result)) :
  Forall (λ s, setup_command s.1 = true) pre →
  forallb (λ s, negb (is_make s.1)) pre = true
  ∧ ∀ s, s ∈ pre → is_build s = false ∧ is_make s.1 = false.
Proof.
  intros H. split.
  - apply forallb_forall. intros s Hs%list_elem_of_In.
    rewrite Forall_forall in H. by destruct (setup_not_make s (H s Hs)) as [-> _].
  - intros s Hs. rewrite Forall_forall in H.
    by destruct (setup_not_make s (H s Hs)).
Qed.

Lemma NoDup_installer_commands args : NoDup (installer_command <$> requested args).
Proof.
  unfold requested.
  destruct (all args || windows args), (all args || macos args), (all args || linux args);
    apply (bool_decide_unpack _); vm_compute; done.
Qed.

Lemma requested_is_make args c :
  c ∈ installer_command <$> requested args → is_make c = true.
Proof.
  intros (p & -> & _)%list_elem_of_fmap. by destruct p.
Qed.

(** The exit status and the commands of the run: the status is 0 or 1, and
    it is 0 exactly when the build command completed and the installer
    command of every requested platform completed. *)
Lemma exit_status_and_commands env args w :
  let x := build_installer.main env args w in
  (exit_status (result x) = 0%Z ∨ exit_status (result x) = 1%Z)
  ∧ (exit_status (result x) = 0%Z
     ↔ build_succeeded (output x)
       ∧ ∀ p, p ∈ requested (resolved env args) → installer_succeeded p (output x)).
Proof.
  cbn zeta. unfold build_succeeded, installer_succeeded.
  destruct (main_outcome env args w) as [(Hx & pre & Hpre & Hss)|Hok].
  - split; [by right|]. split; [rewrite Hx; done|].
    intros [(rb & Hin & Hrb) _]. exfalso.
    destruct (setup_quiet pre Hpre) as [_ Hq].
    destruct Hss as [Hss | (rb' & Hss & Hrb' & _)]; rewrite Hss in Hin.
    + by destruct (Hq _ Hin) as [? _].
    + apply elem_of_app in Hin as [Hin|Hin%list_elem_of_singleton].
      * by destruct (Hq _ Hin) as [? _].
      * congruence.
  - destruct Hok as (pre & rb & ms & Hss & Hpre & Hrb & _ & Hms & Hr).
    rewrite Hr, Hss. cbn [exit_status].
    destruct (setup_quiet pre Hpre) as [_ Hq].
    split; [destruct (forallb _ ms); auto|].
    split.
    + intros Hz.
      assert (forallb (λ s, completed s.2) ms = true) as Hall
        by (destruct (forallb _ ms); [done|discriminate Hz]).
      split; [exists rb; split; [apply elem_of_app; right; by left|done]|].
      intros p Hp.
      assert (installer_command p ∈ ms.*1) as (s & Hs1 & Hs)%list_elem_of_fmap
        by (rewrite Hms; by apply list_elem_of_fmap_2).
      exists s.2. split.
      * rewrite Hs1. destruct s. apply elem_of_app. right. by right.
      * rewrite forallb_forall in Hall. apply (Hall s). by apply list_elem_of_In.
    + intros [_ Hall].
      assert (forallb (λ s, completed s.2) ms = true) as ->; [|done].
      apply forallb_forall. intros s Hs%list_elem_of_In.
      assert (s.1 ∈ installer_command <$> requested (resolved env args)) as Hc
        by (rewrite <- Hms; by apply list_elem_of_fmap_2).
      pose proof (requested_is_make _ _ Hc) as Hmk.
      apply list_elem_of_fmap in Hc as (p & Hp1 & Hp).
      destruct (Hall p Hp) as (rr & Hin & Hrr).
      assert ((installer_command p, rr) ∈ ms) as Hin'.
      { apply elem_of_app in Hin as [Hin|Hin].
        - destruct (Hq _ Hin) as [_ Hnm]. simpl in Hnm. congruence.
        - apply elem_of_cons in Hin as [[= Hb _]|Hin]; [|done].
          rewrite Hp1, Hb in Hmk. done. }
      destruct s as [c r]. cbn [fst snd] in *. subst c.
      pose proof (NoDup_installer_commands (resolved env args)) as Hnd.
      rewrite <- Hms in Hnd.
      pose proof (elem_of_list_to_map_1 (M := gmap (list string)) ms _ _ Hnd Hin') as E1.
      pose proof (elem_of_list_to_map_1 (M := gmap (list string)) ms _ _ Hnd Hs) as E2.
      congruence.
Qed.

End flag_runs.

(** With [--all] the namespace is left as it is, whatever the host: the
    three platforms are requested, and the installer step spawns the three
    installer commands in the order Windows, macOS, Linux. *)
Theorem all_flag_requests_every_platform env args w :
  build_installer.all args = true →
  result (build_installer.default_platform env args w) = Ret args
  ∧ build_installer.requested args
    = [build_installer.Windows; build_installer.MacOS; build_installer.Linux]
  ∧ (spawns (output (build_installer.build_installers env args w))).*1
    = [make_win; make_mac; make_linux].
Proof.
  intros Ha.
  assert (build_installer.requested args
          = [build_installer.Windows; build_installer.MacOS; build_installer.Linux]) as Hr
    by (unfold build_installer.requested; by rewrite Ha).
  split_and!; [|done|].
  - unfold build_installer.default_platform. rewrite Ha, !orb_true_r. done.
  - destruct (build_installers_spec env args w) as (built & _ & Hs & _).
    unfold wp in Hs. by rewrite Hs, Hr.
Qed.


Lemma resolved_verbose env args :
  build_installer.verbose (resolved env args) = build_installer.verbose args.
Proof.
  unfold resolved, build_installer.default_platform.
  destruct (negb _); [|done].
  by repeat (destruct (String.eqb _ _); [done|]).
Qed.

Lemma setup_no_builds (pre : list (list string * run_result)) :
  Forall (λ s, setup_command s.1 = true) pre →
  length (List.filter is_build pre) = 0 ∧ forallb (λ s, negb (is_make s.1)) pre = true.
Proof.
  intros H. destruct (setup_quiet pre H) as [Hq Hb]. split; [|done].
  induction pre as [|s pre IH]; [done|]. simpl.
  destruct (Hb s) as [-> _]; [by left|].
  apply IH.
  - by apply Forall_inv_tail in H.
  - apply Forall_inv_tail in H. by destruct (setup_quiet pre H).
  - intros s' Hs'. apply Hb. by right.
Qed.

(** A failed prerequisite check halts the run before any build step. In
    the flag-driven script no build and no installer command is spawned and
    the exit status is 1; in the interactive script no build and no
    installer command is spawned and the exit status is not 0. *)
Theorem failed_prerequisites_halt env w :
  (∀ args,
     result (build_installer.check_prerequisites env (build_installer.verbose args) w)
     = Ret false →
     let x := build_installer.main env args w in
     count_builds (output x) = 0 ∧ no_installer_spawned (output x) = true
     ∧ exit_status (result x) = 1%Z)
  ∧ (∀ stdin,
       result (build_installer_simple.check_prerequisites env w) = Ret false →
       let y := build_installer_simple.main env stdin w in
       count_builds (output y) = 0 ∧ no_installer_spawned (output y) = true
       ∧ exit_status (result y) ≠ 0%Z).
Proof.
  split.
  - intros args Hc. cbn zeta.
    change (wp (build_installer.main env args)
              (λ r _ o, count_builds o = 0 ∧ no_installer_spawned o = true
                        ∧ exit_status r = 1%Z) w).
    unfold build_installer.main, count_builds, no_installer_spawned.
    wp_step. wp_call default_platform_spec. intros ? ? ? (-> & -> & Hs0).
    rewrite resolved_verbose.
    wp_step. wp_call init_spec. intros ? ? ? (Hs1 & -> & [-> | [-> | ->]]);
      [|by rewrite spawns_app, Hs0, Hs1..].
    do 9 wp_step.
    pose proof (check_prerequisites_spec env (build_installer.verbose args) w) as Hp.
    unfold wp in Hp. unfold wp at 1. destruct Hp as [_ Hp].
    destruct (build_installer.check_prerequisites env (build_installer.verbose args) w)
      as [[r1 w1] o1]. cbn [result final output fst snd] in *. subst r1.
    apply wp_bind, wp_when; [intros _|done]. apply wp_raise.
    unfold count_builds, no_installer_spawned. spawns_simpl. rewrite Hs0, Hs1. simpl. spawns_simpl.
    destruct (setup_no_builds _ Hp). done.
  - intros stdin Hc. cbn zeta.
    change (wp (build_installer_simple.main env stdin)
              (λ r _ o, count_builds o = 0 ∧ no_installer_spawned o = true
                        ∧ exit_status r ≠ 0%Z) w).
    unfold build_installer_simple.main, build_installer_simple.print_header.
    do 9 wp_step.
    pose proof (simple_check_prerequisites_spec env w) as Hp.
    unfold wp in Hp. unfold wp at 1. destruct Hp as (_ & Hm & _ & Hb & _).
    destruct (build_installer_simple.check_prerequisites env w) as [[r1 w1] o1].
    cbn [result final output fst snd] in *. subst r1. cbn [negb].
    unfold count_builds, no_installer_spawned in *.
    repeat wp_step; spawns_simpl; rewrite Hb, Hm; done.
Qed.

(** C10, with the conditions it needs. Once the prerequisite check of the
    interactive script has succeeded, and as long as no command's executable
    is missing and no regular file stands where an output directory belongs,
    the way the session ends is a function of the input alone, whichever
    build and installer commands fail: it is [session_end stdin]. That end is
    exit status 0 (menu choice 6, an interrupt at the menu prompt, an answer
    other than y or yes), or an [EOFError] when the input ends at a prompt,
    or a [KeyboardInterrupt] at the continue prompt. *)
Theorem exit_code_after_prerequisites env stdin w :
  result (build_installer_simple.check_prerequisites env w) = Ret true →
  never_missing env → keeps_output_paths env → no_file_in_the_way (fs w) →
  let r := result (build_installer_simple.main env stdin w) in
  r = session_end stdin
  ∧ (exit_status r = 0%Z ∨ r = Raise EOFError ∨ r = Raise KeyboardInterrupt).
Proof.
  intros Hp Hnm Hk Hnf. cbn zeta.
  destruct (simple_main_spec env stdin w) as [_ H].
  rewrite (H Hp Hnm Hk Hnf). split; [done|]. apply session_end_cases.
Qed.

(** * The reporters *)

(** ** Matching of names *)

Lemma fnmatch_star_all name : Py.fnmatch "*" name = true.
Proof. induction name as [|c n IH]; [done|]. simpl in *. by rewrite IH. Qed.

Lemma fnmatch_literal pat : ∀ name,
  is_literal pat = true → Py.fnmatch pat name = true ↔ name = pat.
Proof.
  induction pat as [|p pat IH]; intros name Hl.
  - destruct name; simpl; split; congruence.
  - simpl in Hl. apply andb_prop in Hl as [[H1 H2]%andb_prop Hl].
    apply negb_true_iff in H1, H2. simpl. rewrite H1.
    destruct name as [|c name]; [split; congruence|].
    rewrite H2. cbn [orb]. rewrite andb_true_iff, Ascii.eqb_eq, (IH name Hl).
    split; [intros [-> ->]; done|intros [= -> ->]; done].
Qed.

Lemma fnmatch_star pat name :
  Py.fnmatch (String "*" pat) name
  = Py.fnmatch pat name
    || match name with
       | EmptyString => false
       | String _ name' => Py.fnmatch (String "*" pat) name'
       end.
Proof. by destruct name. Qed.

Lemma fnmatch_star_literal pat : ∀ name,
  is_literal pat = true →
  Py.fnmatch (String "*" pat) name = true ↔ ∃ stem, name = (stem ++ pat)%string.
Proof.
  intros name Hl. induction name as [|c name IH]; rewrite fnmatch_star, orb_true_iff.
  - rewrite (fnmatch_literal pat _ Hl). split.
    + intros [<-|[=]]. by exists EmptyString.
    + intros [[|c stem] Hs]; [left; done|discriminate Hs].
  - rewrite (fnmatch_literal pat _ Hl), IH. split.
    + intros [<-|[stem ->]]; [by exists EmptyString|by exists (String c stem)].
    + intros [[|c' stem] Hs]; [left; done|right]. injection Hs as -> ->. by exists stem.
Qed.

(** ** What the reporters list *)

Lemma artifact_lines_app o1 o2 :
  artifact_lines (o1 ++ o2) = artifact_lines o1 ++ artifact_lines o2.
Proof. apply omap_app. Qed.

Lemma artifact_lines_text lv s o :
  artifact_lines (Say lv (Text s) :: o) = artifact_lines o.
Proof. done. Qed.

Lemma artifact_lines_listing (lv lv2 : level) (f : FS) (g : path → string) (l : list (path * entry)) :
  artifact_lines
    (flat_map (λ installer : path * entry,
                 [Say lv (ArtifactLine (Path.name installer.1) (st_size_of f installer.1));
                  Say lv2 (Text (g installer.1))]) l)
  = listed f <$> l.
Proof. induction l as [|x l IH]; [done|]. simpl. by rewrite IH. Qed.

Lemma elem_of_rglob (f : FS) (d : path) pat (p : path) e :
  (p, e) ∈ Path.rglob f d pat
  ↔ f !! d = Some Dir ∧ Path.below d p ∧ f !! p = Some e
    ∧ Py.fnmatch pat (Path.name p) = true.
Proof.
  unfold Path.rglob, Path.is_dir.
  destruct (f !! d) as [[|n]|] eqn:Hd.
  - rewrite elem_of_map_to_list, map_lookup_filter_Some. cbn [fst snd].
    split; [intros (? & ? & ?)|intros (_ & ? & ? & ?)]; done.
  - split; [by intros ?%elem_of_nil|by intros ([=] & _)].
  - split; [by intros ?%elem_of_nil|by intros ([=] & _)].
Qed.

Lemma flag_listing platform_name w :
  artifact_lines (output (build_installer.show_build_artifacts platform_name w))
  = listed (fs w) <$> List.filter build_installer.is_installer
                        (Path.rglob (fs w) build_installer.dist_path "*").
Proof.
  unfold build_installer.show_build_artifacts, bind, get_fs, output.
  cbn beta iota. destruct (Path.exists_ (fs w) build_installer.dist_path) eqn:Hex.
  - destruct (List.filter _ _) as [|i l] eqn:Hl; [done|].
    unfold build_installer.success, build_installer.info, say.
    rewrite (for_each_prints
               (λ installer : path * entry,
                  [Say Info (ArtifactLine (Path.name installer.1) (st_size_of (fs w) installer.1));
                   Say Info (Text ("     Path: " ++ Path.str installer.1))])) by done.
    cbn [snd app]. 
    rewrite artifact_lines_text.
    by rewrite (artifact_lines_listing Info Info (fs w) (λ p, ("     Path: " ++ Path.str p)%string)).
  - unfold Path.rglob, Path.is_dir, Path.exists_ in *.
    destruct (fs w !! build_installer.dist_path); [done|]. done.
Qed.

Lemma simple_listing w :
  artifact_lines (output (build_installer_simple.show_build_results w))
  = listed (fs w)
      <$> (Path.rglob (fs w) ["out"] "*.exe" ++ Path.rglob (fs w) ["out"] "*.dmg"
           ++ Path.rglob (fs w) ["out"] "*.AppImage").
Proof.
  unfold build_installer_simple.show_build_results, bind, get_fs, output.
  cbn beta iota. destruct (Path.exists_ (fs w) ["out"]) eqn:Hex.
  - unfold build_installer_simple.print_success, build_installer_simple.print_info, print, say.
    cbn beta iota.
    destruct (_ ++ _) as [|i l] eqn:Hl; [done|].
    rewrite (for_each_prints
               (λ installer : path * entry,
                  [Say Plain (ArtifactLine (Path.name installer.1) (st_size_of (fs w) installer.1));
                   Say Plain (Text ("     Path: " ++ Path.str installer.1))])) by done.
    cbn [snd app]. rewrite !artifact_lines_text, artifact_lines_app.
    rewrite (artifact_lines_listing Plain Plain (fs w) (λ p, ("     Path: " ++ Path.str p)%string)).
    cbn. by rewrite app_nil_r.
  - unfold Path.rglob, Path.is_dir, Path.exists_ in *.
    destruct (fs w !! ["out"]); [done|]. done.
Qed.

Lemma rglob_empty (f : FS) (d : path) pat :
  (∀ p, Path.below d p → f !! p = None) → Path.rglob f d pat = [].
Proof.
  intros H. unfold Path.rglob. destruct (Path.is_dir f d); [|done].
  apply map_to_list_empty_iff, map_empty. intros p.
  apply map_lookup_filter_None. right. intros e He [Hb _]. simpl in Hb.
  rewrite (H p Hb) in He. done.
Qed.

(** C8, as the code has it. When [out] is absent, neither reporter raises
    or changes the world; the interactive script prints the line
    [No 'out' directory found. Build may have failed.] and nothing else, and
    the flag-driven script prints nothing. When nothing lies below [out],
    neither reporter raises or changes the world, the flag-driven script
    prints nothing and the interactive script lists no artifact. *)
Theorem reporter_without_artifacts (w : World) (platform_name : string) :
  (fs w !! ["out"] = None →
   build_installer.show_build_artifacts platform_name w = (Ret tt, w, [])
   ∧ build_installer_simple.show_build_results w = (Ret tt, w, [not_found]))
  ∧ ((∀ p, Path.below ["out"] p → fs w !! p = None) →
     build_installer.show_build_artifacts platform_name w = (Ret tt, w, [])
     ∧ (let x := build_installer_simple.show_build_results w in
        result x = Ret tt ∧ final x = w ∧ artifact_lines (output x) = [])).
Proof.
  split.
  - intros Habs.
    unfold build_installer.show_build_artifacts, build_installer_simple.show_build_results,
      build_installer.dist_path, bind, get_fs, Path.exists_.
    by rewrite Habs.
  - intros Hempty. split.
    + unfold build_installer.show_build_artifacts, build_installer.dist_path, bind, get_fs.
      rewrite rglob_empty by done. cbn. by destruct (Path.exists_ _ _).
    + cbn zeta.
      unfold build_installer_simple.show_build_results, bind, get_fs.
      rewrite !rglob_empty by done. cbn. by destruct (Path.exists_ _ _).
Qed.

(** The reporters are read-only: neither raises, changes the world, or
    spawns a command, so calling one again shows the same. *)
Theorem reporters_are_read_only (platform_name : string) (w : World) :
  let x := build_installer.show_build_artifacts platform_name w in
  let y := build_installer_simple.show_build_results w in
  (result x = Ret tt ∧ final x = w ∧ spawns (output x) = [])
  ∧ (result y = Ret tt ∧ final y = w ∧ spawns (output y) = []).
Proof.
  cbn zeta. split.
  - apply (show_build_artifacts_spec platform_name w).
  - destruct (show_build_results_spec w) as (? & ? & ? & _). done.
Qed.


(** The flag-driven reporter lists a name with a size exactly when [out] is
    a directory and a regular file of that name and size lies below it whose
    lowered suffix contains one of the extensions of the list. *)
Theorem flag_reporter_lists (platform_name : string) (w : World) (name : string) (size : N) :
  (name, size) ∈ artifact_lines (output (build_installer.show_build_artifacts platform_name w))
  ↔ ∃ p : path,
      fs w !! ["out"] = Some Dir ∧ Path.below ["out"] p ∧ fs w !! p = Some (File size)
      ∧ Path.name p = name
      ∧ ∃ ext, ext ∈ build_installer.artifact_extensions
               ∧ Py.contains ext (Py.lower (Py.suffix name)) = true.
Proof.
  rewrite flag_listing, list_elem_of_fmap. unfold listed. split.
  - intros ([p e] & [= -> ->] & [Hin Hi]%list_elem_of_In%filter_In).
    apply list_elem_of_In, elem_of_rglob in Hin as (Hd & Hb & Hp & _).
    unfold build_installer.is_installer in Hi. cbn [fst snd] in *.
    apply andb_prop in Hi as [He Hx]. destruct e as [|n]; [done|].
    exists p. unfold st_size_of. rewrite Hp. split_and!; [done..|].
    apply existsb_exists in Hx as (ext & Hext%list_elem_of_In & Hc). by exists ext.
  - intros (p & Hd & Hb & Hp & <- & ext & Hext & Hc).
    exists (p, File size). cbn [fst snd]. unfold st_size_of. rewrite Hp. split; [done|].
    apply list_elem_of_In, filter_In. split.
    + apply list_elem_of_In, elem_of_rglob. split_and!; [done..|]. apply fnmatch_star_all.
    + unfold build_installer.is_installer. cbn [fst snd andb].
      apply existsb_exists. exists ext. split; [by apply list_elem_of_In|done].
Qed.


Lemma lower_app (s t : string) : Py.lower (s ++ t) = (Py.lower s ++ Py.lower t)%string.
Proof. induction s as [|c s IH]; [done|]. simpl. by rewrite IH. Qed.

(** What the interactive reporter lists, on every host. Where [out] is a
    directory, every regular file below it whose name ends in [.exe], [.dmg]
    or [.AppImage] is listed, with its size. And whatever is listed is the
    name of an entry below the directory [out] that ends, letter case aside,
    in one of the three extensions; when that entry is a regular file, the
    size shown is its size. *)
Theorem interactive_reporter_lists (w : World) :
  (∀ (p : path) (size : N) (ext stem : string),
     fs w !! ["out"] = Some Dir → Path.below ["out"] p → fs w !! p = Some (File size) →
     ext ∈ [".exe"; ".dmg"; ".AppImage"] → Path.name p = (stem ++ ext)%string →
     (Path.name p, size)
       ∈ artifact_lines (output (build_installer_simple.show_build_results w)))
  ∧ (∀ (name : string) (size : N),
       (name, size) ∈ artifact_lines (output (build_installer_simple.show_build_results w)) →
       ∃ p : path,
         fs w !! ["out"] = Some Dir ∧ Path.below ["out"] p ∧ is_Some (fs w !! p)
         ∧ Path.name p = name
         ∧ (∀ n, fs w !! p = Some (File n) → size = n)
         ∧ ∃ ext stem, ext ∈ [".exe"; ".dmg"; ".AppImage"]
                       ∧ Py.lower name = (stem ++ Py.lower ext)%string).
Proof.
  split.
  - intros p size ext stem Hd Hb Hp Hext Hs.
    rewrite simple_listing, list_elem_of_fmap. unfold listed.
    exists (p, File size). cbn [fst snd]. unfold st_size_of. rewrite Hp. split; [done|].
    rewrite !elem_of_app, !elem_of_rglob.
    repeat (apply elem_of_cons in Hext as [->|Hext]); [| | |by apply elem_of_nil in Hext].
    + left. split_and!; [done..|]. apply fnmatch_star_literal; [done|by exists stem].
    + right; left. split_and!; [done..|]. apply fnmatch_star_literal; [done|by exists stem].
    + right; right. split_and!; [done..|]. apply fnmatch_star_literal; [done|by exists stem].
  - intros name size. rewrite simple_listing, list_elem_of_fmap. unfold listed.
    intros ([p e] & [= -> ->] & Hin). cbn [fst snd] in *. exists p.
    rewrite !elem_of_app, !elem_of_rglob in Hin.
    destruct Hin as [(Hd & Hb & Hp & Hm)|[(Hd & Hb & Hp & Hm)|(Hd & Hb & Hp & Hm)]];
      (split_and!;
         [done|done|by eexists|done
         |intros n Hn; unfold st_size_of; by rewrite Hn|]);
      apply fnmatch_star_literal in Hm as [stem Hs]; try done;
      eexists _, (Py.lower stem);
      (split; [|rewrite Hs; apply lower_app]); repeat constructor.
Qed.

(** * Concrete runs *)

Lemma toolchain_never_missing host broken : never_missing (toolchain host broken).
Proof. intros k sh cmd f. simpl. by case_bool_decide. Qed.

Lemma produce_keeps (argv : list string) (f : FS) :
  no_file_in_the_way f → no_file_in_the_way (produce argv f).
Proof.
  intros H p Hp. unfold produce.
  repeat case_bool_decide; [..|by apply H].
  all: unfold output_paths in Hp;
    repeat (apply elem_of_cons in Hp as [->|Hp]); [| | |by apply elem_of_nil in Hp].
  all: rewrite lookup_insert_ne by done.
  all: first [ rewrite lookup_insert_eq; by right
             | rewrite lookup_insert_ne by done; apply H; unfold output_paths; by repeat constructor ].
Qed.

Lemma toolchain_keeps host broken : keeps_output_paths (toolchain host broken).
Proof.
  intros k sh cmd f H. simpl. case_bool_decide; [done|]. by apply produce_keeps.
Qed.

Lemma no_file_in_the_way_checkout : no_file_in_the_way checkout.
Proof.
  intros p Hp. unfold output_paths in Hp.
  repeat (apply elem_of_cons in Hp as [->|Hp]); [by left..|by apply elem_of_nil in Hp].
Qed.

Lemma no_file_in_the_way_built : no_file_in_the_way built.
Proof.
  intros p Hp. unfold output_paths in Hp.
  repeat (apply elem_of_cons in Hp as [->|Hp]);
    [by right|by left|by right|by apply elem_of_nil in Hp].
Qed.

Lemma no_file_in_the_way_vendored : no_file_in_the_way vendored.
Proof.
  intros p Hp. unfold output_paths in Hp.
  repeat (apply elem_of_cons in Hp as [->|Hp]);
    [by right|by left|by right|by apply elem_of_nil in Hp].
Qed.

Lemma glob_removes_files_only_vendored : glob_removes_files_only vendored.
Proof.
  intros pat Hpat Hf. unfold glob_patterns in Hpat.
  repeat (apply elem_of_cons in Hpat as [->|Hpat]); [| |by apply elem_of_nil in Hpat];
    vm_compute in Hf; discriminate.
Qed.

Lemma empty_out_has_nothing_below (p : path) :
  Path.below ["out"] p → (<[["out"] := Dir]> checkout : FS) !! p = None.
Proof.
  intros [[k ->] Hne]. rewrite lookup_insert_ne by done.
  apply not_elem_of_list_to_map_1. cbn.
  intros H. repeat (apply elem_of_cons in H as [[=]|H]). by apply elem_of_nil in H.
Qed.

(** C4 on a Darwin host with no flag given. *)
Lemma default_platform_is_host_witness :
  ∃ a, result (build_installer.default_platform (calm "Darwin") no_flags (start checkout)) = Ret a
       ∧ length (build_installer.requested a) = 1
       ∧ (platform_system (calm "Darwin") = "Windows" →
          build_installer.requested a = [build_installer.Windows])
       ∧ (platform_system (calm "Darwin") = "Darwin" →
          build_installer.requested a = [build_installer.MacOS])
       ∧ (platform_system (calm "Darwin") = "Linux" →
          build_installer.requested a = [build_installer.Linux]).
Proof.
  apply (default_platform_is_host (calm "Darwin") no_flags (start checkout)); reflexivity.
Defined.

(** C5 on a checkout after a build, where [out] and [.webpack] are
    directories and [src/renderer] holds the directory [vendor.js], whose
    name the pattern [*.js] matches. *)
Lemma clean_build_twice_witness :
  vendored !! ["src"; "renderer"; "vendor.js"] = Some Dir
  ∧ (result (build_installer.clean_build (start vendored)) = Ret true
     ∧ (∀ p, p ∈ output_paths →
             fs (final (build_installer.clean_build (start vendored))) !! p = None)
     ∧ build_installer.clean_build (final (build_installer.clean_build (start vendored)))
       = (Ret true, final (build_installer.clean_build (start vendored)), [cleaning]))
  ∧ (result (build_installer_simple.clean_build (start vendored)) = Ret true
     ∧ (∀ p, p ∈ output_paths →
             fs (final (build_installer_simple.clean_build (start vendored))) !! p = None)
     ∧ build_installer_simple.clean_build
         (final (build_installer_simple.clean_build (start vendored)))
       = (Ret true, final (build_installer_simple.clean_build (start vendored)), [cleaning])).
Proof.
  destruct (clean_build_twice (start vendored) no_file_in_the_way_vendored) as [Hflag Hsimple].
  split; [reflexivity|]. split.
  - apply Hflag. apply glob_removes_files_only_vendored.
  - apply Hsimple.
Defined.

(** C5 as stated fails in two ways. Where a regular file stands at [out],
    the interactive cleaner raises [NotADirectoryError], and the flag-driven
    cleaner returns success but leaves [out] in place. And where
    [src/renderer] holds a regular file named [*.js] next to a directory
    whose name that pattern matches, with no file at an output path, the
    flag-driven cleaner globs, meets the directory and raises
    [IsADirectoryError]. *)
Lemma clean_build_can_fail :
  (result (build_installer_simple.clean_build (start blocked)) = Raise NotADirectoryError
   ∧ result (build_installer.clean_build (start blocked)) = Ret true
   ∧ fs (final (build_installer.clean_build (start blocked))) !! ["out"] = Some (File 12))
  ∧ (no_file_in_the_way tangled
     ∧ Path.is_file tangled ["src"; "renderer"; "*.js"] = true
     ∧ tangled !! ["src"; "renderer"; "vendor.js"] = Some Dir
     ∧ glob_hit renderer "*.js" ["src"; "renderer"; "vendor.js"] = true
     ∧ result (build_installer.clean_build (start tangled)) = Raise IsADirectoryError).
Proof.
  split; [vm_compute; auto|]. split.
  - intros p Hp. unfold output_paths in Hp.
    repeat (apply elem_of_cons in Hp as [->|Hp]); [by left..|by apply elem_of_nil in Hp].
  - vm_compute. auto.
Qed.

(** The interactive reporter on a checkout after a build. *)
Lemma interactive_reporter_lists_witness :
  (("FlowGenius Setup.exe", 83886080%N)
     ∈ artifact_lines (output (build_installer_simple.show_build_results (start built))))
  ∧ ∃ p : path,
      fs (start built) !! ["out"] = Some Dir ∧ Path.below ["out"] p
      ∧ is_Some (fs (start built) !! p)
      ∧ Path.name p = "FlowGenius Setup.exe"
      ∧ (∀ n, fs (start built) !! p = Some (File n) → 83886080%N = n)
      ∧ ∃ ext stem, ext ∈ [".exe"; ".dmg"; ".AppImage"]
                    ∧ Py.lower "FlowGenius Setup.exe" = (stem ++ Py.lower ext)%string.
Proof.
  assert (("FlowGenius Setup.exe", 83886080%N)
            ∈ artifact_lines
                (output (build_installer_simple.show_build_results (start built)))) as Hin.
  { apply (proj1 (interactive_reporter_lists (start built))
             ["out"; "FlowGenius Setup.exe"] 83886080%N ".exe" "FlowGenius Setup").
    - reflexivity.
    - split; [by exists ["FlowGenius Setup.exe"]|done].
    - reflexivity.
    - set_solver.
    - reflexivity. }
  split; [exact Hin|].
  apply (proj2 (interactive_reporter_lists (start built)) _ _ Hin).
Defined.

(** C8 on a checkout without [out], and on one whose [out] is empty. *)
Lemma reporter_without_artifacts_witness :
  (build_installer.show_build_artifacts "win32" (start checkout) = (Ret tt, start checkout, [])
   ∧ build_installer_simple.show_build_results (start checkout)
     = (Ret tt, start checkout, [not_found]))
  ∧ artifact_lines
      (output (build_installer_simple.show_build_results
                 (start (<[["out"] := Dir]> checkout)))) = [].
Proof.
  split.
  - apply (proj1 (reporter_without_artifacts (start checkout) "win32")). reflexivity.
  - apply (proj2 (reporter_without_artifacts (start (<[["out"] := Dir]> checkout)) "win32")).
    apply empty_out_has_nothing_below.
Defined.

(** C8 as stated fails for the flag-driven script: where [out] is absent
    its reporter prints nothing at all, no "not found" line either. *)
Lemma flag_reporter_is_silent :
  fs (start checkout) !! ["out"] = None
  ∧ output (build_installer.show_build_artifacts "win32" (start checkout)) = [].
Proof. vm_compute. auto. Qed.

(** C9 on a Linux host whose [make:mac] exits with status 1. *)
Lemma mac_failure_is_tolerated_witness :
  result (build_installer_simple.create_all_installers (toolchain "Linux" [make_mac])
            (start checkout)) = Ret true.
Proof.
  apply (mac_failure_is_tolerated (toolchain "Linux" [make_mac]) (start checkout));
    vm_compute; congruence.
Defined.

(** C10 at a toolchain whose build command always fails: two failed builds,
    then the answer n, and the session returns normally. *)
Lemma exit_code_after_prerequisites_witness :
  result (build_installer_simple.main (toolchain "Linux" [npm_run_build])
            [build_installer_simple.Line "1"; build_installer_simple.Line "y";
             build_installer_simple.Line "4"; build_installer_simple.Line "n"]
            (start checkout)) = Ret tt.
Proof.
  apply (exit_code_after_prerequisites (toolchain "Linux" [npm_run_build])
           [build_installer_simple.Line "1"; build_installer_simple.Line "y";
            build_installer_simple.Line "4"; build_installer_simple.Line "n"]
           (start checkout)).
  - vm_compute. reflexivity.
  - apply toolchain_never_missing.
  - apply toolchain_keeps.
  - apply no_file_in_the_way_checkout.
Defined.

(** C10 as stated fails with the prerequisites met. Where the input ends at
    the continue prompt the uncaught [EOFError] gives exit status 1; and
    where a regular file stands at [out], a clean build ends with an
    uncaught [NotADirectoryError], exit status 1 again. *)
Lemma exit_code_at_end_of_input :
  result (build_installer_simple.check_prerequisites (calm "Linux") (start checkout)) = Ret true
  ∧ exit_status
      (result (build_installer_simple.main (calm "Linux")
                 [build_installer_simple.Line "1"] (start checkout))) = 1%Z
  ∧ result (build_installer_simple.check_prerequisites (calm "Linux") (start blocked)) = Ret true
  ∧ exit_status
      (result (build_installer_simple.main (calm "Linux")
                 [build_installer_simple.Line "3"; build_installer_simple.Line "n"]
                 (start blocked))) = 1%Z.
Proof. vm_compute. auto. Qed.

(** [--all] on a Linux host. *)
Lemma all_flag_requests_every_platform_witness :
  result (build_installer.default_platform (calm "Linux") all_platforms (start checkout))
  = Ret all_platforms
  ∧ build_installer.requested all_platforms
    = [build_installer.Windows; build_installer.MacOS; build_installer.Linux]
  ∧ (spawns (output (build_installer.build_installers (calm "Linux") all_platforms
                       (start checkout)))).*1
    = [make_win; make_mac; make_linux].
Proof.
  apply (all_flag_requests_every_platform (calm "Linux") all_platforms (start checkout)).
  reflexivity.
Defined.


(** A host without a working [npm]: both scripts stop at the prerequisite
    check. *)
Lemma failed_prerequisites_halt_witness :
  exit_status (result (build_installer.main no_npm no_flags (start checkout))) = 1%Z
  ∧ exit_status
      (result (build_installer_simple.main no_npm [build_installer_simple.Line EmptyString]
                 (start checkout))) ≠ 0%Z.
Proof.
  split.
  - apply (proj1 (failed_prerequisites_halt no_npm (start checkout))). vm_compute. reflexivity.
  - apply (proj2 (failed_prerequisites_halt no_npm (start checkout))). vm_compute. reflexivity.
Defined.

(** C6 does not hold of the code: the flag-driven cleaner tests the
    existence of the pattern path itself before it globs. On a checkout that
    holds the regular file [src/renderer/app.js], whose name the pattern
    [*.js] matches, cleaning succeeds, leaves the filesystem as it was and
    prints the cleaning notice only: the file is neither removed nor
    logged. *)
Theorem glob_patterns_are_never_cleaned :
  build_installer.clean_build (start checkout)
  = (Ret true, start checkout, [cleaning])
  ∧ checkout !! ["src"; "renderer"; "app.js"] = Some (File 5000)
  ∧ Py.fnmatch "*.js" "app.js" = true.
Proof. vm_compute. auto. Qed.

(** C7 does not hold of the flag-driven script: its reporter tests whether
    an allowed extension occurs inside the lowered suffix. The file
    [out/symbols.debug] has the suffix [.debug], which is not in the
    allow-list, and the flag-driven reporter lists it (with its size),
    because [.deb] occurs in [.debug]. The interactive reporter does not
    list it. *)
Theorem substring_test_lists_foreign_suffix :
  Py.suffix "symbols.debug" = ".debug"
  ∧ (".debug" ∉ build_installer.artifact_extensions)
  ∧ (("symbols.debug", 4096%N)
       ∈ artifact_lines (output (build_installer.show_build_artifacts "win32" (start built))))
  ∧ (("symbols.debug", 4096%N)
       ∉ artifact_lines (output (build_installer_simple.show_build_results (start built)))).
Proof.
  split_and!.
  - reflexivity.
  - apply (bool_decide_unpack _). vm_compute. exact I.
  - apply (bool_decide_unpack _). vm_compute. exact I.
  - apply (bool_decide_unpack _). vm_compute. exact I.
Qed.

(** * The commands *)

Lemma wp_conj {A} (m : M A) (Q1 Q2 : res A → World → list event → Prop) w :
  wp m Q1 w → wp m Q2 w → wp m (λ r w' o, Q1 r w' o ∧ Q2 r w' o) w.
Proof. unfold wp. auto. Qed.

Ltac use_answers :=
  unfold after in *; cbn [fs spawned] in *;
  repeat match goal with
         | H : (subprocess _ _ _ _ _).1 = _ |- _ => rewrite H in *; clear H
         end.

(** [run_command] of the flag-driven script never raises: it spawns the
    command once, through the shell, and returns whether the command
    completed, also when the command cannot be started. *)
Theorem run_command_contract env (verbose : bool) (command : list string)
    (description : string) w :
  let rr := (subprocess env (spawned w) true command (fs w)).1 in
  let x := build_installer.run_command env verbose command description w in
  result x = Ret (completed rr)
  ∧ final x = after env true command w
  ∧ spawns (output x) = [(command, rr)].
Proof.
  cbn zeta.
  destruct (run_command_spec env verbose command description w) as (rr & -> & Hr & Hw & Hs).
  done.
Qed.

Lemma echoed_app o1 o2 : echoed (o1 ++ o2) = echoed o1 ++ echoed o2.
Proof. apply omap_app. Qed.

Lemma echoed_prints (l : list string) :
  echoed (flat_map (λ s, [Say Plain (Text s)]) l) = l.
Proof. induction l as [|s l IH]; [done|]. simpl. by rewrite IH. Qed.

(** What [run_command] of the flag-driven script echoes with plain [print].
    Without [--verbose]: after a completed command the important lines of
    its captured output; after a failed one its output and its error output,
    each only when it is not empty; nothing when the command cannot be
    started. With [--verbose] it echoes nothing. *)
Theorem run_command_echo env (command : list string) (description : string) w :
  let rr := (subprocess env (spawned w) true command (fs w)).1 in
  echoed (output (build_installer.run_command env false command description w))
  = match rr with
    | Completed stdout => build_installer.important_lines stdout
    | NonZero _ stdout stderr =>
        (if truthy stdout then [("STDOUT: " ++ stdout)%string] else [])
        ++ (if truthy stderr then [("STDERR: " ++ stderr)%string] else [])
    | NotFound => []
    end
  ∧ echoed (output (build_installer.run_command env true command description w)) = [].
Proof.
  cbn zeta. split.
  - change (wp (build_installer.run_command env false command description)
              (λ _ _ o, echoed o
                 = match (subprocess env (spawned w) true command (fs w)).1 with
                   | Completed stdout => build_installer.important_lines stdout
                   | NonZero _ stdout stderr =>
                       (if truthy stdout then [("STDOUT: " ++ stdout)%string] else [])
                       ++ (if truthy stderr then [("STDERR: " ++ stderr)%string] else [])
                   | NotFound => []
                   end) w).
    unfold build_installer.run_command, build_installer.info, build_installer.log,
      build_installer.error, build_installer.success.
    repeat wp_step;
      repeat match goal with H : (subprocess _ _ _ _ _).1 = _ |- _ => rewrite H end;
      try match goal with H : truthy _ = _ |- _ => rewrite ?H end;
      rewrite ?echoed_app, ?echoed_prints; simpl; rewrite ?app_nil_r; try done.
    all: repeat match goal with H : truthy ?s = _ |- _ => rewrite H; clear H end; try done.
    destruct out; [done|discriminate].
  - change (wp (build_installer.run_command env true command description)
              (λ _ _ o, echoed o = []) w).
    unfold build_installer.run_command, build_installer.info, build_installer.log,
      build_installer.error, build_installer.success.
    repeat wp_step; rewrite ?echoed_app; simpl; try done.
Qed.

(** The lines of captured output that [run_command] echoes are at most
    three, they are the last of the lines that name a keyword, and each of
    them is a line of the output that names [error], [warning], [success] or
    [complete] in lower or upper case. *)
Theorem important_lines_bounds (stdout : string) :
  let shown := build_installer.important_lines stdout in
  (length shown ≤ 3)%nat
  ∧ shown `suffix_of`
      List.filter (λ l, existsb (λ keyword, Py.contains keyword (Py.lower l))
                          build_installer.keywords)
        (Py.split "010" stdout)
  ∧ ∀ l, l ∈ shown →
         l ∈ Py.split "010" stdout
         ∧ ∃ keyword, keyword ∈ build_installer.keywords
                      ∧ Py.contains keyword (Py.lower l) = true.
Proof.
  cbn zeta. unfold build_installer.important_lines, Py.last_n.
  set (kept := List.filter _ _).
  split_and!.
  - rewrite length_drop. lia.
  - apply suffix_drop.
  - intros l Hl. assert (l ∈ kept) as Hk.
    { eapply elem_of_suffix; [done|apply suffix_drop]. }
    apply list_elem_of_In, filter_In in Hk as [Hin Hk].
    split; [by apply list_elem_of_In|].
    apply existsb_exists in Hk as (k & Hk1 & Hk2). exists k.
    split; [by apply list_elem_of_In|done].
Qed.

(** [run_command] of the interactive script spawns the command once,
    through the shell, and returns whether it completed; a command that
    cannot be started is not caught, it raises [FileNotFoundError]. After a
    failed command it prints the error output when that is not empty. *)
Theorem simple_run_command_contract env (command : list string) (description : string) w :
  let rr := (subprocess env (spawned w) true command (fs w)).1 in
  let x := build_installer_simple.run_command env command description w in
  result x = match rr with
             | Completed _ => Ret true
             | NonZero _ _ _ => Ret false
             | NotFound => Raise FileNotFoundError
             end
  ∧ final x = after env true command w
  ∧ spawns (output x) = [(command, rr)]
  ∧ echoed (output x) = match rr with
                        | NonZero _ _ stderr =>
                            if truthy stderr then [("Error: " ++ stderr)%string] else []
                        | _ => []
                        end.
Proof.
  cbn zeta.
  change (wp (build_installer_simple.run_command env command description)
            (λ r w' o,
               r = match (subprocess env (spawned w) true command (fs w)).1 with
                   | Completed _ => Ret true
                   | NonZero _ _ _ => Ret false
                   | NotFound => Raise FileNotFoundError
                   end
               ∧ w' = after env true command w
               ∧ spawns o = [(command, (subprocess env (spawned w) true command (fs w)).1)]
               ∧ echoed o = match (subprocess env (spawned w) true command (fs w)).1 with
                            | NonZero _ _ stderr =>
                                if truthy stderr then [("Error: " ++ stderr)%string] else []
                            | _ => []
                            end) w).
  unfold build_installer_simple.run_command, build_installer_simple.print_info,
    build_installer_simple.print_success, build_installer_simple.print_error.
  repeat wp_step;
    repeat match goal with H : (subprocess _ _ _ _ _).1 = _ |- _ => rewrite H end;
    repeat match goal with H : truthy ?s = _ |- _ => rewrite H; clear H end; done.
Qed.

(** In the all-platforms path of the interactive script only a non-zero
    exit of [make:mac] is tolerated: when [make:mac] cannot be started, the
    [FileNotFoundError] is not caught and [make:linux] is never attempted. *)
Theorem missing_mac_toolchain_is_fatal env w :
  let w1 := after env true make_win w in
  let rw := (subprocess env (spawned w) true make_win (fs w)).1 in
  let rm := (subprocess env (spawned w1) false make_mac (fs w1)).1 in
  rw ≠ NotFound → rm = NotFound →
  let x := build_installer_simple.create_all_installers env w in
  result x = Raise FileNotFoundError
  ∧ spawns (output x) = [(make_win, rw); (make_mac, NotFound)].
Proof.
  cbn zeta. intros Hw Hm.
  change (wp (build_installer_simple.create_all_installers env)
            (λ r _ o,
               r = Raise FileNotFoundError
               ∧ spawns o = [(make_win, (subprocess env (spawned w) true make_win (fs w)).1);
                             (make_mac, NotFound)]) w).
  unfold build_installer_simple.create_all_installers,
    build_installer_simple.print_info, build_installer_simple.print_success.
  wp_step. wp_call simple_run_command_spec.
  intros ? ? ? (rr & -> & -> & -> & Hs & _).
  destruct (subprocess env (spawned w) true make_win (fs w)).1 eqn:Hrw; [| |done];
    cbn beta iota delta [run_value completed].
  all: repeat wp_step; try congruence.
  all: spawns_simpl; rewrite Hs; simpl.
  all: unfold after in Hm; simpl in Hm; by rewrite Hm.
Qed.

(** A host on which [npm] cannot be started without a shell. *)
Lemma missing_mac_toolchain_is_fatal_witness :
  result (build_installer_simple.create_all_installers (lacking "Windows" [make_mac])
            (start checkout)) = Raise FileNotFoundError
  ∧ spawns (output (build_installer_simple.create_all_installers
                      (lacking "Windows" [make_mac]) (start checkout)))
    = [(make_win, Completed EmptyString); (make_mac, NotFound)].
Proof.
  apply (missing_mac_toolchain_is_fatal (lacking "Windows" [make_mac]) (start checkout)).
  - vm_compute. congruence.
  - vm_compute. reflexivity.
Defined.

(** * The prerequisite checks *)

Lemma find_npm_effect env (verbose : bool) w :
  wp (build_installer.find_npm env verbose ["npm"; "npm.cmd"])
     (λ r w' o,
        (r, w', spawns o)
        = let probe1 := ["npm"; "--version"] in
          let probe2 := ["npm.cmd"; "--version"] in
          let r1 := (subprocess env (spawned w) true probe1 (fs w)).1 in
          let w1 := after env true probe1 w in
          let r2 := (subprocess env (spawned w1) true probe2 (fs w1)).1 in
          (Ret (completed r1 || completed r2),
           if completed r1 then w1 else after env true probe2 w1,
           (probe1, r1) :: (if completed r1 then [] else [(probe2, r2)]))) w.
Proof.
  cbn zeta.
  unfold build_installer.find_npm, build_installer.error, build_installer.success.
  repeat wp_step.
  all: spawns_simpl; unfold after in *; cbn [fs spawned] in *.
  all: repeat match goal with
         | H : (subprocess _ _ _ _ _).1 = _ |- _ => rewrite ?H; clear H
         end; cbn [completed orb].
  all: reflexivity.
Qed.

Lemma check_prerequisites_effect env (verbose : bool) w :
  wp (build_installer.check_prerequisites env verbose)
     (λ r w' o,
        (r, w', spawns o)
        = let probe1 := ["npm"; "--version"] in
          let probe2 := ["npm.cmd"; "--version"] in
          let r1 := (subprocess env (spawned w) true probe1 (fs w)).1 in
          let w1 := after env true probe1 w in
          let r2 := (subprocess env (spawned w1) true probe2 (fs w1)).1 in
          let w2 := if completed r1 then w1 else after env true probe2 w1 in
          let probes := (probe1, r1) :: (if completed r1 then [] else [(probe2, r2)]) in
          let ri := (subprocess env (spawned w2) true npm_install (fs w2)).1 in
          if negb (completed r1 || completed r2) then (Ret false, w2, probes)
          else if negb (Path.exists_ (fs w2) ["package.json"]) then (Ret false, w2, probes)
          else if negb (Path.exists_ (fs w2) ["node_modules"]) then
            (Ret (completed ri), after env true npm_install w2, probes ++ [(npm_install, ri)])
          else (Ret true, w2, probes)) w.
Proof.
  cbn zeta.
  unfold build_installer.check_prerequisites, build_installer.install_dependencies,
    build_installer.package_json_path, build_installer.info, build_installer.error,
    build_installer.warning, build_installer.success.
  wp_step. wp_step. wp_step. wp_call find_npm_effect.
  intros ? ? o [= -> -> Ho].
  set (found := completed _ || completed _).
  set (w2 := if completed _ then after _ _ _ _ else _) in *.
  destruct found; cbn [negb].
  - wp_step. wp_step.
    destruct (Path.exists_ (fs w2) ["package.json"]); cbn [negb].
    + destruct (Path.exists_ (fs w2) ["node_modules"]); cbn [negb].
      * repeat wp_step. spawns_simpl. by rewrite Ho.
      * wp_step. wp_step. wp_call run_command_spec.
        intros ? ? ? (? & -> & -> & -> & Hi). spawns_simpl. by rewrite Ho, Hi.
    + repeat wp_step. spawns_simpl. by rewrite Ho.
  - repeat wp_step. spawns_simpl. by rewrite Ho.
Qed.

(** The prerequisite check of the flag-driven script never raises. It
    probes [npm --version] and, only when that did not complete,
    [npm.cmd --version]; it fails when neither completed, or when the manifest
    is missing after the probes; when [node_modules] is missing it runs
    [npm install] and returns its result; otherwise it succeeds. *)
Theorem check_prerequisites_contract env (verbose : bool) w :
  let probe1 := ["npm"; "--version"] in
  let probe2 := ["npm.cmd"; "--version"] in
  let r1 := (subprocess env (spawned w) true probe1 (fs w)).1 in
  let w1 := after env true probe1 w in
  let r2 := (subprocess env (spawned w1) true probe2 (fs w1)).1 in
  let w2 := if completed r1 then w1 else after env true probe2 w1 in
  let probes := (probe1, r1) :: (if completed r1 then [] else [(probe2, r2)]) in
  let ri := (subprocess env (spawned w2) true npm_install (fs w2)).1 in
  let x := build_installer.check_prerequisites env verbose w in
  (result x, final x, spawns (output x))
  = if negb (completed r1 || completed r2) then (Ret false, w2, probes)
    else if negb (Path.exists_ (fs w2) ["package.json"]) then (Ret false, w2, probes)
    else if negb (Path.exists_ (fs w2) ["node_modules"]) then
      (Ret (completed ri), after env true npm_install w2, probes ++ [(npm_install, ri)])
    else (Ret true, w2, probes).
Proof.
  cbn zeta. pose proof (check_prerequisites_effect env verbose w) as H.
  unfold wp in H. cbn zeta in H. exact H.
Qed.

(** The prerequisite check of the interactive script probes
    [npm --version] without a shell and fails when that does not complete
    or cannot be started, or when the manifest is missing; when
    [node_modules] is missing it runs [npm install] and returns its result,
    and an [npm install] that cannot be started raises
    [FileNotFoundError]. *)
Theorem simple_check_prerequisites_contract env w :
  let probe := ["npm"; "--version"] in
  let r1 := (subprocess env (spawned w) false probe (fs w)).1 in
  let w1 := after env false probe w in
  let ri := (subprocess env (spawned w1) true npm_install (fs w1)).1 in
  let x := build_installer_simple.check_prerequisites env w in
  (result x, final x, spawns (output x))
  = if negb (completed r1) then (Ret false, w1, [(probe, r1)])
    else if negb (Path.exists_ (fs w1) ["package.json"]) then (Ret false, w1, [(probe, r1)])
    else if negb (Path.exists_ (fs w1) ["node_modules"]) then
      (match ri with
       | NotFound => Raise FileNotFoundError
       | _ => Ret (completed ri)
       end, after env true npm_install w1, [(probe, r1); (npm_install, ri)])
    else (Ret true, w1, [(probe, r1)]).
Proof.
  cbn zeta.
  lazymatch goal with
  | |- _ = ?rhs =>
      change (wp (build_installer_simple.check_prerequisites env)
                (λ r w' o, (r, w', spawns o) = rhs) w)
  end.
  unfold build_installer_simple.check_prerequisites, build_installer_simple.print_info,
    build_installer_simple.print_error, build_installer_simple.print_success.
  repeat first
    [ wp_call simple_run_command_spec; intros ? ? ? ([| |] & ? & -> & -> & ? & _);
      cbn beta iota delta [run_value completed]
    | wp_step ].
  all: spawns_simpl; repeat match goal with H : spawns _ = _ |- _ => rewrite H end.
  all: repeat match goal with
         | H : _ = (subprocess _ _ _ _ _).1 |- _ => symmetry in H
         end.
  all: use_answers; simpl.
  all: repeat match goal with
         | H : negb ?b = _ |- _ =>
             destruct b eqn:?; simpl in H; try discriminate H; clear H
         end.
  all: repeat match goal with H : Path.exists_ _ _ = _ |- _ => rewrite H end.
  all: try done.
Qed.

(** Without a manifest the flag-driven script stops in the constructor: it
    prints the error, exits with status 1, spawns no command at all and
    leaves the filesystem as it was. *)
Theorem missing_manifest_stops_at_once env args w :
  fs w !! ["package.json"] = None →
  let x := build_installer.main env args w in
  result x = Raise (SystemExit 1) ∧ final x = w ∧ spawns (output x) = []
  ∧ Say Error (Text "package.json not found. Make sure you're running this from the FlowGenius root directory.")
    ∈ output x.
Proof.
  intros Hm. cbn zeta.
  change (wp (build_installer.main env args)
            (λ r w' o,
               r = Raise (SystemExit 1) ∧ w' = w ∧ spawns o = []
               ∧ Say Error (Text "package.json not found. Make sure you're running this from the FlowGenius root directory.") ∈ o) w).
  unfold build_installer.main.
  wp_step. wp_call default_platform_spec. intros ? ? o (-> & -> & Ho).
  wp_step. unfold build_installer.init, build_installer.package_json_path,
    build_installer.error.
  wp_step. wp_step. rewrite Hm. cbn beta iota.
  repeat wp_step. spawns_simpl. rewrite Ho. split_and!; [done..|].
  apply elem_of_app. right. by left.
Qed.

(** An empty directory. *)
Lemma missing_manifest_stops_at_once_witness :
  result (build_installer.main (calm "Linux") all_platforms (start ∅)) = Raise (SystemExit 1)
  ∧ final (build_installer.main (calm "Linux") all_platforms (start ∅)) = start ∅
  ∧ spawns (output (build_installer.main (calm "Linux") all_platforms (start ∅))) = []
  ∧ Say Error (Text "package.json not found. Make sure you're running this from the FlowGenius root directory.")
    ∈ output (build_installer.main (calm "Linux") all_platforms (start ∅)).
Proof.
  apply (missing_manifest_stops_at_once (calm "Linux") all_platforms (start ∅)).
  reflexivity.
Defined.

(** * The exit status of the flag-driven script *)

Section flag_status.
Import build_installer.

Lemma init_effect w :
  wp init
     (λ r w' o,
        w' = w
        ∧ if Path.is_file (fs w) ["package.json"] then r = Ret tt
          else exit_status r = 1%Z) w.
Proof.
  unfold init, error, Path.is_file, package_json_path.
  wp_step. wp_step. destruct (fs w !! ["package.json"]) as [[|n]|]; repeat wp_step; done.
Qed.

Lemma check_prerequisites_met env (v : bool) w :
  wp (check_prerequisites env v)
     (λ r w' o,
        r = Ret (prerequisites_met env w)
        ∧ (prerequisites_met env w = true → w' = prepared env w)) w.
Proof.
  wp_call check_prerequisites_effect. intros r w' o.
  unfold prerequisites_met, prepared, npm_found, probed, answer.
  set (r1 := (subprocess env (spawned w) true ["npm"; "--version"] (fs w)).1).
  set (w1 := after env true ["npm"; "--version"] w).
  set (r2 := (subprocess env (spawned w1) true ["npm.cmd"; "--version"] (fs w1)).1).
  set (w2 := if completed r1 then w1 else after env true ["npm.cmd"; "--version"] w1).
  destruct (completed r1 || completed r2); cbn [negb andb];
    [|by intros [= -> -> _]].
  destruct (Path.exists_ (fs w2) ["package.json"]); cbn [negb andb];
    [|by intros [= -> -> _]].
  destruct (Path.exists_ (fs w2) ["node_modules"]); cbn [negb orb];
    by intros [= -> -> _].
Qed.

Lemma build_installers_complete env args w :
  wp (build_installers env args)
     (λ r w' o, ∃ built, r = Ret (built, installers_complete env (requested args) w)) w.
Proof.
  unfold build_installers, requested.
  repeat first
    [ wp_call create_installer_windows_spec; intros ? ? ? (? & -> & -> & -> & _)
    | wp_call create_installer_macos_spec; intros ? ? ? (? & -> & -> & -> & _)
    | wp_call create_installer_linux_spec; intros ? ? ? (? & -> & -> & -> & _)
    | wp_step ].
  all: cbn [app installers_complete installer_command]; unfold answer.
  all: repeat match goal with
              | H : (if completed ?r then _ else _) = _ |- _ =>
                  destruct (completed r); simplify_eq
              end.
  all: cbn [andb]; eauto.
Qed.

Lemma resolved_flags env args :
  install_deps (resolved env args) = install_deps args
  ∧ clean (resolved env args) = clean args.
Proof.
  unfold resolved, default_platform.
  destruct (negb _); [|done].
  by repeat (destruct (String.eqb _ _); [done|]).
Qed.

Lemma main_status env args w :
  wp (main env args)
     (λ r _ _, exit_status r = if overall_success env args w then 0%Z else 1%Z) w.
Proof.
  unfold main, overall_success, install_dependencies.
  destruct (resolved_flags env args) as [Ei Ec].
  wp_step. wp_call default_platform_spec. intros ? ? ? (-> & -> & _).
  rewrite Ei, Ec.
  wp_step. wp_call init_effect. intros r ? ? (-> & Hr).
  destruct (Path.is_file (fs w) ["package.json"]); cbn [andb]; [subst r|by destruct r].
  do 8 wp_step.
  wp_step. wp_call check_prerequisites_met. intros ? w1 ? (-> & Hw1).
  destruct (prerequisites_met env w); cbn [andb negb]; [|by repeat wp_step].
  specialize (Hw1 eq_refl) as ->. cbn zeta.
  wp_step. wp_step; [done|]. wp_step.
  set (w1 := prepared env w).
  assert (wp (when (install_deps args)
                (ok ← run_command env (verbose (resolved env args)) npm_install
                        "Installing dependencies";
                 when (negb ok) (sys_exit 1)))
            (λ r w' _,
               if negb (install_deps args) || completed (answer env npm_install w1)
               then r = Ret tt
                    ∧ w' = (if install_deps args then after env true npm_install w1 else w1)
               else exit_status r = 1%Z) w1) as Hinstall.
  { destruct (install_deps args); cbn [when negb orb]; [|by wp_step].
    wp_step. wp_call run_command_spec. intros ? ? ? (? & -> & -> & -> & _).
    fold (answer env npm_install w1). destruct (completed _); by repeat wp_step. }
  eapply wp_mono; [exact Hinstall|]. cbn beta. clear Hinstall. intros r w2' _.
  destruct (negb (install_deps args) || completed (answer env npm_install w1));
    cbn [andb]; [intros [-> ->]|by destruct r].
  set (w2 := if install_deps args then _ else _).
  wp_step.
  assert (wp (when (clean args) (ok ← clean_build; when (negb ok) (sys_exit 1)))
            (λ r w' _,
               if negb (clean args) || clean_passes w2
               then r = Ret tt ∧ w' = (if clean args then final (clean_build w2) else w2)
               else exit_status r = 1%Z) w2) as Hclean.
  { destruct (clean args); cbn [when negb orb]; [|by wp_step].
    wp_step. unfold clean_passes.
    pose proof (flag_clean_build_spec w2) as Hc. unfold wp in Hc |- *.
    destruct (clean_build w2) as [[rc wc] oc]. cbn [result final output fst snd] in *.
    destruct Hc as (_ & _ & _ & [-> | (e & -> & He)] & _).
    - by repeat wp_step.
    - by apply fs_error_status. }
  eapply wp_mono; [exact Hclean|]. cbn beta. clear Hclean. intros r w3' _.
  destruct (negb (clean args) || clean_passes w2);
    cbn [andb]; [intros [-> ->]|by destruct r].
  set (w3 := if clean args then _ else _).
  wp_step. wp_call build_app_spec. intros ? ? ? (? & -> & -> & -> & _).
  fold (answer env npm_run_build w3).
  destruct (completed (answer env npm_run_build w3)); cbn [andb negb];
    [|by repeat wp_step].
  wp_step. wp_step; [done|]. wp_step.
  wp_call build_installers_complete. intros ? ? ? [built ->].
  wp_step. wp_call show_summary_spec. intros ? ? ? (-> & -> & _).
  wp_step. by destruct (installers_complete _ _ _).
Qed.

(** C3: the exit status of the flag-driven script, read off the
    environment. The status is 0 when the overall run succeeds and 1 in every
    other case. The overall run succeeds ([overall_success]) when the
    manifest is a regular file at the start; the prerequisites are met, that
    is [npm --version] or [npm.cmd --version] completes, [package.json]
    exists, and [node_modules] exists or [npm install] completes;
    [npm install] completes when [--install-deps] is given; cleaning returns
    success when [--clean] is given; [npm run build] completes; and the
    installer command of every requested platform completes. Each command is
    answered by the environment in the world the steps before it left. In
    terms of the commands of the run itself: the status is 0 exactly when its
    build command completed and the installer command of every requested
    platform completed. *)
Theorem exit_code_reflects_success env args w :
  let x := main env args w in
  exit_status (result x) = (if overall_success env args w then 0%Z else 1%Z)
  ∧ (exit_status (result x) = 0%Z
     ↔ build_succeeded (output x)
       ∧ ∀ p, p ∈ requested (resolved env args) → installer_succeeded p (output x)).
Proof.
  cbn zeta. split.
  - apply (main_status env args w).
  - apply (exit_status_and_commands env args w).
Qed.

End flag_status.

(** The flag-driven script where everything completes, on a host without
    [npm], outside a checkout, with a failing [npm install], with a failing
    build, and with a failing [make:mac] among the three installers. *)
Example overall_success_examples :
  (overall_success (calm "Linux") no_flags (start checkout) = true
   ∧ exit_status (result (build_installer.main (calm "Linux") no_flags (start checkout))) = 0%Z)
  ∧ (overall_success no_npm no_flags (start checkout) = false
     ∧ exit_status (result (build_installer.main no_npm no_flags (start checkout))) = 1%Z)
  ∧ (overall_success (calm "Linux") no_flags (start ∅) = false
     ∧ exit_status (result (build_installer.main (calm "Linux") no_flags (start ∅))) = 1%Z)
  ∧ (overall_success (toolchain "Linux" [npm_install]) install_first (start checkout) = false
     ∧ exit_status (result (build_installer.main (toolchain "Linux" [npm_install])
                              install_first (start checkout))) = 1%Z)
  ∧ (overall_success (toolchain "Linux" [npm_run_build]) no_flags (start checkout) = false
     ∧ exit_status (result (build_installer.main (toolchain "Linux" [npm_run_build])
                              no_flags (start checkout))) = 1%Z)
  ∧ (overall_success (toolchain "Linux" [make_mac]) all_platforms (start checkout) = false
     ∧ exit_status (result (build_installer.main (toolchain "Linux" [make_mac])
                              all_platforms (start checkout))) = 1%Z).
Proof. vm_compute. repeat split. Qed.

(** * What the cleaners remove *)

Lemma without_tree_lookup (p q : path) (f : FS) :
  without_tree p f !! q = if decide (p `prefix_of` q) then None else f !! q.
Proof.
  unfold without_tree. destruct (decide (p `prefix_of` q)) as [H|H].
  - apply map_lookup_filter_None. right. intros e _ Hn. by apply Hn.
  - destruct (f !! q) as [e|] eqn:E.
    + by apply map_lookup_filter_Some.
    + apply map_lookup_filter_None. by left.
Qed.

Lemma swept_without_tree (p q : path) (f : FS) (ds : list path) :
  ¬ p `prefix_of` q → swept (without_tree p f) ds q = swept f ds q.
Proof.
  intros Hn. unfold swept. induction ds as [|d ds IH]; [done|]. simpl. rewrite IH. f_equal.
  apply bool_decide_ext. rewrite without_tree_lookup.
  destruct (decide (p `prefix_of` d)) as [Hpd|Hpd]; [|done].
  split; [by intros [[=] _]|]. intros [_ Hdq]. destruct Hn. by etrans.
Qed.

Lemma swept_cons (f : FS) (d : path) (ds : list path) (q : path) :
  swept f (d :: ds) q = bool_decide (f !! d = Some Dir ∧ d `prefix_of` q) || swept f ds q.
Proof. done. Qed.

Lemma clean_loop_effect (ps : list path) : ∀ w,
  (∀ p, p ∈ ps → Path.is_file (fs w) p = true → Py.contains "*" (Path.name p) = false) →
  wp (for_each ps build_installer.clean_entry)
     (λ r w' o,
        r = Ret tt
        ∧ ∀ q, fs w' !! q = if swept (fs w) ps q then None else fs w !! q) w.
Proof.
  induction ps as [|p ps IH]; intros w Hps; simpl.
  - by apply wp_ret.
  - unfold build_installer.clean_entry at 1, Path.exists_, Path.is_dir, build_installer.success.
    apply wp_bind, wp_bind, wp_get_fs. cbn beta iota.
    destruct (fs w !! p) as [[|n]|] eqn:Hp.
    + apply wp_bind, wp_shutil_rmtree. rewrite Hp. apply wp_say.
      wp_call IH.
      { intros p' Hp' Hf. apply Hps; [by right|].
        unfold Path.is_file in *. cbn [fs] in Hf. rewrite without_tree_lookup in Hf.
        by destruct (decide _). }
      intros r w' o [-> Hq]. split; [done|]. intros q. rewrite Hq. cbn [fs].
      rewrite without_tree_lookup.
      destruct (decide (p `prefix_of` q)) as [Hpq|Hpq].
      * rewrite bool_decide_eq_true_2 by done. cbn [orb]. by destruct (swept _ _ _).
      * rewrite bool_decide_eq_false_2 by (by intros [_ ?]). cbn [orb].
        by rewrite swept_without_tree.
    + rewrite (Hps p); [|by left|by unfold Path.is_file; rewrite Hp].
      apply wp_ret. wp_call IH. { intros p' Hp' Hf. apply Hps; [by right|done]. }
      intros r w' o [-> Hq]. split; [done|]. intros q. rewrite Hq.
      by rewrite bool_decide_eq_false_2 by (intros [? _]; congruence).
    + apply wp_ret. wp_call IH. { intros p' Hp' Hf. apply Hps; [by right|done]. }
      intros r w' o [-> Hq]. split; [done|]. intros q. rewrite Hq.
      by rewrite bool_decide_eq_false_2 by (intros [? _]; congruence).
Qed.

(** What the flag-driven cleaner removes. Where no regular file is named
    by one of its two pattern paths, it never raises and returns success, and
    afterwards an entry is gone exactly when it lies in the tree of a listed
    path that was a directory; every other entry is as it was, a regular file
    at an output path included. *)
Theorem flag_clean_build_effect (w : World) :
  (∀ pat, pat ∈ glob_patterns → Path.is_file (fs w) (renderer ++ [pat]) = false) →
  let x := build_installer.clean_build w in
  result x = Ret true
  ∧ ∀ p, fs (final x) !! p
         = if swept (fs w) build_installer.directories_to_clean p then None else fs w !! p.
Proof.
  intros Hpat. cbn zeta.
  change (wp build_installer.clean_build
            (λ r w' _,
               r = Ret true
               ∧ ∀ p, fs w' !! p
                      = if swept (fs w) build_installer.directories_to_clean p
                        then None else fs w !! p) w).
  unfold build_installer.clean_build, build_installer.info.
  wp_step. wp_step. wp_step. wp_call clean_loop_effect.
  { intros p Hp Hf. unfold build_installer.directories_to_clean in Hp.
    repeat (apply elem_of_cons in Hp as [->|Hp]); [done|done|done| | |by apply elem_of_nil in Hp].
    - pose proof (Hpat "*.js" ltac:(by left)) as Hn. simpl in Hn. congruence.
    - pose proof (Hpat "*.js.map" ltac:(by right; left)) as Hn. simpl in Hn. congruence. }
  intros r w' o [-> Hq]. by wp_step.
Qed.

(** A checkout in which [out] is a regular file. *)
Lemma flag_clean_build_effect_witness :
  result (build_installer.clean_build (start blocked)) = Ret true
  ∧ ∀ p, fs (final (build_installer.clean_build (start blocked))) !! p
         = if swept (fs (start blocked)) build_installer.directories_to_clean p
           then None else fs (start blocked) !! p.
Proof.
  apply (flag_clean_build_effect (start blocked)).
  intros pat Hpat. unfold glob_patterns in Hpat.
  repeat (apply elem_of_cons in Hpat as [->|Hpat]); [vm_compute; reflexivity..|].
  by apply elem_of_nil in Hpat.
Defined.

Lemma simple_clean_loop_effect (ds : list string) : ∀ w,
  wp (for_each ds
        (λ dir_name,
           let dir_path : path := [dir_name] in
           f ← get_fs;
           when (Path.exists_ f dir_path)
             (shutil_rmtree dir_path;;
              build_installer_simple.print_success ("Removed " ++ dir_name ++ "/"))))
     (λ r w' o,
        (r = Ret tt ∨ r = Raise NotADirectoryError)
        ∧ (r = Ret tt ↔ ∀ d, d ∈ ds → fs w !! [d] = None ∨ fs w !! [d] = Some Dir)
        ∧ (r = Ret tt →
           ∀ q, fs w' !! q
                = if swept (fs w) ((λ d, [d]) <$> ds) q then None else fs w !! q)) w.
Proof.
  induction ds as [|d ds IH]; intros w; simpl.
  - apply wp_ret. split_and!; [by left| |done].
    split; [|done]. intros _ d Hd. by apply elem_of_nil in Hd.
  - apply wp_bind, wp_bind, wp_get_fs. cbn beta iota.
    unfold Path.exists_, build_installer_simple.print_success.
    destruct (fs w !! [d]) as [[|n]|] eqn:Hd; simpl.
    + apply wp_bind, wp_shutil_rmtree. rewrite Hd. apply wp_say.
      wp_call IH. intros r w' o (Hr & Hiff & Hq). cbn [fs] in *.
      split_and!; [done| |].
      * rewrite Hiff. split.
        -- intros H d' [->|Hd']%elem_of_cons; [by right|].
           specialize (H d' Hd'). rewrite without_tree_lookup in H.
           destruct (decide _) as [Hp|Hp]; [|done].
           apply prefix_cons_inv_1 in Hp as <-. by right.
        -- intros H d' Hd'. rewrite without_tree_lookup.
           destruct (decide _); [by left|]. apply H. by right.
      * intros Hret q. rewrite (Hq Hret), without_tree_lookup.
        destruct (decide ([d] `prefix_of` q)) as [Hpq|Hpq].
        -- rewrite bool_decide_eq_true_2 by done. cbn [orb]. by destruct (swept _ _ _).
        -- rewrite bool_decide_eq_false_2 by (by intros [_ ?]). cbn [orb].
           by rewrite swept_without_tree.
    + apply wp_bind, wp_shutil_rmtree. rewrite Hd.
      split_and!; [by right| |done].
      split; [done|]. intros H. destruct (H d) as [?|?]; [by left|congruence..].
    + apply wp_ret. wp_call IH. intros r w' o (Hr & Hiff & Hq).
      split_and!; [done| |].
      * rewrite Hiff. split.
        -- intros H d' [->|Hd']%elem_of_cons; [by left|by apply H].
        -- intros H d' Hd'. apply H. by right.
      * intros Hret q. by rewrite (Hq Hret).
Qed.

(** What the interactive cleaner removes. It returns success exactly when
    no regular file stands at [out], [dist] or [.webpack], and raises
    [NotADirectoryError] otherwise; when it returns, an entry is gone exactly
    when it lies in the tree of an output path that was a directory, and
    every other entry is as it was. *)
Theorem simple_clean_build_effect (w : World) :
  let x := build_installer_simple.clean_build w in
  (result x = Ret true ∨ result x = Raise NotADirectoryError)
  ∧ (result x = Ret true ↔ no_file_in_the_way (fs w))
  ∧ (result x = Ret true →
     ∀ p, fs (final x) !! p = if swept (fs w) output_paths p then None else fs w !! p).
Proof.
  cbn zeta.
  change (wp build_installer_simple.clean_build
            (λ r w' _,
               (r = Ret true ∨ r = Raise NotADirectoryError)
               ∧ (r = Ret true ↔ no_file_in_the_way (fs w))
               ∧ (r = Ret true →
                  ∀ p, fs w' !! p
                       = if swept (fs w) output_paths p then None else fs w !! p)) w).
  unfold build_installer_simple.clean_build, build_installer_simple.print_info.
  wp_step. wp_step. wp_step. wp_call simple_clean_loop_effect.
  intros r w' o (Hr & Hiff & Hq).
  assert ((∀ d, d ∈ build_installer_simple.dirs_to_clean →
                fs w !! [d] = None ∨ fs w !! [d] = Some Dir)
          ↔ no_file_in_the_way (fs w)) as Hnf.
  { unfold no_file_in_the_way, build_installer_simple.dirs_to_clean, output_paths. split.
    - intros H p Hp.
      repeat (apply elem_of_cons in Hp as [->|Hp]); [apply H; by repeat constructor..|].
      by apply elem_of_nil in Hp.
    - intros H d Hd. apply H.
      repeat (apply elem_of_cons in Hd as [->|Hd]); [by repeat constructor..|].
      by apply elem_of_nil in Hd. }
  destruct r as [[]|e].
  - wp_step. split_and!; [by left| |].
    + rewrite <- Hnf, <- Hiff. done.
    + intros _. by apply Hq.
  - split_and!.
    + destruct Hr as [[=]|[= ->]]. by right.
    + rewrite <- Hnf, <- Hiff. split; intros [=].
    + intros [=].
Qed.

(** In every state, the cleaners spawn no command and add no entry: the
    filesystem they leave is part of the one they found. Neither ever
    returns failure: a cleaner returns success or raises a filesystem
    error. *)
Theorem cleaners_only_remove (w : World) :
  (let x := build_installer.clean_build w in
   (result x = Ret true ∨ ∃ e, result x = Raise e ∧ fs_error e)
   ∧ spawns (output x) = [] ∧ spawned (final x) = spawned w ∧ fs (final x) ⊆ fs w)
  ∧ (let x := build_installer_simple.clean_build w in
     (result x = Ret true ∨ ∃ e, result x = Raise e ∧ fs_error e)
     ∧ spawns (output x) = [] ∧ spawned (final x) = spawned w ∧ fs (final x) ⊆ fs w).
Proof.
  cbn zeta. split.
  - destruct (flag_clean_build_spec w) as (? & ? & ? & ? & _). done.
  - destruct (simple_clean_build_spec w) as (? & ? & ? & ? & _). done.
Qed.

(** A checkout after a build. *)
Lemma simple_clean_build_effect_witness :
  result (build_installer_simple.clean_build (start built)) = Ret true
  ∧ ∀ p, fs (final (build_installer_simple.clean_build (start built))) !! p
         = if swept (fs (start built)) output_paths p then None else fs (start built) !! p.
Proof.
  destruct (simple_clean_build_effect (start built)) as (_ & Hiff & Heff).
  assert (result (build_installer_simple.clean_build (start built)) = Ret true) as Hr
    by (apply Hiff, no_file_in_the_way_built).
  split; [exact Hr|exact (Heff Hr)].
Defined.

(** * Sessions of the interactive script *)

Lemma guarded_quiet ok (pre ss : list (list string * run_result)) :
  Forall (λ s, is_build s = false ∧ is_make s.1 = false) pre →
  guarded ok (pre ++ ss) = guarded ok ss.
Proof.
  induction 1 as [|s pre [Hb Hm] _ IH]; [done|]. simpl. by rewrite Hb, Hm.
Qed.

Lemma make_is_not_build (s : list string * run_result) :
  is_make s.1 = true → is_build s = false.
Proof.
  destruct s as [c r]. unfold is_make, is_build. cbn [fst].
  intros [->|[->| ->]]%bool_decide_eq_true; done.
Qed.

Lemma guarded_makes (ms ss : list (list string * run_result)) :
  Forall (λ s, is_make s.1 = true) ms → guarded true (ms ++ ss) = guarded true ss.
Proof.
  induction 1 as [|s ms Hm _ IH]; [done|]. simpl.
  by rewrite (make_is_not_build s Hm), Hm.
Qed.

Lemma guarded_round ok (ss rest : list (list string * run_result)) :
  round ss → (∀ ok', guarded ok' rest = true) → guarded ok (ss ++ rest) = true.
Proof.
  intros [->|(rb & ms & -> & Hms & Hrb)] Hrest; [apply Hrest|].
  simpl. rewrite ?is_build_build. cbn [snd].
  destruct (completed rb) eqn:Hc.
  - rewrite guarded_makes by done. apply Hrest.
  - rewrite Hrb by done. apply Hrest.
Qed.

Lemma count_builds_makes (ms : list (list string * run_result)) :
  Forall (λ s, is_make s.1 = true) ms → length (List.filter is_build ms) = 0.
Proof.
  induction 1 as [|s ms Hm _ IH]; [done|]. simpl. by rewrite (make_is_not_build s Hm).
Qed.

Lemma create_all_installers_makes env w :
  wp (build_installer_simple.create_all_installers env)
     (λ r w' o, Forall (λ s, is_make s.1 = true) (spawns o)) w.
Proof.
  unfold build_installer_simple.create_all_installers,
    build_installer_simple.print_info, build_installer_simple.print_success.
  repeat first
    [ wp_call simple_run_command_spec; intros ? ? ? ([| |] & ? & -> & -> & ? & ?);
      cbn beta iota delta [run_value completed]
    | wp_step ].
  all: spawns_simpl; repeat match goal with H : spawns _ = _ |- _ => rewrite H end; simpl.
  all: by repeat constructor.
Qed.

Lemma create_all_installers_both env w :
  wp (build_installer_simple.create_all_installers env)
     (λ r w' o,
        Forall (λ s, is_make s.1 = true) (spawns o) ∧ verdicts o = []
        ∧ (r = Raise FileNotFoundError ∨ ∃ b, r = Ret b)
        ∧ (never_missing env → ∃ b, r = Ret b)) w.
Proof.
  pose proof (create_all_installers_makes env w) as H1.
  pose proof (create_all_installers_spec env w) as (_ & H2 & _ & H3 & H4).
  unfold wp in *. done.
Qed.

Lemma selection_round env choice build w :
  build_installer_simple.selection env choice = Some build →
  wp (success ← build; build_installer_simple.show_results success)
     (λ r w' o,
        round (spawns o)
        ∧ (length (verdicts o) ≤ count_builds o)%nat ∧ (count_builds o ≤ 1)%nat
        ∧ (never_missing env → no_file_in_the_way (fs w) →
           count_builds o = 1 ∧ length (verdicts o) = 1)) w.
Proof.
  unfold build_installer_simple.selection.
  repeat (destruct (String.eqb choice _); [intros [= <-]|]); [..|done].
  all: unfold build_installer_simple.and_then, build_installer_simple.build_app,
         build_installer_simple.create_windows_installer, build_installer_simple.print_info.
  all: repeat first
    [ wp_call simple_run_command_spec; intros ? ? ? ([| |] & ? & -> & -> & ? & ?);
      cbn beta iota delta [run_value completed]
    | wp_call create_all_installers_both;
      intros ? ? ? (? & ? & [-> | [? ->]] & ?)
    | wp_call simple_clean_build_full;
      intros ? ? ? (? & ? & ? & [-> | (? & -> & ?)] & ?)
    | wp_call show_results_spec; intros ? ? ? (-> & -> & ? & ?)
    | wp_step ].
  all: unfold count_builds; out_simpl;
    repeat match goal with H : spawns _ = _ |- _ => rewrite H end;
    repeat match goal with H : verdicts _ = _ |- _ => rewrite H end;
    out_simpl.
  all: repeat match goal with
         | H : Forall _ (spawns ?o) |- _ =>
             rewrite (count_builds_makes (spawns o) H)
         end.
  all: split_and!;
    [ first [ by left
            | right; eexists _, _;
              split_and!; [reflexivity|first [assumption|by repeat constructor]|by intros [=]]
            | right; eexists _, [];
              split_and!; [reflexivity|constructor|done] ]
    | simpl; lia
    | simpl; lia
    | intros Hnm Hnf;
      first [ by split
            | exfalso; eapply Hnm; first [eassumption | symmetry; eassumption]
            | by match goal with H : _ → Raise _ = Ret _ |- _ => specialize (H Hnf) end
            | by match goal with H : never_missing _ → ∃ b, Raise _ = Ret b |- _ =>
                destruct (H Hnm) end ] ].
Qed.

Lemma count_builds_app o1 o2 : count_builds (o1 ++ o2) = count_builds o1 + count_builds o2.
Proof. unfold count_builds. by rewrite spawns_app, List.filter_app, length_app. Qed.

Ltac counts_simpl :=
  rewrite ?count_builds_app, ?verdicts_app, ?length_app;
  repeat match goal with
         | |- context [count_builds [Say ?a ?b]] => change (count_builds [Say a b]) with 0
         | |- context [verdicts [Say Plain ?b]] => change (verdicts [Say Plain b]) with (@nil bool)
         | |- context [verdicts [Say Error (Text ?b)]] =>
             change (verdicts [Say Error (Text b)]) with (@nil bool)
         | |- context [count_builds []] => change (count_builds []) with 0
         | |- context [verdicts []] => change (verdicts []) with (@nil bool)
         end;
  cbn [length Nat.add]; rewrite ?Nat.add_0_r.

Lemma menu_loop_rounds env n : ∀ stdin w,
  (length stdin ≤ n)%nat →
  wp (build_installer_simple.menu_loop env stdin)
     (λ r w' o,
        (∀ ok, guarded ok (spawns o) = true)
        ∧ (length (verdicts o) ≤ count_builds o)%nat
        ∧ (count_builds o ≤ rounds stdin)%nat
        ∧ (never_missing env → keeps_output_paths env → no_file_in_the_way (fs w) →
           count_builds o = rounds stdin ∧ length (verdicts o) = rounds stdin)) w.
Proof.
  induction n as [|n IH]; intros stdin w Hn.
  { destruct stdin; [|simpl in Hn; lia]. simpl. unfold build_installer_simple.show_menu.
    repeat wp_step. split_and!; [done|(counts_simpl; lia)|(counts_simpl; lia)|done]. }
  destruct stdin as [|[l|] rest];
    cbn [build_installer_simple.menu_loop rounds length] in *.
  - unfold build_installer_simple.show_menu. repeat wp_step.
    split_and!; [done|(counts_simpl; lia)|(counts_simpl; lia)|done].
  - rewrite selection_builds with (env := env).
    destruct (build_installer_simple.selection env (Py.strip l)) as [build|] eqn:Hsel.
    + unfold build_installer_simple.show_menu.
      repeat lazymatch goal with
             | |- wp (bind build _) _ _ => fail
             | _ => wp_step
             end.
      apply wp_bind_assoc, wp_bind.
      eapply wp_mono;
        [apply wp_conj; [by eapply selection_spec|by eapply selection_round]|];
        cbn beta iota zeta.
      intros r w1 o1 ((Hev & Hr & Hok & _) & Hround & Hvb & Hb1 & Hfull).
      destruct r as [[]|e].
      * destruct rest as [|[answer|] rest']; repeat wp_step.
        all: try (wp_call IH; [simpl in Hn; lia|];
                  intros r w2 o2 (Hg2 & Hvb2 & Hb2 & Hfull2)).
        all: counts_simpl.
        all: try match goal with
                 | H : negb _ = false |- _ => apply negb_false_iff in H; rewrite ?H
                 | H : negb _ = true |- _ => apply negb_true_iff in H; rewrite ?H
                 end.
        all: split_and!;
          [ intros ok; spawns_simpl; rewrite <- (app_nil_r (spawns o1)), <- ?app_assoc;
            apply guarded_round; [done|]; first [done|by rewrite app_nil_l]
          | lia
          | lia
          | intros Hnm Hk Hnf; destruct (Hfull Hnm Hnf) as [E1 E2];
            try (destruct Hfull2 as [E3 E4];
                 [done|done|by eapply evolves_keeps|]); lia ].
      * split_and!.
        -- intros ok. rewrite <- (app_nil_r (spawns _)). spawns_simpl.
           rewrite <- (app_nil_r (spawns o1)). by apply guarded_round.
        -- counts_simpl; lia.
        -- counts_simpl; lia.
        -- intros Hnm _ Hnf. by specialize (Hok Hnm Hnf).
    + unfold build_installer_simple.show_menu, build_installer_simple.show_help,
        build_installer_simple.print_error.
      repeat first
        [ wp_call IH; [simpl in Hn; lia|]; intros r w2 o2 (Hg2 & Hvb2 & Hb2 & Hfull2)
        | wp_step ].
      all: counts_simpl; spawns_simpl.
      all: repeat match goal with
               | H : (_ =? _)%string = false |- _ => rewrite ?H; clear H
               | H : (_ =? _)%string = true |- _ =>
                   apply String.eqb_eq in H; rewrite ?H; simpl
               end.
      all: split_and!; [done|(counts_simpl; lia)|(counts_simpl; lia)|try done].
  - unfold build_installer_simple.show_menu. repeat wp_step.
    split_and!; [done|(counts_simpl; lia)|(counts_simpl; lia)|done].
Qed.

Lemma quiet_of_counts (ss : list (list string * run_result)) :
  forallb (λ s, negb (is_make s.1)) ss = true →
  length (List.filter is_build ss) = 0 →
  Forall (λ s, is_build s = false ∧ is_make s.1 = false) ss.
Proof.
  induction ss as [|s ss IH]; [constructor|]. simpl.
  intros [Hm Hms]%andb_prop Hb. apply negb_true_iff in Hm.
  destruct (is_build s) eqn:E; [discriminate Hb|]. constructor; [done|]. by apply IH.
Qed.

Lemma simple_main_rounds env stdin w :
  wp (build_installer_simple.main env stdin)
     (λ r w' o,
        guarded false (spawns o) = true
        ∧ (length (verdicts o) ≤ count_builds o)%nat
        ∧ (count_builds o ≤ rounds stdin)%nat
        ∧ (result (build_installer_simple.check_prerequisites env w) = Ret true →
           never_missing env → keeps_output_paths env → no_file_in_the_way (fs w) →
           count_builds o = rounds stdin ∧ length (verdicts o) = rounds stdin)) w.
Proof.
  unfold build_installer_simple.main, build_installer_simple.print_header.
  do 9 wp_step.
  pose proof (simple_check_prerequisites_spec env w) as Hc. unfold wp in Hc |- *.
  destruct (build_installer_simple.check_prerequisites env w) as [[r1 w1] o1].
  cbn [result final output fst snd] in *.
  destruct Hc as (Hev & Hni & Hv & Hcb & Hr).
  pose proof (quiet_of_counts (spawns o1) Hni Hcb) as Hq.
  destruct r1 as [[|]|e].
  - cbn [negb]. pose proof (menu_loop_rounds env _ stdin w1 (le_n _)) as Hl.
    unfold wp in Hl. destruct Hl as (Hg & Hvb & Hb & Hfull).
    split_and!.
    + spawns_simpl. rewrite guarded_quiet by done. apply Hg.
    + counts_simpl. rewrite Hv, Hcb. simpl. lia.
    + counts_simpl. rewrite Hcb. simpl. lia.
    + intros _ Hnm Hk Hnf. counts_simpl. rewrite Hv, Hcb. simpl.
      apply Hfull; [done..|]. by eapply evolves_keeps.
  - cbn [negb].
    destruct stdin as [|[l|] rest]; repeat wp_step.
    all: split_and!; [ spawns_simpl; rewrite <- (app_nil_r (spawns o1));
                        by rewrite guarded_quiet
                     | counts_simpl; rewrite Hv, Hcb; simpl; lia
                     | counts_simpl; rewrite Hcb; simpl; lia
                     | done ].
  - split_and!; [ rewrite <- (app_nil_r (spawns _)); spawns_simpl;
                  rewrite <- (app_nil_r (spawns o1)); by rewrite guarded_quiet
                | counts_simpl; rewrite Hv, Hcb; simpl; lia
                | counts_simpl; rewrite Hcb; simpl; lia
                | done ].
Qed.

(** In every run of either script, an installer command is spawned only
    when the most recent build command completed. *)
Theorem installers_follow_a_completed_build env :
  (∀ args w, guarded false (spawns (output (build_installer.main env args w))) = true)
  ∧ (∀ stdin w,
       guarded false (spawns (output (build_installer_simple.main env stdin w))) = true).
Proof.
  split.
  - intros args w.
    destruct (main_outcome env args w) as [(_ & pre & Hpre & Hss)|Hok].
    + assert (Forall (λ s, is_build s = false ∧ is_make s.1 = false) pre) as Hq.
      { eapply Forall_impl; [exact Hpre|]. intros s Hs. by destruct (setup_not_make s Hs). }
      destruct Hss as [-> | (rb & -> & Hrb & _)].
      * rewrite <- (app_nil_r pre). by rewrite guarded_quiet.
      * rewrite guarded_quiet by done. simpl. by rewrite ?is_build_build.
    + destruct Hok as (pre & rb & ms & -> & Hpre & Hrb & _ & Hms & _).
      assert (Forall (λ s, is_build s = false ∧ is_make s.1 = false) pre) as Hq.
      { eapply Forall_impl; [exact Hpre|]. intros s Hs. by destruct (setup_not_make s Hs). }
      rewrite guarded_quiet by done. simpl. rewrite ?is_build_build. cbn [snd]. rewrite Hrb.
      rewrite <- (app_nil_r ms), guarded_makes; [done|].
      apply Forall_forall. intros s Hs.
      eapply requested_is_make. rewrite <- Hms. by apply list_elem_of_fmap_2.
  - intros stdin w. by destruct (simple_main_rounds env stdin w) as (? & _).
Qed.

(** In a session of the interactive script there are at most as many
    reports as builds and at most as many builds as rounds of the input. Once
    the prerequisite check has succeeded, where no command's executable is
    missing and no regular file stands at an output path, every round runs
    the build command once and prints one report. *)
Theorem one_build_per_round env stdin w :
  let o := output (build_installer_simple.main env stdin w) in
  (length (verdicts o) ≤ count_builds o)%nat
  ∧ (count_builds o ≤ rounds stdin)%nat
  ∧ (result (build_installer_simple.check_prerequisites env w) = Ret true →
     never_missing env → keeps_output_paths env → no_file_in_the_way (fs w) →
     count_builds o = rounds stdin ∧ length (verdicts o) = rounds stdin).
Proof. cbn zeta. by destruct (simple_main_rounds env stdin w) as (_ & ? & ? & ?). Qed.

(** Two rounds with a build command that always fails. *)
Lemma one_build_per_round_witness :
  count_builds (output (build_installer_simple.main (toolchain "Linux" [npm_run_build])
                          two_rounds (start checkout))) = rounds two_rounds
  ∧ length (verdicts (output (build_installer_simple.main (toolchain "Linux" [npm_run_build])
                                two_rounds (start checkout)))) = rounds two_rounds.
Proof.
  apply (one_build_per_round (toolchain "Linux" [npm_run_build]) two_rounds (start checkout)).
  - vm_compute. reflexivity.
  - apply toolchain_never_missing.
  - apply toolchain_keeps.
  - apply no_file_in_the_way_checkout.
Defined.

Lemma menu_loop_idle env : ∀ stdin w,
  forallb idle stdin = true →
  wp (build_installer_simple.menu_loop env stdin)
     (λ r w' o, r = session_end stdin ∧ w' = w ∧ spawns o = []) w.
Proof.
  induction stdin as [|[l|] rest IH]; intros w Hi;
    cbn [build_installer_simple.menu_loop session_end].
  - unfold build_installer_simple.show_menu. by repeat wp_step.
  - simpl in Hi. apply andb_prop in Hi as [Hl Hrest]. apply negb_true_iff in Hl.
    rewrite Hl. rewrite selection_builds with (env := env) in Hl.
    destruct (build_installer_simple.selection env (Py.strip l)); [done|].
    unfold build_installer_simple.show_menu, build_installer_simple.show_help,
      build_installer_simple.print_error.
    repeat first
      [ wp_call IH; [done|]; intros r w2 o2 (-> & -> & Ho2)
      | wp_step ].
    all: spawns_simpl; rewrite ?Ho2.
    all: repeat match goal with
                | H : (_ =? _)%string = false |- _ => rewrite ?H; clear H
                | H : (_ =? _)%string = true |- _ =>
                    apply String.eqb_eq in H; rewrite ?H; simpl
                end.
    all: done.
  - unfold build_installer_simple.show_menu. by repeat wp_step.
Qed.

(** Once the prerequisite check has succeeded, input that holds no
    building choice makes the interactive script spawn no command beyond
    those of the check and leave the world as the check left it; the session
    ends as the input says. *)
Theorem idle_session env stdin w :
  result (build_installer_simple.check_prerequisites env w) = Ret true →
  forallb idle stdin = true →
  let x := build_installer_simple.main env stdin w in
  result x = session_end stdin
  ∧ final x = final (build_installer_simple.check_prerequisites env w)
  ∧ spawns (output x) = spawns (output (build_installer_simple.check_prerequisites env w)).
Proof.
  intros Hc Hi. cbn zeta.
  change (wp (build_installer_simple.main env stdin)
            (λ r w' o,
               r = session_end stdin
               ∧ w' = final (build_installer_simple.check_prerequisites env w)
               ∧ spawns o
                 = spawns (output (build_installer_simple.check_prerequisites env w))) w).
  unfold build_installer_simple.main, build_installer_simple.print_header.
  do 9 wp_step. unfold wp at 1.
  destruct (build_installer_simple.check_prerequisites env w) as [[r1 w1] o1].
  cbn [result final output fst snd] in *. subst r1. cbn [negb].
  wp_call menu_loop_idle; [done|]. intros r w' o (-> & -> & Ho).
  spawns_simpl. by rewrite Ho, app_nil_r.
Qed.

(** Help, an invalid choice, exit. *)
Lemma idle_session_witness :
  result (build_installer_simple.main (calm "Linux")
            [build_installer_simple.Line "5"; build_installer_simple.Line "7";
             build_installer_simple.Line "6"] (start checkout))
  = Raise (SystemExit 0)
  ∧ final (build_installer_simple.main (calm "Linux")
             [build_installer_simple.Line "5"; build_installer_simple.Line "7";
              build_installer_simple.Line "6"] (start checkout))
    = final (build_installer_simple.check_prerequisites (calm "Linux") (start checkout))
  ∧ spawns (output (build_installer_simple.main (calm "Linux")
                      [build_installer_simple.Line "5"; build_installer_simple.Line "7";
                       build_installer_simple.Line "6"] (start checkout)))
    = spawns (output (build_installer_simple.check_prerequisites (calm "Linux")
                        (start checkout))).
Proof.
  apply (idle_session (calm "Linux")
           [build_installer_simple.Line "5"; build_installer_simple.Line "7";
            build_installer_simple.Line "6"] (start checkout)).
  - vm_compute. reflexivity.
  - vm_compute. reflexivity.
Defined.

(** ** Every build of a session is followed up *)

Lemma settled_app p o1 o2 :
  settled p (o1 ++ o2)
  = match settled p o1 with Some p' => settled p' o2 | None => None end.
Proof.
  revert p. induction o1 as [|ev o1 IH]; intros p; [done|].
  destruct ev as [lv l|argv sh r]; cbn [app settled].
  - destruct (verdict _); [|done]. destruct p as [pb|]; [|done]. by destruct (implb _ _).
  - destruct (bool_decide _); [by destruct p|].
    destruct (is_make argv); [|done]. by destruct p as [[|]|].
Qed.

Lemma settled_quiet p o :
  verdicts o = [] →
  Forall (λ s, is_build s = false ∧ is_make s.1 = false) (spawns o) →
  settled p o = Some p.
Proof.
  induction o as [|ev o IH]; [done|].
  destruct ev as [lv l|argv sh r]; unfold verdicts, spawns; cbn [omap list_omap settled].
  - destruct (verdict (Say lv l)); [done|]. exact IH.
  - intros Hv [[Hb Hm] Hq]%Forall_cons. unfold is_build in Hb. cbn [fst] in *.
    rewrite Hb, Hm. by apply IH.
Qed.

Lemma settled_silent p o : verdicts o = [] → spawns o = [] → settled p o = Some p.
Proof. intros Hv Hs. apply settled_quiet; [done|]. rewrite Hs. constructor. Qed.

Lemma settled_build p o rb :
  verdicts o = [] → spawns o = [(npm_run_build, rb)] →
  settled p o = match p with None => Some (Some (completed rb)) | Some _ => None end.
Proof.
  induction o as [|ev o IH]; [done|].
  destruct ev as [lv l|argv sh r]; unfold verdicts, spawns; cbn [omap list_omap settled].
  - destruct (verdict (Say lv l)); [done|]. exact IH.
  - intros Hv [= -> -> Hs]. rewrite bool_decide_eq_true_2 by done.
    destruct p; [done|]. by apply settled_silent.
Qed.

Lemma settled_makes o :
  verdicts o = [] → Forall (λ s, is_make s.1 = true) (spawns o) →
  settled (Some true) o = Some (Some true).
Proof.
  induction o as [|ev o IH]; [done|].
  destruct ev as [lv l|argv sh r]; unfold verdicts, spawns; cbn [omap list_omap settled].
  - destruct (verdict (Say lv l)); [done|]. exact IH.
  - intros Hv [Hm Hq]%Forall_cons. cbn [fst] in Hm.
    pose proof (make_is_not_build (argv, r) Hm) as Hb. unfold is_build in Hb. cbn [fst] in Hb.
    rewrite Hb, Hm. by apply IH.
Qed.

Lemma settled_make p o cmd rr :
  verdicts o = [] → spawns o = [(cmd, rr)] → is_make cmd = true →
  settled p o = match p with Some true => Some p | _ => None end.
Proof.
  induction o as [|ev o IH]; [done|].
  destruct ev as [lv l|argv sh r]; unfold verdicts, spawns; cbn [omap list_omap settled].
  - destruct (verdict (Say lv l)); [done|]. exact IH.
  - intros Hv [= -> -> Hs] Hm.
    pose proof (make_is_not_build (cmd, rr) Hm) as Hb. unfold is_build in Hb. cbn [fst] in Hb.
    rewrite Hb, Hm. destruct p as [[|]|]; [|done..]. by apply settled_silent.
Qed.

Lemma settled_verdict p o v :
  spawns o = [] → verdicts o = [v] →
  settled p o
  = match p with Some b => if implb v b then Some None else None | None => None end.
Proof.
  induction o as [|ev o IH]; [done|].
  destruct ev as [lv l|argv sh r]; unfold verdicts, spawns; cbn [omap list_omap settled]; [|done].
  destruct (verdict (Say lv l)) as [v'|] eqn:E.
  - intros Hs [= -> Hv]. destruct lv; try done.
    all: cbn [verdict] in E |- *; try rewrite E.
    all: destruct p as [b|]; [|done]; destruct (implb v b); [|done].
    all: by apply settled_silent.
  - intros Hs Hv. destruct lv; try (by apply IH).
    all: cbn [verdict] in E |- *; try rewrite E; by apply IH.
Qed.

Ltac settled_simpl :=
  repeat first
    [ rewrite settled_app
    | match goal with
      | Hv : verdicts ?o = [], Hs : spawns ?o = [(npm_run_build, _)]
        |- context [settled ?p ?o] => rewrite (settled_build p o _ Hv Hs)
      | Hv : verdicts ?o = [], Hs : spawns ?o = [(?c, _)]
        |- context [settled ?p ?o] => rewrite (settled_make p o c _ Hv Hs eq_refl)
      | Hv : verdicts ?o = [], Hs : Forall _ (spawns ?o)
        |- context [settled (Some true) ?o] => rewrite (settled_makes o Hv Hs)
      | Hv : verdicts ?o = [], Hs : spawns ?o = []
        |- context [settled ?p ?o] => rewrite (settled_silent p o Hv Hs)
      | Hs : spawns ?o = [], Hv : verdicts ?o = [_]
        |- context [settled ?p ?o] => rewrite (settled_verdict p o _ Hs Hv)
      end
    | rewrite Bool.implb_true_r
    | progress cbn [settled verdict implb andb completed] ].

Lemma selection_settled env choice build w :
  build_installer_simple.selection env choice = Some build →
  wp (success ← build; build_installer_simple.show_results success)
     (λ r w' o, heeded r o) w.
Proof.
  unfold build_installer_simple.selection.
  repeat (destruct (String.eqb choice _); [intros [= <-]|]); [..|done].
  all: unfold build_installer_simple.and_then, build_installer_simple.build_app,
         build_installer_simple.create_windows_installer, build_installer_simple.print_info.
  all: repeat first
    [ wp_call simple_run_command_spec; intros ? ? ? ([| |] & ? & -> & -> & ? & ?);
      cbn beta iota delta [run_value completed]
    | wp_call create_all_installers_both;
      intros ? ? ? (? & ? & [-> | [? ->]] & ?)
    | wp_call simple_clean_build_full;
      intros ? ? ? (? & ? & ? & [-> | (? & -> & ?)] & ?)
    | wp_call show_results_spec; intros ? ? ? (-> & -> & ? & ?)
    | wp_step ].
  all: unfold heeded; settled_simpl.
  all: eexists; (split; [reflexivity|]);
    first [by left|right; eexists; split; [reflexivity|]; first [assumption|unfold fs_error; auto]].
Qed.

Lemma settled_prints p (l : list string) :
  settled p (flat_map (λ s, [Say Plain (Text s)]) l) = Some p.
Proof. induction l as [|s l IH]; [done|]. exact IH. Qed.

Ltac heed :=
  unfold heeded;
  repeat first
    [ rewrite settled_app
    | rewrite settled_prints
    | match goal with
      | H : settled ?p ?o = _ |- context [settled ?p ?o] => rewrite H
      | |- context [String.eqb ?a ?b] =>
          let v := eval vm_compute in (String.eqb a b) in
          first [constr_eq v true | constr_eq v false];
          change (String.eqb a b) with v
      end
    | progress cbn [settled verdict] ].

Lemma menu_loop_settled env n : ∀ stdin w,
  (length stdin ≤ n)%nat →
  wp (build_installer_simple.menu_loop env stdin) (λ r w' o, heeded r o) w.
Proof.
  induction n as [|n IH]; intros stdin w Hn.
  { destruct stdin; [|simpl in Hn; lia]. simpl. unfold build_installer_simple.show_menu.
    repeat wp_step. heed. exists None. split; [reflexivity|by left]. }
  destruct stdin as [|[l|] rest];
    cbn [build_installer_simple.menu_loop length] in *.
  - unfold build_installer_simple.show_menu. repeat wp_step.
    heed. exists None. split; [reflexivity|by left].
  - destruct (build_installer_simple.selection env (Py.strip l)) as [build|] eqn:Hsel.
    + unfold build_installer_simple.show_menu.
      repeat lazymatch goal with
             | |- wp (bind build _) _ _ => fail
             | _ => wp_step
             end.
      apply wp_bind_assoc, wp_bind.
      eapply wp_mono; [by eapply selection_settled|]; cbn beta iota zeta.
      intros r w1 o1 (p1 & Hp1 & Hr1).
      destruct r as [[]|e].
      * destruct Hr1 as [-> | (? & [=] & _)].
        destruct rest as [|[answer|] rest']; repeat wp_step.
        all: try (wp_call IH; [simpl in Hn; lia|]; intros r w2 o2 (p2 & Hp2 & Hr2)).
        all: heed.
        all: first [ exists None; split; [reflexivity|by left]
                   | exists p2; split; [reflexivity|done] ].
      * heed. exists p1. split; [reflexivity|done].
    + unfold build_installer_simple.show_menu, build_installer_simple.show_help,
        build_installer_simple.print_error.
      repeat first
        [ wp_call IH; [simpl in Hn; lia|]; intros r w2 o2 (p2 & Hp2 & Hr2)
        | wp_step ].
      all: heed.
      all: first [ exists None; split; [reflexivity|by left]
                 | exists p2; split; [reflexivity|done] ].
  - unfold build_installer_simple.show_menu. repeat wp_step.
    heed. exists None. split; [reflexivity|by left].
Qed.

Lemma simple_main_settled env stdin w :
  wp (build_installer_simple.main env stdin) (λ r w' o, heeded r o) w.
Proof.
  unfold build_installer_simple.main, build_installer_simple.print_header.
  do 9 wp_step.
  pose proof (simple_check_prerequisites_spec env w) as Hc. unfold wp in Hc |- *.
  destruct (build_installer_simple.check_prerequisites env w) as [[r1 w1] o1].
  cbn [result final output fst snd] in *.
  destruct Hc as (Hev & Hni & Hv & Hcb & Hr).
  pose proof (settled_quiet None o1 Hv (quiet_of_counts (spawns o1) Hni Hcb)) as Hq.
  destruct r1 as [[|]|e].
  - cbn [negb]. pose proof (menu_loop_settled env _ stdin w1 (le_n _)) as Hl.
    unfold wp in Hl. destruct Hl as (p & Hp & Hl).
    heed. by exists p.
  - cbn [negb].
    destruct stdin as [|[l|] rest]; repeat wp_step.
    all: heed; exists None; split; [reflexivity|by left].
  - heed. exists None; split; [reflexivity|by left].
Qed.

(** C1: a failed build stops the run, in both scripts. Flag-driven script:
    when a build command ([npm run build]) of the run did not complete, the
    run spawns no installer command ([make:win], [make:mac], [make:linux])
    and its exit status is 1. Interactive script, build by build
    ([settled]): no installer command is spawned unless the build of the same
    round completed; the report that follows a build that did not complete is
    the line [Build failed. Check the errors above.], never the success
    line, and no other build starts before that report; a build is left
    without a report only where an error ended the process, with exit
    status 1. *)
Theorem failed_build_stops_the_run env :
  (∀ args w rb,
     let x := build_installer.main env args w in
     (npm_run_build, rb) ∈ spawns (output x) → completed rb = false →
     no_installer_spawned (output x) = true ∧ exit_status (result x) = 1%Z)
  ∧ (∀ stdin w,
       let x := build_installer_simple.main env stdin w in
       ∃ pending, settled None (output x) = Some pending
                  ∧ (pending ≠ None → exit_status (result x) = 1%Z)).
Proof.
  split.
  - intros args w rb. cbn zeta. unfold no_installer_spawned.
    destruct (main_outcome env args w) as [(Hx & pre & Hpre & Hss)|Hok].
    + intros _ _. split; [|done]. destruct (setup_quiet pre Hpre) as [Hq _].
      destruct Hss as [-> | (rb' & -> & _)]; [done|].
      rewrite forallb_app, Hq. done.
    + destruct Hok as (pre & rb' & ms & -> & Hpre & Hrb & _ & Hms & _).
      intros Hin Hf. exfalso. destruct (setup_quiet pre Hpre) as [_ Hq].
      apply elem_of_app in Hin as [Hin|Hin].
      { by destruct (Hq _ Hin) as [? _]. }
      apply elem_of_cons in Hin as [[= ->]|Hin]; [congruence|].
      assert (is_make npm_run_build = true) as Hm; [|done].
      eapply requested_is_make. rewrite <- Hms.
      by apply (list_elem_of_fmap_2 fst) in Hin.
  - intros stdin w. cbn zeta.
    destruct (simple_main_settled env stdin w) as (p & Hp & Hr).
    exists p. split; [done|]. intros Hne.
    destruct Hr as [->|(e & -> & He)]; [done|]. by apply fs_error_status.
Qed.

(** C1 at two toolchains. The flag-driven script with [--all --clean] where
    the build command exits with status 1. And an interactive session of two
    rounds where the build command completes in the first round and fails in
    the second: the reports are a success and a failure, and the installer
    command runs in the first round only. *)
Lemma failed_build_stops_the_run_witness :
  (no_installer_spawned
     (output (build_installer.main (toolchain "Linux" [npm_run_build]) all_platforms
                (start checkout))) = true
   ∧ exit_status
       (result (build_installer.main (toolchain "Linux" [npm_run_build]) all_platforms
                  (start checkout))) = 1%Z)
  ∧ (List.filter (λ s, is_build s || is_make s.1)
       (spawns (output (build_installer_simple.main once again (start checkout))))
     = [(npm_run_build, Completed EmptyString); (make_win, Completed EmptyString);
        (npm_run_build, NonZero 1 EmptyString "npm ERR!")]
     ∧ verdicts (output (build_installer_simple.main once again (start checkout)))
       = [true; false])
  ∧ ∃ pending,
      settled None (output (build_installer_simple.main once again (start checkout)))
      = Some pending
      ∧ (pending ≠ None
         → exit_status (result (build_installer_simple.main once again (start checkout)))
           = 1%Z).
Proof.
  split; [|split].
  - apply (proj1 (failed_build_stops_the_run (toolchain "Linux" [npm_run_build]))
             all_platforms (start checkout) (NonZero 1 EmptyString "npm ERR!")).
    + vm_compute. set_solver.
    + reflexivity.
  - vm_compute. split; reflexivity.
  - apply (proj2 (failed_build_stops_the_run once)).
Defined.

(** * The installer step and the summary of the flag-driven script *)

(** The installer step of the flag-driven script returns, as
    [platforms_built], the names of the requested platforms whose installer
    command completed, in the order Windows, macOS, Linux, and as the overall
    success whether all of them completed. *)
Theorem platforms_built_are_the_successes env args w :
  let x := build_installer.build_installers env args w in
  let ss := spawns (output x) in
  result x
  = Ret (built_name <$> List.filter (succeeded ss) (build_installer.requested args),
         forallb (succeeded ss) (build_installer.requested args)).
Proof.
  cbn zeta.
  change (wp (build_installer.build_installers env args)
            (λ r _ o,
               r = Ret (built_name <$> List.filter (succeeded (spawns o))
                                         (build_installer.requested args),
                        forallb (succeeded (spawns o)) (build_installer.requested args))) w).
  unfold build_installer.build_installers, build_installer.requested.
  repeat first
    [ wp_call create_installer_windows_spec; intros ? ? ? (? & ? & -> & -> & ?)
    | wp_call create_installer_macos_spec; intros ? ? ? (? & ? & -> & -> & ?)
    | wp_call create_installer_linux_spec; intros ? ? ? (? & ? & -> & -> & ?)
    | lazymatch goal with
      | |- wp (match (if ?c then _ else _) with _ => _ end) _ _ => destruct c eqn:?
      end
    | wp_step ].
  all: spawns_simpl;
    repeat match goal with H : spawns _ = _ |- _ => rewrite H end; simpl;
    repeat match goal with H : completed _ = _ |- _ => rewrite H end; simpl;
    reflexivity.
Qed.

Lemma warnings_app o1 o2 : warnings (o1 ++ o2) = warnings o1 ++ warnings o2.
Proof. apply omap_app. Qed.

Lemma omap_flat_map_quiet {A B C} (f : B → option C) (g : A → list B) (l : list A) :
  (∀ x, omap f (g x) = []) → omap f (flat_map g l) = [].
Proof.
  intros H. induction l as [|x l IH]; [done|]. simpl. by rewrite omap_app, H, IH.
Qed.

Lemma run_command_prints env v cmd d w :
  wp (build_installer.run_command env v cmd d)
     (λ _ _ o, artifact_lines o = [] ∧ warnings o = []) w.
Proof.
  unfold build_installer.run_command, build_installer.info, build_installer.log,
    build_installer.error, build_installer.success.
  repeat wp_step; rewrite ?artifact_lines_app, ?warnings_app; simpl;
    unfold artifact_lines, warnings; rewrite ?omap_flat_map_quiet by done; done.
Qed.

Lemma show_build_artifacts_warnings platform_name w :
  warnings (output (build_installer.show_build_artifacts platform_name w)) = [].
Proof.
  unfold build_installer.show_build_artifacts, bind, get_fs, output.
  cbn beta iota. destruct (Path.exists_ _ _); [|done].
  destruct (List.filter _ _) as [|i l]; [done|].
  unfold build_installer.success, build_installer.info, say.
  rewrite (for_each_prints
             (λ installer : path * entry,
                [Say Info (ArtifactLine (Path.name installer.1) (st_size_of (fs w) installer.1));
                 Say Info (Text ("     Path: " ++ Path.str installer.1))])) by done.
  cbn [snd app]. unfold warnings. simpl. by rewrite omap_flat_map_quiet.
Qed.

(** The installer step of one platform in the flag-driven script never
    raises: it spawns the platform's command once and returns whether it
    completed. It lists artifacts only after a completed command, and then
    those of the filesystem the command left. The warning about building for
    macOS elsewhere is printed exactly for macOS on a host other than
    Darwin. *)
Theorem installer_step_contract env (verbose : bool) (p : build_installer.platform) w :
  let cmd := build_installer.installer_command p in
  let rr := (subprocess env (spawned w) true cmd (fs w)).1 in
  let w1 := after env true cmd w in
  let x := create_installer env verbose p w in
  result x = Ret (completed rr) ∧ final x = w1 ∧ spawns (output x) = [(cmd, rr)]
  ∧ artifact_lines (output x)
    = (if completed rr
       then artifact_lines (output (build_installer.show_build_artifacts (platform_tag p) w1))
       else [])
  ∧ warnings (output x)
    = (if bool_decide (p = build_installer.MacOS ∧ platform_system env ≠ "Darwin")
       then ["macOS builds should be created on macOS for best results"]
       else []).
Proof.
  cbn zeta.
  lazymatch goal with
  | |- _ ∧ _ ∧ _ ∧ _ = ?al ∧ _ = ?wl =>
      change (wp (create_installer env verbose p)
                (λ r w' o,
                   r = Ret (completed
                              (subprocess env (spawned w) true
                                 (build_installer.installer_command p) (fs w)).1)
                   ∧ w' = after env true (build_installer.installer_command p) w
                   ∧ spawns o
                     = [(build_installer.installer_command p,
                         (subprocess env (spawned w) true
                            (build_installer.installer_command p) (fs w)).1)]
                   ∧ artifact_lines o = al ∧ warnings o = wl) w)
  end.
  destruct p; unfold create_installer, build_installer.installer_command, platform_tag,
    build_installer.create_installer_windows, build_installer.create_installer_macos,
    build_installer.create_installer_linux, build_installer.info, build_installer.success,
    build_installer.warning.
  all: repeat first
    [ eapply wp_mono;
      [apply wp_conj; [apply run_command_spec|apply run_command_prints]|];
      cbn beta iota zeta; intros ? ? ? ((rr & -> & -> & -> & ?) & ? & ?)
    | wp_step ].
  all: pose proof (show_build_artifacts_spec) as Hsp.
  all: unfold wp in *.
  all: repeat match goal with
         | |- context [build_installer.show_build_artifacts ?t ?w0] =>
             lazymatch goal with
             | H : result (build_installer.show_build_artifacts t w0) = _ |- _ => fail
             | _ =>
                 destruct (Hsp t w0) as (? & ? & ?);
                 pose proof (show_build_artifacts_warnings t w0)
             end
         end.
  all: spawns_simpl; rewrite ?artifact_lines_app, ?warnings_app; simpl.
  all: repeat match goal with H : _ = _ |- _ => rewrite H end; simpl.
  all: try done.
  all: match goal with
       | H : negb (_ =? _)%string = true |- _ =>
           apply negb_true_iff, String.eqb_neq in H;
           rewrite bool_decide_eq_true_2 by done
       | H : negb (_ =? _)%string = false |- _ =>
           apply negb_false_iff, String.eqb_eq in H;
           rewrite bool_decide_eq_false_2 by (by intros [_ ?])
       end; done.
Qed.

Lemma summaries_app o1 o2 : summaries (o1 ++ o2) = summaries o1 ++ summaries o2.
Proof. apply omap_app. Qed.

Lemma summaries_flat_map_quiet {A} (g : A → list event) (l : list A) :
  (∀ x, summaries (g x) = []) → summaries (flat_map g l) = [].
Proof.
  intros H. induction l as [|x l IH]; [done|]. simpl. by rewrite summaries_app, H, IH.
Qed.

Ltac summaries_simpl :=
  rewrite ?summaries_app; simpl; rewrite ?summaries_flat_map_quiet by done;
  repeat match goal with H : summaries _ = _ |- _ => rewrite H end; simpl.

Lemma run_command_summaries env v cmd d w :
  wp (build_installer.run_command env v cmd d) (λ _ _ o, summaries o = []) w.
Proof.
  unfold build_installer.run_command, build_installer.info, build_installer.log,
    build_installer.error, build_installer.success.
  repeat wp_step; summaries_simpl; done.
Qed.

Lemma check_prerequisites_summaries env v w :
  wp (build_installer.check_prerequisites env v) (λ _ _ o, summaries o = []) w.
Proof.
  unfold build_installer.check_prerequisites, build_installer.find_npm,
    build_installer.install_dependencies, build_installer.info, build_installer.error,
    build_installer.warning, build_installer.success.
  repeat first
    [ wp_call run_command_summaries; intros [?|?] ? ? ?
    | wp_step ].
  all: summaries_simpl; done.
Qed.

Lemma remove_loop_summaries (files : list path) : ∀ w,
  wp (for_each files
        (λ file, os_remove file;;
                 build_installer.success ("Removed file: " ++ Path.str file)))
     (λ _ _ o, summaries o = []) w.
Proof.
  induction files as [|file files IH]; intros w; simpl; [done|].
  unfold build_installer.success.
  wp_step. wp_step. apply wp_os_remove.
  destruct (fs w !! file) as [[|n]|]; [done| |done].
  wp_step. wp_call IH. intros ? ? ? Ho. by summaries_simpl.
Qed.

Lemma clean_loop_summaries (ps : list path) : ∀ w,
  wp (for_each ps build_installer.clean_entry) (λ _ _ o, summaries o = []) w.
Proof.
  induction ps as [|p ps IH]; intros w; simpl; [done|].
  unfold build_installer.clean_entry at 1, build_installer.success.
  wp_step. wp_step. wp_step. wp_step.
  - wp_step.
    + wp_step. apply wp_shutil_rmtree.
      destruct (fs w !! p) as [[|n]|]; [|done..].
      wp_step. wp_call IH. intros ? ? ? Ho. by summaries_simpl.
    + wp_step.
      * wp_call remove_loop_summaries. intros [[]|e] ? ? Ho; [|done].
        wp_call IH. intros ? ? ? Ho'. by summaries_simpl.
      * wp_step. wp_call IH. intros ? ? ? Ho. by summaries_simpl.
  - wp_step. wp_call IH. intros ? ? ? Ho. by summaries_simpl.
Qed.

Lemma clean_build_summaries w :
  wp build_installer.clean_build (λ _ _ o, summaries o = []) w.
Proof.
  unfold build_installer.clean_build, build_installer.info.
  wp_step. wp_step. wp_step. wp_call clean_loop_summaries.
  intros [[]|e] ? ? Ho; [wp_step|]; by summaries_simpl.
Qed.

Lemma show_build_artifacts_summaries platform_name w :
  wp (build_installer.show_build_artifacts platform_name) (λ _ _ o, summaries o = []) w.
Proof.
  unfold build_installer.show_build_artifacts, build_installer.success, build_installer.info.
  wp_step. wp_step. wp_step; [|by wp_step].
  wp_step; [by wp_step|].
  wp_step. wp_step.
  apply (wp_for_each_prints
           (λ installer : path * entry,
              [Say Info (ArtifactLine (Path.name installer.1) (st_size_of (fs w) installer.1));
               Say Info (Text ("     Path: " ++ Path.str installer.1))])); [done|].
  by summaries_simpl.
Qed.

(** A step that says nothing of the whole run. *)
Lemma wp_bind_summaries {A B} (m : M A) (f : A → M B) (P : res B → list bool → Prop) w :
  wp m (λ r w' o,
          summaries o = []
          ∧ match r with
            | Ret a => wp (f a) (λ r' _ o', P r' (summaries o')) w'
            | Raise e => P (Raise e) []
            end) w →
  wp (bind m f) (λ r _ o, P r (summaries o)) w.
Proof.
  intros H. apply wp_bind. eapply wp_mono; [exact H|]. cbn beta.
  intros [a|e] w' o [Ho Hr].
  - eapply wp_mono; [exact Hr|]. cbn beta. intros r' _ o' HP.
    by rewrite summaries_app, Ho.
  - by rewrite Ho.
Qed.

Lemma wp_quiet_then {A B} (m : M A) (f : A → M B) w :
  wp m (λ _ _ o, summaries o = []) w →
  (∀ a w', wp (f a) (λ _ _ o, summaries o = []) w') →
  wp (bind m f) (λ _ _ o, summaries o = []) w.
Proof.
  intros Hm Hf. apply (wp_bind_summaries _ _ (λ _ s, s = [])).
  eapply wp_mono; [exact Hm|]. cbn beta. intros [a|e] w' o Ho; (split; [done|]); [|done].
  apply Hf.
Qed.

Ltac quiet :=
  repeat lazymatch goal with
         | |- wp (build_installer.run_command _ _ _ _) _ _ => apply run_command_summaries
         | |- wp (build_installer.show_build_artifacts _) _ _ =>
             apply show_build_artifacts_summaries
         | |- wp (bind _ _) _ _ => apply wp_quiet_then; [|intros ? ?]
         | |- wp (say _ _) _ _ => by apply wp_say
         | |- wp (ret _) _ _ => by apply wp_ret
         | |- wp (when ?c _) _ _ => destruct c; cbn [when]
         end.

Lemma create_installer_windows_summaries env v w :
  wp (build_installer.create_installer_windows env v) (λ _ _ o, summaries o = []) w.
Proof.
  unfold build_installer.create_installer_windows, build_installer.info,
    build_installer.success. quiet.
Qed.

Lemma create_installer_macos_summaries env v w :
  wp (build_installer.create_installer_macos env v) (λ _ _ o, summaries o = []) w.
Proof.
  unfold build_installer.create_installer_macos, build_installer.info,
    build_installer.success, build_installer.warning. quiet.
Qed.

Lemma create_installer_linux_summaries env v w :
  wp (build_installer.create_installer_linux env v) (λ _ _ o, summaries o = []) w.
Proof.
  unfold build_installer.create_installer_linux, build_installer.info,
    build_installer.success. quiet.
Qed.

Lemma build_installers_summaries env args w :
  wp (build_installer.build_installers env args) (λ _ _ o, summaries o = []) w.
Proof.
  unfold build_installer.build_installers.
  repeat lazymatch goal with
         | |- wp (build_installer.create_installer_windows _ _) _ _ =>
             apply create_installer_windows_summaries
         | |- wp (build_installer.create_installer_macos _ _) _ _ =>
             apply create_installer_macos_summaries
         | |- wp (build_installer.create_installer_linux _ _) _ _ =>
             apply create_installer_linux_summaries
         | |- wp (bind _ _) _ _ => apply wp_quiet_then; [|intros ? ?]
         | |- wp (ret _) _ _ => by apply wp_ret
         | |- wp (if ?c then _ else _) _ _ => destruct c
         | |- wp (let '(_, _) := ?x in _) _ _ => destruct x
         end.
Qed.

Lemma default_platform_summaries env args w :
  wp (build_installer.default_platform env args) (λ _ _ o, summaries o = []) w.
Proof.
  unfold build_installer.default_platform.
  destruct (negb _); [|by wp_step].
  repeat (destruct (String.eqb _ _); [by wp_step|]).
  by repeat wp_step.
Qed.

Lemma init_summaries w : wp build_installer.init (λ _ _ o, summaries o = []) w.
Proof. unfold build_installer.init, build_installer.error. repeat wp_step; done. Qed.

Lemma show_summary_summaries platforms_built ok w :
  wp (build_installer.show_summary platforms_built ok)
     (λ r _ o, r = Ret tt ∧ summaries o = [ok]) w.
Proof.
  unfold build_installer.show_summary, build_installer.success, build_installer.error.
  repeat wp_step; done.
Qed.

Lemma build_app_summaries env v w :
  wp (build_installer.build_app env v) (λ _ _ o, summaries o = []) w.
Proof.
  unfold build_installer.build_app, build_installer.info, build_installer.success.
  wp_step. wp_step. wp_step. wp_call run_command_summaries. intros [?|?] ? ? ?.
  - repeat wp_step; by summaries_simpl.
  - by summaries_simpl.
Qed.

Ltac with_summaries Hspec Hsum :=
  eapply wp_mono; [apply wp_conj; [apply Hspec|apply Hsum]|]; cbn beta iota zeta.

Ltac quiet_step := apply (wp_bind_summaries _ _ agrees).
Ltac quiet_say := quiet_step; apply wp_say; (split; [reflexivity|]).

Lemma main_summaries env args w :
  wp (build_installer.main env args) (λ r _ o, agrees r (summaries o)) w.
Proof.
  unfold build_installer.main, build_installer.install_dependencies, build_installer.error.
  quiet_step. with_summaries default_platform_spec default_platform_summaries.
  intros ? ? ? ((-> & -> & _) & H0). split; [done|]. clear H0.
  quiet_step. with_summaries init_spec init_summaries.
  intros ? ? ? ((_ & -> & [-> | [-> | ->]]) & H1); (split; [done|]);
    [|unfold agrees; auto..]. clear H1.
  do 4 quiet_say.
  quiet_step. with_summaries check_prerequisites_spec check_prerequisites_summaries.
  intros ? w2 ? (([[] ->] & _) & H2); (split; [done|]); clear H2.
  2: { quiet_step. apply wp_raise. unfold agrees. auto. }
  quiet_step. apply wp_ret. split; [done|].
  quiet_step.
  eapply wp_mono
    with (Q := λ (r : res unit) (_ : World) o,
                 summaries o = [] ∧ (r = Ret tt ∨ r = Raise (SystemExit 1))).
  { apply wp_when; intros _; [|by split; [|left]].
    apply wp_bind. with_summaries run_command_spec run_command_summaries.
    intros ? ? ? ((? & ? & -> & -> & ?) & H3).
    destruct (completed _); cbn [negb when].
    - apply wp_ret. rewrite app_nil_r. split; [done|by left].
    - apply wp_raise. rewrite app_nil_r. split; [done|by right]. }
  cbn beta. intros ? w3 ? [H3 [-> | ->]]; (split; [done|]); [|unfold agrees; auto]. clear H3.
  quiet_step.
  eapply wp_mono
    with (Q := λ (r : res unit) (_ : World) o,
                 summaries o = []
                 ∧ (r = Ret tt ∨ ∃ e, r = Raise e ∧ exit_status (@Raise unit e) = 1%Z)).
  { apply wp_when; intros _; [|by split; [|left]].
    apply wp_bind. with_summaries flag_clean_build_spec clean_build_summaries.
    intros ? ? ? ((_ & _ & _ & [-> | (e & -> & He%(fs_error_status (A:=unit)))] & _) & H4).
    - cbn [negb when]. apply wp_ret. rewrite app_nil_r. split; [done|by left].
    - split; [done|]. right. by exists e. }
  cbn beta. intros ? w4 ? [H4 [-> | (e & -> & He)]]; (split; [done|]);
    [|unfold agrees; auto]. clear H4.
  quiet_step. with_summaries build_app_spec build_app_summaries.
  intros ? w5 ? ((rb & _ & -> & -> & _) & H5). split; [done|]. clear H5.
  quiet_step. apply wp_when; intros Hb.
  { repeat wp_step. split; [done|]. unfold agrees. auto. }
  split; [done|].
  quiet_step. with_summaries build_installers_spec build_installers_summaries.
  intros ? w6 ? ((built & -> & _) & H6). split; [done|]. clear H6.
  cbn beta iota.
  apply wp_bind. wp_call show_summary_summaries. intros ? ? ? [-> Hs].
  apply wp_raise. rewrite app_nil_r, Hs. unfold agrees.
  destruct (forallb _ _); auto.
Qed.

(** The closing line of the flag-driven script agrees with its exit status:
    a run that prints [All builds completed successfully!] exits with 0, a
    run that prints [Some builds failed. Check the logs above for details.]
    exits with 1, and a run that prints neither exits with 1. No run prints
    both or one of them twice. *)
Theorem summary_agrees_with_exit_code env args w :
  let x := build_installer.main env args w in
  (summaries (output x) = [true] ∧ exit_status (result x) = 0%Z)
  ∨ (summaries (output x) = [false] ∧ exit_status (result x) = 1%Z)
  ∨ (summaries (output x) = [] ∧ exit_status (result x) = 1%Z).
Proof.
  intros x. pose proof (main_summaries env args w) as H.
  unfold wp, agrees in H. fold x in H.
  destruct H as [[H1 H2]|[[H1 H2]|[H1 H2]]]; [left|right; left|right; right].
  - split; [exact H1|]. by rewrite H2.
  - split; [exact H1|]. by rewrite H2.
  - split; [exact H1|exact H2].
Qed.

(** * Verbose mode *)

Lemma same_refl {A} (m : M A) : same m m.
Proof. done. Qed.

Lemma same_bind {A B} (m1 m2 : M A) (f1 f2 : A → M B) :
  same m1 m2 → (∀ a, same (f1 a) (f2 a)) → same (bind m1 f1) (bind m2 f2).
Proof.
  intros Hm Hf w. specialize (Hm w). unfold effect, bind, result, final, output in *.
  destruct (m1 w) as [[r1 w1] o1], (m2 w) as [[r2 w2] o2]. simpl in Hm.
  injection Hm as -> -> Ho. destruct r2 as [a|e]; simpl; [|by rewrite Ho].
  specialize (Hf a w2). unfold effect, result, final, output in Hf.
  destruct (f1 a w2) as [[r1' w1'] o1'], (f2 a w2) as [[r2' w2'] o2']. simpl in *.
  injection Hf as -> -> Ho'. by rewrite !spawns_app, Ho, Ho'.
Qed.

Lemma same_ran env (cmd : list string) (m1 m2 : M bool) :
  (∀ w, wp m1 (ran env cmd w) w) → (∀ w, wp m2 (ran env cmd w) w) → same m1 m2.
Proof.
  intros H1 H2 w. destruct (H1 w) as (rr1 & -> & E1 & F1 & S1).
  destruct (H2 w) as (rr2 & -> & E2 & F2 & S2).
  unfold effect. by rewrite E1, E2, F1, F2, S1, S2.
Qed.

Lemma same_run_command env v1 v2 cmd d :
  same (build_installer.run_command env v1 cmd d) (build_installer.run_command env v2 cmd d).
Proof. apply (same_ran env cmd); intros w; apply run_command_spec. Qed.

Lemma same_check_prerequisites env v1 v2 :
  same (build_installer.check_prerequisites env v1)
       (build_installer.check_prerequisites env v2).
Proof.
  intros w. pose proof (check_prerequisites_effect env v1 w) as H1.
  pose proof (check_prerequisites_effect env v2 w) as H2.
  unfold wp in H1, H2. unfold effect. by rewrite H1, H2.
Qed.

Lemma same_build_app env v1 v2 :
  same (build_installer.build_app env v1) (build_installer.build_app env v2).
Proof. apply (same_ran env npm_run_build); intros w; apply build_app_spec. Qed.

Lemma same_when (c : bool) (m1 m2 : M unit) :
  same m1 m2 → same (when c m1) (when c m2).
Proof. by destruct c. Qed.

Ltac same_step env :=
  lazymatch goal with
  | |- same (build_installer.create_installer_windows _ _) _ =>
      apply (same_ran env make_win); intros ?; apply create_installer_windows_spec
  | |- same (build_installer.create_installer_macos _ _) _ =>
      apply (same_ran env make_mac); intros ?; apply create_installer_macos_spec
  | |- same (build_installer.create_installer_linux _ _) _ =>
      apply (same_ran env make_linux); intros ?; apply create_installer_linux_spec
  | |- same (build_installer.check_prerequisites _ _) _ => apply same_check_prerequisites
  | |- same (build_installer.run_command _ _ _ _) _ => apply same_run_command
  | |- same (build_installer.build_app _ _) _ => apply same_build_app
  | |- same (build_installer.build_installers _ _) _ => fail
  | |- same (bind _ _) (bind _ _) => apply same_bind; [|intros ?]
  | |- same (when ?c _) (when ?c _) => apply same_when
  | |- same (if ?c then _ else _) (if ?c then _ else _) => destruct c
  | |- same (let '(_, _) := ?x in _) _ => destruct x
  | |- same ?m1 ?m2 => constr_eq m1 m2; apply same_refl
  end.

Lemma same_build_installers env b args :
  same (build_installer.build_installers env (with_verbose b args))
       (build_installer.build_installers env args).
Proof.
  unfold build_installer.build_installers. cbn [with_verbose build_installer.all
    build_installer.windows build_installer.macos build_installer.linux
    build_installer.verbose].
  repeat same_step env.
Qed.

Lemma same_main_rest env b args :
  let rest (args : build_installer.Args) : M unit :=
    (let v := build_installer.verbose args in
     build_installer.init;;
     print "";;
     print "FlowGenius Installer Builder";;
     print "========================================";;
     print "";;
     ok ← build_installer.check_prerequisites env v;
     when (negb ok) (sys_exit 1);;
     when (build_installer.install_deps args)
       (ok ← build_installer.install_dependencies env v; when (negb ok) (sys_exit 1));;
     when (build_installer.clean args)
       (ok ← build_installer.clean_build; when (negb ok) (sys_exit 1));;
     ok ← build_installer.build_app env v;
     when (negb ok) (build_installer.error "Application build failed";; sys_exit 1);;
     '(platforms_built, overall_success) ← build_installer.build_installers env args;
     build_installer.show_summary platforms_built overall_success;;
     sys_exit (if overall_success then 0 else 1))%Z in
  same (rest (with_verbose b args)) (rest args).
Proof.
  cbn zeta. cbn [with_verbose build_installer.install_deps build_installer.clean
    build_installer.verbose].
  unfold build_installer.install_dependencies.
  repeat lazymatch goal with
         | |- same (build_installer.build_installers _ _) _ => apply same_build_installers
         | _ => same_step env
         end.
Qed.

Lemma same_bind_ret {A B} (a1 a2 : A) (f g : A → M B) :
  same (f a1) (g a2) → same (bind (ret a1) f) (bind (ret a2) g).
Proof.
  intros H w. specialize (H w). unfold effect, bind, ret, result, final, output in *.
  destruct (f a1 w) as [[? ?] ?], (g a2 w) as [[? ?] ?]. simpl in *. done.
Qed.

Lemma same_bind_assoc {A B C} (m m' : M A) (f f' : A → M B) (g g' : B → M C) :
  same (bind m (λ a, bind (f a) g)) (bind m' (λ a, bind (f' a) g')) →
  same (bind (bind m f) g) (bind (bind m' f') g').
Proof. intros H w. rewrite !bind_assoc. apply H. Qed.

Lemma same_main env b args :
  same (build_installer.main env (with_verbose b args)) (build_installer.main env args).
Proof.
  pose proof (same_main_rest env b) as Hrest. cbn zeta in Hrest.
  unfold build_installer.main, build_installer.default_platform.
  cbn [with_verbose build_installer.all build_installer.windows build_installer.macos
    build_installer.linux build_installer.clean build_installer.install_deps
    build_installer.verbose].
  assert (∀ (a1 a2 : build_installer.Args) (f g : build_installer.Args → M unit),
            a1 = with_verbose b a2 → same (f (with_verbose b a2)) (g a2) →
            same (bind (ret a1) f) (bind (ret a2) g)) as Hstep.
  { intros a1 a2 f g ->. apply same_bind_ret. }
  assert (∀ k1 k2 a2,
            same (k1 (with_verbose b a2)) (k2 a2) →
            ∀ a1, a1 = with_verbose b a2 → same (bind (ret a1) k1) (bind (ret a2) k2))
    as Hgo by (intros; by apply Hstep).
  destruct (negb _).
  - repeat (destruct (String.eqb _ _);
            [lazymatch goal with
             | |- same (bind (ret _) _) (bind (ret ?a2) _) =>
                 apply (Hgo _ _ a2 (Hrest a2)); reflexivity
             end|]).
    apply same_bind_assoc, same_bind; [apply same_refl|intros _].
    lazymatch goal with
    | |- same (bind (ret _) _) (bind (ret ?a2) _) =>
        apply (Hgo _ _ a2 (Hrest a2)); reflexivity
    end.
  - apply (Hgo _ _ args (Hrest args)). by destruct args.
Qed.

(** [--verbose] changes the printing only: with the flag set or cleared the
    flag-driven script ends with the same result, leaves the same world and
    spawns the same commands with the same answers. *)
Theorem verbose_only_changes_printing env (b : bool) args w :
  effect (build_installer.main env (with_verbose b args) w)
  = effect (build_installer.main env args w).
Proof.
  pose proof (same_main env b args) as H. unfold same in H. exact (H w).
Qed.
